(** * docker-starter: a shallow embedding of [docker_starter.py]

    The program drives the [docker] command line and the Docker Hub registry
    to start, stop, check, upgrade, remove or purge a declared set of
    containers.  Everything the program does to the outside world goes through
    [subprocess.run], [requests], [os.makedirs], [shutil.rmtree] and [print];
    the embedding threads the history of these calls explicitly and takes the
    answers of the outside world from an environment that may depend on the
    whole history so far.

    What the embedding takes for granted:
    - [docker] can be executed and its output decodes; a [requests] call
      raises nothing but a [RequestException]; [print] does not fail;
    - a token answer that is JSON is an object whose [token] is a string or
      is missing;
    - the values of a configuration have the types that [_config_check] asks
      for, the keys and values of the [p], [v] and [e] dictionaries are taken
      as the strings that [format] makes of them, and an entry of [any] has
      its three components;
    - a worker thread is run to its end where it is started, and the polling
      loops of the coordinator are bounded by a number of rounds. *)

From Stdlib Require Import ZArith Ascii.
From stdpp Require Import base decidable option list strings gmap pretty.

Local Open Scope Z_scope.

(** ** Python string primitives used by the program *)

Module Py.

(** [s.split(sep)] for a one-character separator; [s.rsplit(sep)] without a
    bound on the number of splits gives the same list. *)
Fixpoint split (sep : ascii) (s : string) : list string :=
  match s with
  | EmptyString => [EmptyString]
  | String c s' =>
      if decide (c = sep) then EmptyString :: split sep s'
      else match split sep s' with
           | w :: ws => String c w :: ws
           | [] => [String c EmptyString]
           end
  end.

(** [s.rsplit(sep, 1)]: cut at the last separator, if there is one. *)
Fixpoint rsplit1 (sep : ascii) (s : string) : list string :=
  match s with
  | EmptyString => [EmptyString]
  | String c s' =>
      match rsplit1 sep s' with
      | [h; t] => [String c h; t]
      | _ => if decide (c = sep) then [EmptyString; s'] else [String c s']
      end
  end.

Fixpoint lstrip (c : ascii) (s : string) : string :=
  match s with
  | EmptyString => EmptyString
  | String a s' => if decide (a = c) then lstrip c s' else s
  end.

Fixpoint rstrip (c : ascii) (s : string) : string :=
  match s with
  | EmptyString => EmptyString
  | String a s' =>
      match rstrip c s' with
      | EmptyString => if decide (a = c) then EmptyString else String a EmptyString
      | r => String a r
      end
  end.

(** [s.strip(c)] for a one-character set. *)
Definition strip (c : ascii) (s : string) : string := rstrip c (lstrip c s).

(** [sep.join(l)] *)
Fixpoint join (sep : string) (l : list string) : string :=
  match l with
  | [] => EmptyString
  | [x] => x
  | x :: l' => x +:+ sep +:+ join sep l'
  end.

(** Truth value of a string: the empty string is false. *)
Definition truthy (s : string) : bool :=
  match s with EmptyString => false | _ => true end.

Definition startswith (c : ascii) (s : string) : bool :=
  match s with
  | String a _ => bool_decide (a = c)
  | EmptyString => false
  end.

Fixpoint endswith (c : ascii) (s : string) : bool :=
  match s with
  | EmptyString => false
  | String a EmptyString => bool_decide (a = c)
  | String _ s' => endswith c s'
  end.

(** [os.path.join(a, b)] of [posixpath], two arguments. *)
Definition path_join (a b : string) : string :=
  if startswith "/" b then b
  else if negb (truthy a) || endswith "/" a then a +:+ b
  else a +:+ "/" +:+ b.

(** [len(s)] *)
Definition len (s : string) : Z := Z.of_nat (String.length s).

End Py.


Definition NL : ascii := "010".
Definition DQUOTE : ascii := "034".

(** ** The outside world *)

(** What [subprocess.run] hands back, with the captured streams decoded. *)
Record CompletedProcess := {
  returncode : Z;
  stdout : string;
  stderr : string;
}.

(** Body of an HTTP answer as [rq.json()] sees it: not JSON at all (a
    [ValueError] with its message), or an object whose [token] entry is a
    string or is missing. *)
Inductive JsonBody :=
| JsonError (msg : string)
| JsonDict (token : option string).

(** The two response headers the program reads. *)
Record Headers := {
  Docker_Content_Digest : option string;
  Etag : option string;
}.

(** What the program reads of a response. *)
Record Response := {
  status_code : Z;
  json : JsonBody;
  headers : option Headers;
}.

(** A [requests] call either raises a [RequestException] or answers. *)
Inductive HttpResult :=
| RequestException (msg : string)
| Answer (rq : Response).

(** One interaction with the outside world, together with its answer. *)
Inductive Event :=
| ESubprocess (args : list string) (r : CompletedProcess)
| EAuthGet (scope : string) (r : HttpResult)
| ERegistryHead (url authorization : string) (r : HttpResult)
| EMakedirs (path : string) (ok : bool)
| ERmtree (path : string)
| EPrint (msg : string).

(** The outside world: every answer may depend on all that happened before. *)
Record Env := {
  subprocess_run : list Event -> list string -> CompletedProcess;
  requests_get_token : list Event -> string -> HttpResult;
  requests_head : list Event -> string -> string -> HttpResult;
  os_makedirs : list Event -> string -> bool;
}.

(** ** Exceptions and the monad of effects *)

(** The exceptions that the program can meet. *)
Inductive Exn :=
| RuntimeError (msg : string)
| ValueError
| AttributeError
| KeyError (key : string)
| OSError
| SystemExit (code : Z).

(** A value, or an exception on its way up. *)
Inductive Res (A : Type) :=
| Ok (a : A)
| Raise (e : Exn).
Arguments Ok {A} a.
Arguments Raise {A} e.

(** A computation reads the environment and the history and yields a result
    and the events it added, oldest first. *)
Definition M (A : Type) : Type := Env -> list Event -> Res A * list Event.

Definition ret {A} (a : A) : M A := fun _ _ => (Ok a, []).

Definition raise {A} (e : Exn) : M A := fun _ _ => (Raise e, []).

(** Sequence: the second part sees the history with the events of the first;
    an exception of the first part skips the second. *)
Definition bind {A B} (m : M A) (f : A -> M B) : M B :=
  fun env h =>
    match m env h with
    | (Ok a, ev1) => let '(r, ev2) := f a env (h ++ ev1) in (r, ev1 ++ ev2)
    | (Raise e, ev1) => (Raise e, ev1)
    end.

Declare Scope py_scope.
Delimit Scope py_scope with py.
Notation "x <- c1 ;; c2" := (bind c1 (fun x => c2))
  (at level 100, c1 at next level, right associativity) : py_scope.
Notation "c1 ;; c2" := (bind c1 (fun _ => c2))
  (at level 100, right associativity) : py_scope.
Local Open Scope py_scope.

(** A computation without effect. *)
Definition lift {A} (r : Res A) : M A := fun _ _ => (r, []).

Definition print (msg : string) : M unit := fun _ _ => (Ok tt, [EPrint msg]).

(** [subprocess.run(args, ...)] *)
Definition subprocess (args : list string) : M CompletedProcess :=
  fun env h => let r := subprocess_run env h args in (Ok r, [ESubprocess args r]).

(** The [GET] of [https://auth.docker.io/token] for a pull scope. *)
Definition auth_get (scope : string) : M HttpResult :=
  fun env h => let r := requests_get_token env h scope in (Ok r, [EAuthGet scope r]).

(** The [HEAD] of a manifest with an [Authorization] header. *)
Definition registry_head (url authorization : string) : M HttpResult :=
  fun env h =>
    let r := requests_head env h url authorization in
    (Ok r, [ERegistryHead url authorization r]).

(** [os.makedirs(path, exist_ok=True)] *)
Definition makedirs (path : string) : M unit :=
  fun env h =>
    let ok := os_makedirs env h path in
    (if ok then Ok tt else Raise OSError, [EMakedirs path ok]).

(** [shutil.rmtree(path, ignore_errors=True)] *)
Definition rmtree (path : string) : M unit := fun _ _ => (Ok tt, [ERmtree path]).

(** [self._cfg[key]] *)
Definition item {A} (key : string) (o : option A) : M A :=
  match o with
  | Some x => ret x
  | None => raise (KeyError key)
  end.

(** ** The registry client *)

Definition _docker_remote_sha256 (rep_tag : string) : M (option string) :=
  match Py.rsplit1 ":" rep_tag with
  | [registry; tag] =>
      rq <- auth_get ("repository:" +:+ registry +:+ ":pull");;
      match rq with
      | RequestException e => print ("Auth request error: " +:+ e);; ret None
      | Answer rq =>
          if negb (status_code rq =? 200) then
            print ("Auth response code: " +:+ pretty (status_code rq));; ret None
          else
            match json rq with
            | JsonError e => print ("Auth response error " +:+ e);; ret None
            | JsonDict token =>
                match token with
                | Some token =>
                    if negb (Py.truthy token) then print "Auth error: no token";; ret None
                    else
                      rq <- registry_head
                              ("https://registry-1.docker.io/v2/" +:+ registry
                                 +:+ "/manifests/" +:+ tag)
                              ("Bearer " +:+ token);;
                      match rq with
                      | RequestException e =>
                          print ("Registry request error: " +:+ e);; ret None
                      | Answer rq =>
                          if negb (status_code rq =? 200) then
                            print ("Registry response code: " +:+ pretty (status_code rq));;
                            ret None
                          else
                            match headers rq with
                            | None => print "Registry error - no headers";; ret None
                            | Some data =>
                                let sha256 := Docker_Content_Digest data in
                                let sha256 :=
                                  match sha256 with
                                  | Some s => if Py.truthy s then Some s else Etag data
                                  | None => Etag data
                                  end in
                                match sha256 with
                                | None =>
                                    print "Registry error headers parsing - sha256 not found";;
                                    raise AttributeError
                                | Some s => ret (Some (Py.strip DQUOTE s))
                                end
                            end
                      end
                | None => print "Auth error: no token";; ret None
                end
            end
      end
  | _ => raise ValueError
  end.

(** ** The docker command line *)

Definition __docker_run_fatal (cmd : list string) (fatal : bool) : M CompletedProcess :=
  run <- subprocess ("docker" :: cmd);;
  if negb (returncode run =? 0) && fatal then
    raise (RuntimeError ("Error docker " +:+ Py.join " " cmd +:+ ": " +:+ stderr run))
  else ret run.

Definition _docker_containers : M (list string) :=
  run <- __docker_run_fatal ["ps"; "-a"; "--format"; "{{.Names}}"] true;;
  ret (filter (fun line => 2 < Py.len line) (Py.split NL (stdout run))).

Definition _docker_stop (name : string) : M bool :=
  run <- __docker_run_fatal ["stop"; name] false;; ret (returncode run =? 0).

Definition _docker_start (name : string) : M bool :=
  run <- __docker_run_fatal ["start"; name] false;; ret (returncode run =? 0).

Definition _docker_rm (name : string) : M bool :=
  run <- __docker_run_fatal ["rm"; name] false;; ret (returncode run =? 0).

Definition _docker_rmi (rep_tag : string) : M bool :=
  run <- __docker_run_fatal ["rmi"; rep_tag] false;; ret (returncode run =? 0).

Definition _docker_pull (rep_tag : string) : M bool :=
  run <- __docker_run_fatal ["pull"; rep_tag] false;; ret (returncode run =? 0).

Definition _docker_build (rep_tag file path : string) : M bool :=
  let cmd := ["build"; "--rm"; "--no-cache"; "-t"; rep_tag; "-f"; file; path] in
  run <- __docker_run_fatal cmd false;; ret (returncode run =? 0).

Definition _docker_run (cmd : list string) : M bool :=
  run <- __docker_run_fatal ("run" :: cmd) false;; ret (returncode run =? 0).

(** The loop [for line in ...: rep_tag, x = line.rsplit(' ', 1); data[rep_tag] = x];
    a line without a space does not unpack into two names. *)
Fixpoint parse_listing (lines : list string) (data : gmap string string)
  : Res (gmap string string) :=
  match lines with
  | [] => Ok data
  | line :: lines =>
      match Py.rsplit1 " " line with
      | [rep_tag; x] => parse_listing lines (<[rep_tag := x]> data)
      | _ => Raise ValueError
      end
  end.

Definition _docker_images_sha256 : M (gmap string string) :=
  run <- __docker_run_fatal
           ["images"; "--digests"; "--format"; "{{.Repository}}:{{.Tag}} {{.Digest}}"] true;;
  lift (parse_listing (Py.split NL (Py.strip NL (stdout run))) ∅).

Definition _docker_images_id : M (gmap string string) :=
  run <- __docker_run_fatal ["images"; "--format"; "{{.Repository}}:{{.Tag}} {{.ID}}"] true;;
  lift (parse_listing (Py.split NL (Py.strip NL (stdout run))) ∅).

Definition _docker_repo_id : M (gset string) :=
  run <- __docker_run_fatal ["images"; "--format"; "{{.ID}}"] true;;
  ret (list_to_set (Py.split NL (Py.strip NL (stdout run)))).

(** ** Configuration and command line *)

(** One container's configuration dictionary.  A key that may be missing is an
    option; [p], [v] and [e] are dictionaries iterated in insertion order,
    [any] is a list of three-element entries [flag, separator, value]. *)
Record Cfg := {
  cfg_name : option string;
  cfg_image : option string;
  cfg_data_path : option string;
  cfg_dockerfile : option string;
  cfg_docker_path : option string;
  cfg_p : option (list (string * string));
  cfg_v : option (list (string * string));
  cfg_e : option (list (string * string));
  cfg_any : option (list (string * string * string));
  cfg_restart : option string;
}.

(** The six actions of the mutually exclusive, required argument group. *)
Inductive Action := Start | Stop | Update | Upgrade | Remove | Purge.

Global Instance Action_eq_dec : EqDecision Action.
Proof. solve_decision. Defined.

(** The parsed command line: [argparse] sets exactly one action flag. *)
Record Cli := {
  cli_action : Action;
  cli_e : option (list string);
  cli_b : bool;
  cli_t : bool;
  cli_f : bool;
}.

Definition cli_start (cli : Cli) : bool := bool_decide (cli_action cli = Start).
Definition cli_stop (cli : Cli) : bool := bool_decide (cli_action cli = Stop).
Definition cli_update (cli : Cli) : bool := bool_decide (cli_action cli = Update).
Definition cli_upgrade (cli : Cli) : bool := bool_decide (cli_action cli = Upgrade).
Definition cli_remove (cli : Cli) : bool := bool_decide (cli_action cli = Remove).
Definition cli_purge (cli : Cli) : bool := bool_decide (cli_action cli = Purge).

(** [key in self._cfg] for the keys that [_config_check] requires. *)
Definition has_key (cfg : Cfg) (key : string) : bool :=
  if decide (key = "name") then bool_decide (is_Some (cfg_name cfg))
  else if decide (key = "image") then bool_decide (is_Some (cfg_image cfg))
  else if decide (key = "data_path") then bool_decide (is_Some (cfg_data_path cfg))
  else false.

(** ** The per-container worker *)

Section Worker.

Variable _cfg : Cfg.
Variable _cli : Cli.
Variable _containers : list string.

(** The first loop of [_config_check]; its second loop checks the Python
    types of the values present, which the field types of [Cfg] fix. *)
Fixpoint _config_check_keys (keys : list string) : M bool :=
  match keys with
  | [] => ret true
  | key :: keys =>
      if negb (has_key _cfg key) then
        print ("'" +:+ key +:+ "' must be present");; ret false
      else _config_check_keys keys
  end.

Definition _config_check : M bool :=
  _config_check_keys ["name"; "image"; "data_path"].

Definition _pull : M bool :=
  if cli_b _cli then
    image <- item "image" (cfg_image _cfg);;
    dockerfile <- item "dockerfile" (cfg_dockerfile _cfg);;
    docker_path <- item "docker_path" (cfg_docker_path _cfg);;
    _docker_build image dockerfile docker_path
  else
    image <- item "image" (cfg_image _cfg);;
    _docker_pull image.

(** The command list that [_run] assembles, with the [makedir] flag. *)
Definition _run_cmd (name image data_path : string) : bool * list string :=
  let makedir := false in
  let cmd := ["-d"] in
  let cmd :=
    fold_left (fun cmd '(key, val) => cmd ++ ["-p"; key +:+ ":" +:+ val])
      (default [] (cfg_p _cfg)) cmd in
  let '(makedir, cmd) :=
    fold_left
      (fun '(_, cmd) '(key, val) =>
         (true, cmd ++ ["-v"; Py.path_join data_path key +:+ ":" +:+ val]))
      (default [] (cfg_v _cfg)) (makedir, cmd) in
  let cmd :=
    fold_left (fun cmd '(key, val) => cmd ++ ["-e"; key +:+ "=" +:+ val])
      (default [] (cfg_e _cfg)) cmd in
  let cmd :=
    match cli_e _cli with
    | Some envs => fold_left (fun cmd env => cmd ++ ["-e"; env]) envs cmd
    | None => cmd
    end in
  let cmd :=
    fold_left
      (fun cmd '(el0, el1, el2) =>
         if decide (el1 = " ") then cmd ++ [el0; el2]
         else cmd ++ [el0 +:+ el1 +:+ el2])
      (default [] (cfg_any _cfg)) cmd in
  let cmd := cmd ++ ["--restart=" +:+ default "always" (cfg_restart _cfg)] in
  let cmd := cmd ++ ["--name"; name] in
  let cmd := cmd ++ [image] in
  (makedir, cmd).

(** [_run]; the three keys that [_config_check] has made sure of are looked
    up first. *)
Definition _run : M bool :=
  data_path <- item "data_path" (cfg_data_path _cfg);;
  name <- item "name" (cfg_name _cfg);;
  image <- item "image" (cfg_image _cfg);;
  let '(makedir, cmd) := _run_cmd name image data_path in
  (if makedir then makedirs data_path else ret tt);;
  result <- _docker_run cmd;;
  let msg := if result then "docker run" else "Failed docker run" in
  print (msg +:+ " " +:+ Py.join " " cmd);;
  ret result.

(** Python's [None] result is the [None] of the option. *)
Definition _start : M (option bool) :=
  name <- item "name" (cfg_name _cfg);;
  if decide (name ∈ _containers) then
    r <- _docker_start name;; ret (Some r)
  else
    image <- item "image" (cfg_image _cfg);;
    images <- _docker_images_sha256;;
    failed <- match images !! image with
              | None => ok <- _pull;; ret (negb ok)
              | Some _ => ret false
              end;;
    if failed then print "Runtime error, exit.";; ret None
    else _run;; ret None.

Definition _stop : M bool :=
  name <- item "name" (cfg_name _cfg);;
  if decide (name ∈ _containers) then
    ok <- _docker_stop name;;
    if ok then print ("stop " +:+ name);; ret true
    else print ("Error stopping " +:+ name);; ret false
  else if cli_stop _cli then
    print ("Container " +:+ name +:+ " not found.");; ret true
  else ret true.

Definition _update (old_sha : option string) : M bool :=
  old_sha <- match old_sha with
             | Some s =>
                 if Py.truthy s then ret (Some s)
                 else
                   images <- _docker_images_sha256;;
                   image <- item "image" (cfg_image _cfg);;
                   ret (images !! image)
             | None =>
                 images <- _docker_images_sha256;;
                 image <- item "image" (cfg_image _cfg);;
                 ret (images !! image)
             end;;
  match old_sha with
  | None =>
      (if cli_update _cli then
         image <- item "image" (cfg_image _cfg);;
         print ("Local " +:+ image +:+ " not found. Use --start")
       else ret tt);;
      ret true
  | Some old_sha =>
      image <- item "image" (cfg_image _cfg);;
      new_sha <- _docker_remote_sha256 image;;
      match new_sha with
      | None => ret false
      | Some new_sha =>
          if decide (old_sha = new_sha) then
            print (image +:+ " up to date");; ret false
          else
            (if cli_update _cli then
               let msg := if decide (old_sha = "<none>")
                          then ". You build image? Use -b, -f for force pull"
                          else "" in
               print (image +:+ " update found. Use --upgrade" +:+ msg)
             else ret tt);;
            ret true
      end
  end.

Definition _allow_source_change (old_sha : string) : M bool :=
  let sources := ("hub", "local build") in
  let old := if negb (bool_decide (old_sha = "<none>")) then sources.1 else sources.2 in
  let new := if negb (cli_b _cli) then sources.1 else sources.2 in
  if negb (bool_decide (old = new)) && negb (cli_f _cli) then
    print ("Disallow! Use -f for change image source from " +:+ old +:+ " to " +:+ new);;
    ret false
  else ret true.

Definition __remove : M bool :=
  name <- item "name" (cfg_name _cfg);;
  if decide (name ∈ _containers) then _docker_rm name
  else ret true.

(** The condition [self._stop() and self.__remove()] of [_upgrade] and of
    [_remove]. *)
Definition _stop_and_remove : M bool :=
  stopped <- _stop;;
  if stopped then __remove else ret false.

Definition _rmi (id_ : option string) : M bool :=
  found <- match id_ with
           | Some i =>
               ids <- _docker_repo_id;;
               if decide (i ∈ ids) then ret true
               else
                 image <- item "image" (cfg_image _cfg);;
                 images <- _docker_images_sha256;;
                 ret (bool_decide (is_Some (images !! image)))
           | None =>
               image <- item "image" (cfg_image _cfg);;
               images <- _docker_images_sha256;;
               ret (bool_decide (is_Some (images !! image)))
           end;;
  if found then
    target <- match id_ with
              | Some i => if Py.truthy i then ret i else item "image" (cfg_image _cfg)
              | None => item "image" (cfg_image _cfg)
              end;;
    ok <- _docker_rmi target;;
    if negb ok then
      target <- match id_ with
                | Some i => if Py.truthy i then ret i else item "image" (cfg_image _cfg)
                | None => item "image" (cfg_image _cfg)
                end;;
      print ("Error delete " +:+ target +:+ " image. Maybe containers use it?");;
      ret false
    else ret true
  else ret true.

(** The part of [_upgrade] that follows the source check. *)
Definition _upgrade_from (old_sha old_id_ : string) : M (option bool) :=
  stale <- _update (Some old_sha);;
  if negb (stale || cli_b _cli) then ret None
  else
    pulled <- _pull;;
    if negb pulled then print "Runtime error, exit";; ret None
    else
      ready <- _stop_and_remove;;
      (if ready then _run;; ret tt else ret tt);;
      image <- item "image" (cfg_image _cfg);;
      match Py.rsplit1 ":" image with
      | [_; _] => _rmi (Some old_id_);; ret None
      | _ => raise ValueError
      end.

Definition _upgrade : M (option bool) :=
  images <- _docker_images_sha256;;
  image <- item "image" (cfg_image _cfg);;
  match images !! image with
  | None => _start
  | Some old_sha =>
      ids <- _docker_images_id;;
      image <- item "image" (cfg_image _cfg);;
      match ids !! image with
      | None =>
          name <- item "name" (cfg_name _cfg);;
          print ("Runtime error," +:+ name +:+ " ID not found, exit");; ret None
      | Some old_id_ =>
          allowed <- _allow_source_change old_sha;;
          if negb allowed then ret None
          else _upgrade_from old_sha old_id_
      end
  end.

Definition _remove : M bool :=
  _stop_and_remove;;
  _rmi None.

Definition _purge : M unit :=
  removed <- _remove;;
  if removed then
    data_path <- item "data_path" (cfg_data_path _cfg);;
    rmtree data_path
  else ret tt.

(** The thread body; it yields the value it leaves in [self._status]. *)
Definition run : M (option Z) :=
  ok <- _config_check;;
  (if negb ok then ret tt
   else if cli_start _cli then _start;; ret tt
   else if cli_stop _cli then _stop;; ret tt
   else if cli_update _cli then _update None;; ret tt
   else if cli_upgrade _cli then _upgrade;; ret tt
   else if cli_remove _cli then _remove;; ret tt
   else if cli_purge _cli then _purge
   else ret tt);;
  ret (Some 0).

End Worker.

(** ** The coordinator *)

(** A worker is a thread started by its constructor.  An exception that leaves
    [run] ends the thread (it does not reach the main thread) and [_status]
    keeps its initial [None].  The thread is run to its end at creation;
    [_StarterWorker] yields what [status()] answers from then on. *)
Definition _StarterWorker (cfg : Cfg) (cli : Cli) (containers : list string)
  : M (option Z) :=
  fun env h =>
    match run cfg cli containers env h with
    | (Ok status, ev) => (Ok status, ev)
    | (Raise _, ev) => (Ok None, ev)
    end.

(** The loop of [_check]; [exit(1)] raises [SystemExit(1)]. *)
Fixpoint _check_loop (t : bool) (cfgs : list Cfg) (images names : gset string) : M unit :=
  match cfgs with
  | [] => ret tt
  | cfg :: cfgs =>
      name <- item "name" (cfg_name cfg);;
      if decide (name ∈ names) then
        print ("Container name " +:+ name
                 +:+ " duplicated. It must be unique. UNACCEPTABLE!");;
        raise (SystemExit 1)
      else
        let names := {[name]} ∪ names in
        image <- item "image" (cfg_image cfg);;
        if t && bool_decide (image ∈ images) then
          print ("Image " +:+ image
                   +:+ " duplicated and threading enabled, don't use -t. UNACCEPTABLE!");;
          raise (SystemExit 1)
        else
          let images := {[image]} ∪ images in
          _check_loop t cfgs images names
  end.

Definition _check (cfgs : list Cfg) (cli : Cli) : M unit :=
  _check_loop (cli_t cli) cfgs ∅ ∅.

(** [while run.status() is None: time.sleep(2)] with a bound on the number of
    rounds: [true] when the loop is left within the bound.  The thread has
    ended, so the status does not change between rounds. *)
Fixpoint wait (fuel : nat) (status : option Z) : bool :=
  match fuel with
  | O => false
  | S fuel =>
      match status with
      | None => wait fuel status
      | Some _ => true
      end
  end.

(** The polling loop of [_all_once], with the same bound. *)
Fixpoint wait_all (fuel : nat) (runs : list (option Z)) : bool :=
  match fuel with
  | O => false
  | S fuel =>
      if existsb (fun status => bool_decide (status = None)) runs
      then wait_all fuel runs
      else true
  end.

(** [true]: the method returned; [false]: it was still polling when the bound
    was reached. *)
Fixpoint _one_by_one (fuel : nat) (cli : Cli) (containers : list string)
    (cfgs : list Cfg) : M bool :=
  match cfgs with
  | [] => ret true
  | cfg :: cfgs =>
      status <- _StarterWorker cfg cli containers;;
      if wait fuel status then _one_by_one fuel cli containers cfgs
      else ret false
  end.

(** The workers of [_all_once] are taken in the order of their creation, each
    to its end: one of the possible schedules of the threads. *)
Fixpoint start_all (cli : Cli) (containers : list string) (cfgs : list Cfg)
  : M (list (option Z)) :=
  match cfgs with
  | [] => ret []
  | cfg :: cfgs =>
      status <- _StarterWorker cfg cli containers;;
      runs <- start_all cli containers cfgs;;
      ret (status :: runs)
  end.

Definition _all_once (fuel : nat) (cli : Cli) (containers : list string)
    (cfgs : list Cfg) : M bool :=
  runs <- start_all cli containers cfgs;;
  ret (wait_all fuel runs).

(** [DockerStarter.__init__] on the list of configurations and the parsed
    command line. *)
Definition DockerStarter (fuel : nat) (cfgs : list Cfg) (cli : Cli) : M bool :=
  containers <- _docker_containers;;
  _check cfgs cli;;
  if cli_t cli then _all_once fuel cli containers cfgs
  else _one_by_one fuel cli containers cfgs.

(** The exit code of the process: [SystemExit] carries it, any other exception
    that reaches the top level gives 1, a normal end gives 0, and a process
    that is still polling has none. *)
Definition exit_code (r : Res bool) : option Z :=
  match r with
  | Ok true => Some 0
  | Ok false => None
  | Raise (SystemExit code) => Some code
  | Raise _ => Some 1
  end.

(** ** Reading traces *)

(** [docker verb ...] calls. *)
Definition is_docker (verb : string) (ev : Event) : bool :=
  match ev with
  | ESubprocess (prog :: verb' :: _) _ =>
      bool_decide (prog = "docker") && bool_decide (verb' = verb)
  | _ => false
  end.

(** Calls that only read: printing, the two registry requests, and the
    [docker ps] and [docker images] listings. *)
Definition read_only (ev : Event) : bool :=
  match ev with
  | EPrint _ | EAuthGet _ _ | ERegistryHead _ _ _ => true
  | ESubprocess _ _ => is_docker "ps" ev || is_docker "images" ev
  | _ => false
  end.

(** Every other call may change the containers, the images or the files. *)
Definition mutating (ev : Event) : bool := negb (read_only ev).

(** The call answered without error. *)
Definition succeeded (ev : Event) : bool :=
  match ev with
  | ESubprocess _ r => returncode r =? 0
  | EMakedirs _ ok => ok
  | _ => true
  end.

(** A mutating call, without its answer. *)
Inductive Call :=
| CSubprocess (args : list string)
| CMakedirs (path : string)
| CRmtree (path : string).

(** The call of a mutating event. *)
Definition call_of (ev : Event) : option Call :=
  if mutating ev then
    match ev with
    | ESubprocess args _ => Some (CSubprocess args)
    | EMakedirs path _ => Some (CMakedirs path)
    | ERmtree path => Some (CRmtree path)
    | _ => None
    end
  else None.

(** The mutating calls of a trace, in order. *)
Definition calls (evs : list Event) : list Call := omap call_of evs.

(** An image deletion that failed. *)
Definition failed_rmi (ev : Event) : bool :=
  is_docker "rmi" ev && negb (succeeded ev).

(** No image deletion. *)
Definition no_rmi (ev : Event) : bool := negb (is_docker "rmi" ev).

(** A pull or a build that succeeded. *)
Definition pulled (ev : Event) : bool :=
  (is_docker "pull" ev || is_docker "build" ev) && succeeded ev.

(** No directory creation. *)
Definition no_makedirs (ev : Event) : bool :=
  match ev with EMakedirs _ _ => false | _ => true end.

(** ** Failures of the digest lookup *)




(** ** Directories *)

(** The proper prefixes of a path that end before a separator, and the path:
    the directories [os.makedirs] makes sure of. *)
Fixpoint path_dirs (prefix path : string) : list string :=
  match path with
  | EmptyString => [prefix]
  | String c rest =>
      let next := prefix +:+ String c EmptyString in
      if decide (c = "/"%char) then
        (if Py.truthy prefix then [prefix] else []) ++ path_dirs next rest
      else path_dirs next rest
  end.

(** The directories that the successful [os.makedirs] calls of a trace have
    made sure of. *)
Fixpoint dirs_made (evs : list Event) : gset string :=
  match evs with
  | [] => ∅
  | EMakedirs path true :: evs => list_to_set (path_dirs "" path) ∪ dirs_made evs
  | _ :: evs => dirs_made evs
  end.

(** The events of a trace before the first [docker run]. *)
Fixpoint before_run (evs : list Event) : list Event :=
  match evs with
  | [] => []
  | ev :: evs => if is_docker "run" ev then [] else ev :: before_run evs
  end.

(** The configuration has volumes. *)
Definition has_volumes (cfg : Cfg) : bool :=
  match default [] (cfg_v cfg) with [] => false | _ => true end.

(** Directory creation, if any, is that of [data_path] for a configuration
    with volumes. *)
Definition makes_data_path_only (cfg : Cfg) (ev : Event) : bool :=
  match ev with
  | EMakedirs path _ => bool_decide (cfg_data_path cfg = Some path) && has_volumes cfg
  | _ => true
  end.

(** ** Frames *)

(** Every event that [m] adds satisfies [P], in every world and after every
    history. *)
Definition only {A} (P : Event -> bool) (m : M A) : Prop :=
  forall env h, Forall (fun ev => P ev = true) (m env h).2.

(** ** Descriptions of traces *)

(** What [_rmi] passes to [docker rmi]: [id_ or self._cfg['image']]. *)
Definition rmi_target (image : string) (id_ : option string) : string :=
  match id_ with
  | Some i => if Py.truthy i then i else image
  | None => image
  end.

(** The events of one image deletion answered by [c]: the call, and the
    report when it failed. *)
Definition rmi_events (target : string) (c : CompletedProcess) : list Event :=
  ESubprocess ["docker"; "rmi"; target] c
  :: if returncode c =? 0 then []
     else [EPrint ("Error delete " +:+ target +:+ " image. Maybe containers use it?")].

(** The events of one container creation, once the directory is there: the
    call and the report. *)
Definition run_events (cmd : list string) (c : CompletedProcess) : list Event :=
  [ESubprocess ("docker" :: "run" :: cmd) c;
   EPrint ((if returncode c =? 0 then "docker run" else "Failed docker run")
             +:+ " " +:+ Py.join " " cmd)].

(** Either nothing is deleted, or the trace ends with listings and one image
    deletion of [target], the result is [None], and a pull or build succeeded
    before ([seen] tells that it did already). *)
Definition deletes_last (target : string) (seen : bool)
    (r : Res (option bool)) (evs : list Event) : Prop :=
  Forall (fun ev => no_rmi ev = true) evs
  \/ exists front ro c,
       evs = front ++ ro ++ rmi_events target c
       /\ Forall (fun ev => no_rmi ev = true) front
       /\ seen || existsb pulled front = true
       /\ Forall (fun ev => read_only ev = true) ro
       /\ r = Ok None.

(** ** Provenance *)

(** Where an image comes from: pulled from the registry or built locally. *)
Inductive Source := Hub | LocalBuild.

Global Instance Source_eq_dec : EqDecision Source.
Proof. solve_decision. Defined.

Definition source_name (s : Source) : string :=
  match s with Hub => "hub" | LocalBuild => "local build" end.

(** The provenance read off the current digest: the sentinel means a local
    build. *)
Definition inferred_source (old_sha : string) : Source :=
  if decide (old_sha = "<none>") then LocalBuild else Hub.

(** The provenance that the build flag asks for. *)
Definition requested_source (cli : Cli) : Source :=
  if cli_b cli then LocalBuild else Hub.

(** ** The run invocation as the specification words it *)

(** One port-publish entry. *)
Definition port_entry (m : string * string) : list string :=
  ["-p"; m.1 +:+ ":" +:+ m.2].

(** One bind-mount entry: the host side is [data_path] joined with the
    subpath. *)
Definition mount_entry (data_path : string) (m : string * string) : list string :=
  ["-v"; Py.path_join data_path m.1 +:+ ":" +:+ m.2].

(** One environment entry of the configuration. *)
Definition env_entry (m : string * string) : list string :=
  ["-e"; m.1 +:+ "=" +:+ m.2].

(** One environment entry of the command line, as given. *)
Definition override_entry (env : string) : list string := ["-e"; env].

(** One extra argument [flag, separator, value]: a pair when the separator is
    a space, one token otherwise. *)
Definition extra_entry (el : string * string * string) : list string :=
  if decide (el.1.2 = " ") then [el.1.1; el.2] else [el.1.1 +:+ el.1.2 +:+ el.2].

(** The arguments in the fixed order of the specification. *)
Definition run_arguments (cfg : Cfg) (cli : Cli) (name image data_path : string)
  : list string :=
  ["-d"]
    ++ concat (map port_entry (default [] (cfg_p cfg)))
    ++ concat (map (mount_entry data_path) (default [] (cfg_v cfg)))
    ++ concat (map env_entry (default [] (cfg_e cfg)))
    ++ concat (map override_entry (default [] (cli_e cli)))
    ++ concat (map extra_entry (default [] (cfg_any cfg)))
    ++ ["--restart=" +:+ default "always" (cfg_restart cfg)]
    ++ ["--name"; name]
    ++ [image].

(** ** Sample worlds *)

(** A process that ended with [code] and printed [out]. *)
Definition completed (code : Z) (out : string) : CompletedProcess :=
  {| returncode := code; stdout := out; stderr := "" |}.

(** An HTTP answer with a status, a token in its body and headers. *)
Definition answer (code : Z) (token : option string) (hd : option Headers) : HttpResult :=
  Answer {| status_code := code; json := JsonDict token; headers := hd |}.

(** A world whose answers depend on the call only. *)
Definition world (docker : list string -> CompletedProcess) (auth head : HttpResult)
  : Env :=
  {| subprocess_run := fun _ args => docker (tail args);
     requests_get_token := fun _ _ => auth;
     requests_head := fun _ _ _ => head;
     os_makedirs := fun _ _ => true |}.

(** The configuration with the three required keys only. *)
Definition config (name image data_path : string) : Cfg :=
  {| cfg_name := Some name; cfg_image := Some image; cfg_data_path := Some data_path;
     cfg_dockerfile := None; cfg_docker_path := None;
     cfg_p := None; cfg_v := None; cfg_e := None; cfg_any := None;
     cfg_restart := None |}.

(** A command line without [-e]. *)
Definition command_line (action : Action) (b t f : bool) : Cli :=
  {| cli_action := action; cli_e := None; cli_b := b; cli_t := t; cli_f := f |}.

(** A listing line [ref value] with its line end. *)
Definition line (ref value : string) : string :=
  ref +:+ " " +:+ value +:+ String NL "".

(** [docker] with one image [repo:tag], digest [sha256:x] and ID [abc], and
    the containers [cont1] and [c1]; every other call answers [code]. *)
Definition docker_with_image (code : Z) (args : list string) : CompletedProcess :=
  match args with
  | "images" :: "--digests" :: _ => completed 0 (line "repo:tag" "sha256:x")
  | "images" :: "--format" :: "{{.ID}}" :: _ => completed 0 ("abc" +:+ String NL "")
  | "images" :: _ => completed 0 (line "repo:tag" "abc")
  | "ps" :: _ => completed 0 ("cont1" +:+ String NL "c1" +:+ String NL "")
  | _ => completed code ""
  end.

(** The same, but only [docker verb] answers [code]; the rest succeeds. *)
Definition docker_failing (verb : string) (code : Z) (args : list string)
  : CompletedProcess :=
  match args with
  | verb' :: _ =>
      if decide (verb' = verb) then completed code "" else docker_with_image 0 args
  | [] => completed 0 ""
  end.

(** [docker] whose image [repo:tag] was built locally: its digest is the
    sentinel. *)
Definition docker_local_build (args : list string) : CompletedProcess :=
  match args with
  | "images" :: "--digests" :: _ => completed 0 (line "repo:tag" "<none>")
  | _ => docker_with_image 0 args
  end.

(** [docker] that has other images only. *)
Definition docker_without_image (args : list string) : CompletedProcess :=
  match args with
  | "images" :: _ => completed 0 (line "other:1" "sha256:z")
  | _ => completed 0 ""
  end.

(** [docker] that prints nothing at all. *)
Definition docker_silent (args : list string) : CompletedProcess := completed 0 "".

(** A token answer with a token. *)
Definition token_ok : HttpResult := answer 200 (Some "tok") None.

(** A registry that answers the digest [sha256:y] in the entity tag. *)
Definition registry_ok : HttpResult :=
  answer 200 None
    (Some {| Docker_Content_Digest := None;
             Etag := Some (String DQUOTE "sha256:y" +:+ String DQUOTE "") |}).

(** A registry answer with neither content-digest nor entity-tag header. *)
Definition registry_without_digest : HttpResult :=
  answer 200 None (Some {| Docker_Content_Digest := None; Etag := None |}).


(** A configuration with one volume. *)
Definition config_with_volume : Cfg :=
  {| cfg_name := Some "c1"; cfg_image := Some "repo:tag"; cfg_data_path := Some "/d";
     cfg_dockerfile := None; cfg_docker_path := None;
     cfg_p := None; cfg_v := Some [("sub", "/x")]; cfg_e := None; cfg_any := None;
     cfg_restart := None |}.


(** ** Characters of a string *)

(** [c in s] for a one-character [c]. *)
Fixpoint has_char (c : ascii) (s : string) : bool :=
  match s with
  | EmptyString => false
  | String a s' => bool_decide (a = c) || has_char c s'
  end.

(** ** The architecture name *)

(** [get_arch] on the machine name that [os.uname()[4]] gives. *)
Definition get_arch (machine : string) : string :=
  let aarch : gmap string string :=
    <["armv7l" := "arm32v7"]> (<["aarch64" := "arm64v8"]> (<["x86_64" := "amd64"]> ∅)) in
  default "unknown" (aarch !! machine).

(** ** The configuration check on values of any type *)

(** What [_config_check] looks at in a value: which of [str], [dict] and
    [list] it is an instance of, if any (no value is an instance of two of
    them), and the name of its type. *)
Inductive PyClass := PyStr | PyDict | PyList | PyOther.

Global Instance PyClass_eq_dec : EqDecision PyClass.
Proof. solve_decision. Defined.

Record PyType := {
  instance_of : PyClass;
  type_name : string;
}.

(** [key.__name__] for the three classes of [type_check]. *)
Definition class_name (key : PyClass) : string :=
  match key with
  | PyStr => "str"
  | PyDict => "dict"
  | PyList => "list"
  | PyOther => "object"
  end.

(** The types that the field types of [Cfg] stand for. *)
Definition str_type : PyType := {| instance_of := PyStr; type_name := "str" |}.
Definition dict_type : PyType := {| instance_of := PyDict; type_name := "dict" |}.
Definition list_type : PyType := {| instance_of := PyList; type_name := "list" |}.

(** A configuration dictionary, each value reduced to its type. *)
Definition CfgTypes := gmap string PyType.

(** The dictionary [type_check], in the order of its keys. *)
Definition type_check : list (PyClass * list string) :=
  [(PyStr, ["name"; "image"; "data_path"; "dockerfile"; "data_path"; "restart"]);
   (PyDict, ["p"; "v"; "e"]);
   (PyList, ["any"])].

Section ConfigCheck.

Variable _cfg : CfgTypes.

(** [for key in ['name', 'image', 'data_path']], then [rest]. *)
Fixpoint _config_check_required (keys : list string) (rest : M bool) : M bool :=
  match keys with
  | [] => rest
  | key :: keys =>
      if negb (bool_decide (is_Some (_cfg !! key))) then
        print ("'" +:+ key +:+ "' must be present");; ret false
      else _config_check_required keys rest
  end.

(** [for opt in type_check[key]], then [rest]. *)
Fixpoint _config_check_options (key : PyClass) (opts : list string) (rest : M bool)
  : M bool :=
  match opts with
  | [] => rest
  | opt :: opts =>
      match _cfg !! opt with
      | Some value =>
          if negb (bool_decide (instance_of value = key)) then
            print ("Option '" +:+ opt +:+ "' must be " +:+ class_name key
                     +:+ ", not " +:+ type_name value);;
            ret false
          else _config_check_options key opts rest
      | None => _config_check_options key opts rest
      end
  end.

(** [for key in type_check], then [rest]. *)
Fixpoint _config_check_classes (checks : list (PyClass * list string)) (rest : M bool)
  : M bool :=
  match checks with
  | [] => rest
  | (key, opts) :: checks =>
      _config_check_options key opts (_config_check_classes checks rest)
  end.

(** [_config_check] with both of its loops. *)
Definition _config_check_untyped : M bool :=
  _config_check_required ["name"; "image"; "data_path"]
    (_config_check_classes type_check (ret true)).

End ConfigCheck.

(** The value of an option, if there is one, is an instance of the class. *)
Definition well_typed (cfg : CfgTypes) (key : PyClass) (opt : string) : bool :=
  match cfg !! opt with
  | Some value => bool_decide (instance_of value = key)
  | None => true
  end.

(** The dictionary of types behind a typed configuration. *)
Definition types_of (cfg : Cfg) : CfgTypes :=
  let put {A} (key : string) (ty : PyType) (o : option A) (m : CfgTypes) :=
    match o with Some _ => <[key := ty]> m | None => m end in
  put "name" str_type (cfg_name cfg)
    (put "image" str_type (cfg_image cfg)
    (put "data_path" str_type (cfg_data_path cfg)
    (put "dockerfile" str_type (cfg_dockerfile cfg)
    (put "docker_path" str_type (cfg_docker_path cfg)
    (put "p" dict_type (cfg_p cfg)
    (put "v" dict_type (cfg_v cfg)
    (put "e" dict_type (cfg_e cfg)
    (put "any" list_type (cfg_any cfg)
    (put "restart" str_type (cfg_restart cfg) ∅))))))))).

(** ** What an action may do *)

(** The calls that the worker of an action can make at all: the [docker]
    verbs, the registry requests, and the directory of the data. *)
Definition footprint (cfg : Cfg) (action : Action) (ev : Event) : bool :=
  match ev with
  | EPrint _ => true
  | EAuthGet _ _ | ERegistryHead _ _ _ =>
      bool_decide (action = Update) || bool_decide (action = Upgrade)
  | EMakedirs path _ =>
      (bool_decide (action = Start) || bool_decide (action = Upgrade))
      && bool_decide (cfg_data_path cfg = Some path)
  | ERmtree path =>
      bool_decide (action = Purge) && bool_decide (cfg_data_path cfg = Some path)
  | ESubprocess _ _ =>
      match action with
      | Start =>
          is_docker "start" ev || is_docker "images" ev || is_docker "pull" ev
          || is_docker "build" ev || is_docker "run" ev
      | Stop => is_docker "stop" ev
      | Update => is_docker "images" ev
      | Upgrade =>
          is_docker "start" ev || is_docker "images" ev || is_docker "pull" ev
          || is_docker "build" ev || is_docker "run" ev || is_docker "stop" ev
          || is_docker "rm" ev || is_docker "rmi" ev
      | Remove | Purge =>
          is_docker "stop" ev || is_docker "rm" ev || is_docker "images" ev
          || is_docker "rmi" ev
      end
  end.

(** No container listing. *)
Definition no_ps (ev : Event) : bool := negb (is_docker "ps" ev).

(** ** Outcomes *)

(** What [run] makes of the action it has chosen: status 0 unless the action
    raised. *)
Definition finish {A} (r : Res A * list Event) : Res (option Z) * list Event :=
  (match r.1 with Ok _ => Ok (Some 0) | Raise e => Raise e end, r.2).

(** The outcome [r] of what follows the events [evs]. *)
Definition after {A} (evs : list Event) (r : Res A * list Event) : Res A * list Event :=
  (r.1, evs ++ r.2).

(** * Properties *)

(** ** The string primitives on small inputs *)

Example split_lines :
  Py.split NL ("ab" +:+ String NL "cd" +:+ String NL "") = ["ab"; "cd"; ""].
Proof. reflexivity. Qed.

Example split_empty : Py.split NL "" = [""].
Proof. reflexivity. Qed.

Example rsplit1_two : Py.rsplit1 " " "a b c" = ["a b"; "c"].
Proof. reflexivity. Qed.

Example rsplit1_none : Py.rsplit1 " " "abc" = ["abc"].
Proof. reflexivity. Qed.

Example rsplit1_empty : Py.rsplit1 " " "" = [""].
Proof. reflexivity. Qed.

Example strip_quotes :
  Py.strip DQUOTE (String DQUOTE "sha256:ab" +:+ String DQUOTE "") = "sha256:ab".
Proof. reflexivity. Qed.

Example strip_lines : Py.strip NL (line "repo:tag" "abc") = "repo:tag abc".
Proof. reflexivity. Qed.

Example join_three : Py.join " " ["a"; "b"; "c"] = "a b c".
Proof. reflexivity. Qed.

Example path_join_plain : Py.path_join "/d" "sub" = "/d/sub".
Proof. reflexivity. Qed.

Example path_join_absolute : Py.path_join "/d" "/sub" = "/sub".
Proof. reflexivity. Qed.

Example path_join_slash : Py.path_join "/d/" "sub" = "/d/sub".
Proof. reflexivity. Qed.

Example path_dirs_nested : path_dirs "" "/d/sub" = ["/d"; "/d/sub"].
Proof. reflexivity. Qed.

Example listing_parsed :
  parse_listing (Py.split NL (Py.strip NL (line "a:1" "x" +:+ line "b:2" "y"))) ∅
  = Ok (<["b:2" := "y"]> (<["a:1" := "x"]> ∅)).
Proof. reflexivity. Qed.

Example listing_empty : parse_listing (Py.split NL (Py.strip NL "")) ∅ = Raise ValueError.
Proof. reflexivity. Qed.

(** A container whose name has two characters is not in the snapshot. *)
Example snapshot_drops_short_names :
  (_docker_containers (world (docker_with_image 0) token_ok registry_ok) []).1
  = Ok ["cont1"].
Proof. reflexivity. Qed.

(** ** The monad *)

Lemma bind_ok {A B} (m : M A) (f : A -> M B) env h a ev1 :
  m env h = (Ok a, ev1) ->
  bind m f env h = ((f a env (h ++ ev1)).1, ev1 ++ (f a env (h ++ ev1)).2).
Proof. intros Hm. unfold bind. rewrite Hm. by destruct (f a env (h ++ ev1)). Qed.

Lemma bind_raise {A B} (m : M A) (f : A -> M B) env h e ev1 :
  m env h = (Raise e, ev1) -> bind m f env h = (Raise e, ev1).
Proof. intros Hm. unfold bind. by rewrite Hm. Qed.

Lemma bind_unfold {A B} (m : M A) (f : A -> M B) env h :
  bind m f env h
  = match m env h with
    | (Ok a, ev1) => ((f a env (h ++ ev1)).1, ev1 ++ (f a env (h ++ ev1)).2)
    | (Raise e, ev1) => (Raise e, ev1)
    end.
Proof.
  destruct (m env h) as [[a|e] ev1] eqn:Hm;
    [by rewrite (bind_ok _ _ _ _ _ _ Hm) | by rewrite (bind_raise _ _ _ _ _ _ Hm)].
Qed.

Lemma bind_ret {A B} (a : A) (f : A -> M B) env h :
  bind (ret a) f env h = f a env h.
Proof. unfold bind, ret. rewrite app_nil_r. by destruct (f a env h). Qed.

Lemma bind_item {A B} key (x : A) (f : A -> M B) env h :
  bind (item key (Some x)) f env h = f x env h.
Proof. apply bind_ret. Qed.

Lemma bind_print {B} msg (f : unit -> M B) env h :
  bind (print msg) f env h
  = ((f tt env (h ++ [EPrint msg])).1, EPrint msg :: (f tt env (h ++ [EPrint msg])).2).
Proof. by rewrite (bind_ok _ _ _ _ tt [EPrint msg]). Qed.

(** ** Frames: what kind of events a computation can add *)


Section Frames.

Context (P : Event -> bool).

Lemma only_ret {A} (a : A) : only P (ret a).
Proof. intros env h. constructor. Qed.

Lemma only_raise {A} e : only P (@raise A e).
Proof. intros env h. constructor. Qed.

Lemma only_lift {A} (r : Res A) : only P (lift r).
Proof. intros env h. constructor. Qed.

Lemma only_item {A} key (o : option A) : only P (item key o).
Proof. destruct o; [apply only_ret | apply only_raise]. Qed.

Lemma only_bind {A B} (m : M A) (f : A -> M B) :
  only P m -> (forall a, only P (f a)) -> only P (bind m f).
Proof.
  intros Hm Hf env h. unfold bind.
  specialize (Hm env h). destruct (m env h) as [[a|e] ev1]; simpl in *; [|done].
  specialize (Hf a env (h ++ ev1)). destruct (f a env (h ++ ev1)) as [r ev2].
  simpl in *. by apply Forall_app.
Qed.

Lemma only_print msg : P (EPrint msg) = true -> only P (print msg).
Proof. intros HP env h. by repeat constructor. Qed.

Lemma only_subprocess args :
  (forall r, P (ESubprocess args r) = true) -> only P (subprocess args).
Proof. intros HP env h. by repeat constructor. Qed.

Lemma only_auth_get scope :
  (forall r, P (EAuthGet scope r) = true) -> only P (auth_get scope).
Proof. intros HP env h. by repeat constructor. Qed.

Lemma only_registry_head url authorization :
  (forall r, P (ERegistryHead url authorization r) = true) ->
  only P (registry_head url authorization).
Proof. intros HP env h. by repeat constructor. Qed.

Lemma only_makedirs path :
  (forall ok, P (EMakedirs path ok) = true) -> only P (makedirs path).
Proof. intros HP env h. by repeat constructor. Qed.

Lemma only_rmtree path : P (ERmtree path) = true -> only P (rmtree path).
Proof. intros HP env h. by repeat constructor. Qed.

Lemma only_docker cmd fatal :
  (forall r, P (ESubprocess ("docker" :: cmd) r) = true) ->
  only P (__docker_run_fatal cmd fatal).
Proof.
  intros HP. apply only_bind.
  - by apply only_subprocess.
  - intros run. destruct (_ && _); [apply only_raise | apply only_ret].
Qed.

Lemma only_config_check cfg :
  (forall msg, P (EPrint msg) = true) -> only P (_config_check cfg).
Proof.
  intros HP. unfold _config_check. generalize ["name"; "image"; "data_path"].
  intros keys. induction keys as [|key keys IH]; simpl; [apply only_ret|].
  destruct (negb _); [|done].
  apply only_bind; [by apply only_print | intros _; apply only_ret].
Qed.

End Frames.

(** One step of a frame proof: split a sequence or a branch, or settle a
    single call with [tac]. *)
Ltac frame_step tac :=
  match goal with
  | |- only _ (bind _ _) => apply only_bind; [| intros ?]
  | |- only _ (ret _) => apply only_ret
  | |- only _ (raise _) => apply only_raise
  | |- only _ (lift _) => apply only_lift
  | |- only _ (item _ _) => apply only_item
  | |- only _ (print _) => apply only_print; tac
  | |- only _ (rmtree _) => apply only_rmtree; tac
  | |- only _ (makedirs _) => apply only_makedirs; intros; tac
  | |- only _ (auth_get _) => apply only_auth_get; intros; tac
  | |- only _ (registry_head _ _) => apply only_registry_head; intros; tac
  | |- only _ (subprocess _) => apply only_subprocess; intros; tac
  | |- only _ (_config_check _) => apply only_config_check; intros; tac
  | |- only _ (match ?x with _ => _ end) => destruct x
  end.

Ltac frame_with tac := repeat (frame_step tac).

Ltac frame := frame_with ltac:(reflexivity).

(** Open the worker down to the single calls. *)
Ltac open_worker :=
  unfold run, _purge, _remove, _upgrade, _upgrade_from, _rmi, _stop_and_remove,
    __remove, _allow_source_change, _update, _stop, _start, _run, _pull;
  unfold _docker_remote_sha256, _docker_images_sha256, _docker_images_id,
    _docker_repo_id, _docker_containers, _docker_stop, _docker_start, _docker_rm,
    _docker_rmi, _docker_pull, _docker_build, _docker_run;
  unfold __docker_run_fatal.

Lemma remote_sha256_reads rep_tag : only read_only (_docker_remote_sha256 rep_tag).
Proof. open_worker. frame. Qed.

Lemma images_sha256_reads : only read_only _docker_images_sha256.
Proof. open_worker. frame. Qed.

Lemma images_id_reads : only read_only _docker_images_id.
Proof. open_worker. frame. Qed.

Lemma repo_id_reads : only read_only _docker_repo_id.
Proof. open_worker. frame. Qed.

Lemma containers_reads : only read_only _docker_containers.
Proof. open_worker. frame. Qed.

Lemma update_reads cfg cli old_sha : only read_only (_update cfg cli old_sha).
Proof. open_worker. frame. Qed.

Lemma mutating_false ev : mutating ev = false <-> read_only ev = true.
Proof. unfold mutating. by destruct (read_only ev). Qed.

Lemma calls_app evs1 evs2 : calls (evs1 ++ evs2) = calls evs1 ++ calls evs2.
Proof. apply omap_app. Qed.

Lemma calls_reads evs : Forall (fun ev => read_only ev = true) evs -> calls evs = [].
Proof.
  induction 1 as [|ev evs Hev _ IH]; [done|].
  unfold calls in *. simpl. unfold call_of at 1, mutating. by rewrite Hev.
Qed.

(** ** The update action *)

(** C6: for every configuration, every snapshot, every world and every
    history, the worker run with the update action adds no mutating call: no
    pull, build, run, start, stop, container or image removal, and no
    directory creation or deletion.  All digest-comparison outcomes are
    covered, since the world is arbitrary. *)
Theorem update_never_mutates cfg e b t f containers env h :
  let cli := {| cli_action := Update; cli_e := e; cli_b := b; cli_t := t; cli_f := f |} in
  Forall (fun ev => mutating ev = false) (run cfg cli containers env h).2
  /\ calls (run cfg cli containers env h).2 = []
  /\ forall old_sha h',
       Forall (fun ev => mutating ev = false) (_update cfg cli old_sha env h').2.
Proof.
  intros cli.
  assert (Hrun : only read_only (run cfg cli containers)).
  { unfold run.
    change (cli_start cli) with false. change (cli_stop cli) with false.
    change (cli_update cli) with true. cbv iota. open_worker. frame. }
  split_and!.
  - eapply Forall_impl; [apply Hrun|]. intros ev. by rewrite mutating_false.
  - apply calls_reads, Hrun.
  - intros old_sha h'. eapply Forall_impl; [apply update_reads|].
    intros ev. by rewrite mutating_false.
Qed.


(** ** The steps of the worker, one by one *)

(** Rewrite the first step of a sequence with what is known of it. *)
Ltac exec H :=
  first [ rewrite (bind_ok _ _ _ _ _ _ H) | rewrite (bind_raise _ _ _ _ _ _ H) ].

Lemma docker_call cmd env h :
  __docker_run_fatal cmd false env h
  = (Ok (subprocess_run env h ("docker" :: cmd)),
     [ESubprocess ("docker" :: cmd) (subprocess_run env h ("docker" :: cmd))]).
Proof.
  unfold __docker_run_fatal, bind, subprocess.
  rewrite andb_false_r. reflexivity.
Qed.

(** A listing call fails as a whole when [docker] does. *)
Lemma docker_list cmd env h :
  __docker_run_fatal cmd true env h
  = let c := subprocess_run env h ("docker" :: cmd) in
    (if returncode c =? 0 then Ok c
     else Raise (RuntimeError ("Error docker " +:+ Py.join " " cmd +:+ ": " +:+ stderr c)),
     [ESubprocess ("docker" :: cmd) c]).
Proof.
  unfold __docker_run_fatal, bind, subprocess. cbv zeta.
  by destruct (returncode _ =? 0).
Qed.

Lemma docker_stop_eq name env h :
  _docker_stop name env h
  = let c := subprocess_run env h ["docker"; "stop"; name] in
    (Ok (returncode c =? 0), [ESubprocess ["docker"; "stop"; name] c]).
Proof. unfold _docker_stop. by exec (docker_call ["stop"; name] env h). Qed.

Lemma docker_start_eq name env h :
  _docker_start name env h
  = let c := subprocess_run env h ["docker"; "start"; name] in
    (Ok (returncode c =? 0), [ESubprocess ["docker"; "start"; name] c]).
Proof. unfold _docker_start. by exec (docker_call ["start"; name] env h). Qed.

Lemma docker_rm_eq name env h :
  _docker_rm name env h
  = let c := subprocess_run env h ["docker"; "rm"; name] in
    (Ok (returncode c =? 0), [ESubprocess ["docker"; "rm"; name] c]).
Proof. unfold _docker_rm. by exec (docker_call ["rm"; name] env h). Qed.

Lemma docker_rmi_eq target env h :
  _docker_rmi target env h
  = let c := subprocess_run env h ["docker"; "rmi"; target] in
    (Ok (returncode c =? 0), [ESubprocess ["docker"; "rmi"; target] c]).
Proof. unfold _docker_rmi. by exec (docker_call ["rmi"; target] env h). Qed.

Lemma docker_pull_eq image env h :
  _docker_pull image env h
  = let c := subprocess_run env h ["docker"; "pull"; image] in
    (Ok (returncode c =? 0), [ESubprocess ["docker"; "pull"; image] c]).
Proof. unfold _docker_pull. by exec (docker_call ["pull"; image] env h). Qed.

Lemma docker_build_eq image file path env h :
  _docker_build image file path env h
  = let cmd := ["docker"; "build"; "--rm"; "--no-cache"; "-t"; image; "-f"; file; path] in
    let c := subprocess_run env h cmd in
    (Ok (returncode c =? 0), [ESubprocess cmd c]).
Proof.
  unfold _docker_build. cbv zeta.
  by exec (docker_call ["build"; "--rm"; "--no-cache"; "-t"; image; "-f"; file; path] env h).
Qed.

Lemma docker_run_eq cmd env h :
  _docker_run cmd env h
  = let c := subprocess_run env h ("docker" :: "run" :: cmd) in
    (Ok (returncode c =? 0), [ESubprocess ("docker" :: "run" :: cmd) c]).
Proof. unfold _docker_run. by exec (docker_call ("run" :: cmd) env h). Qed.

Lemma images_sha256_eq env h :
  _docker_images_sha256 env h
  = let cmd := ["docker"; "images"; "--digests"; "--format";
                "{{.Repository}}:{{.Tag}} {{.Digest}}"] in
    let c := subprocess_run env h cmd in
    (if returncode c =? 0 then parse_listing (Py.split NL (Py.strip NL (stdout c))) ∅
     else Raise (RuntimeError ("Error docker " +:+ Py.join " " (tail cmd) +:+ ": " +:+ stderr c)),
     [ESubprocess cmd c]).
Proof.
  unfold _docker_images_sha256, bind. rewrite docker_list. cbv zeta.
  by destruct (returncode _ =? 0).
Qed.

Lemma repo_id_eq env h :
  _docker_repo_id env h
  = let cmd := ["docker"; "images"; "--format"; "{{.ID}}"] in
    let c := subprocess_run env h cmd in
    (if returncode c =? 0
     then Ok (list_to_set (Py.split NL (Py.strip NL (stdout c))))
     else Raise (RuntimeError ("Error docker " +:+ Py.join " " (tail cmd) +:+ ": " +:+ stderr c)),
     [ESubprocess cmd c]).
Proof.
  unfold _docker_repo_id, bind. rewrite docker_list. cbv zeta.
  by destruct (returncode _ =? 0).
Qed.

Section Steps.

Context (cfg : Cfg) (cli : Cli) (containers : list string).
Context (name image data_path : string).
Context (Hname : cfg_name cfg = Some name).
Context (Himage : cfg_image cfg = Some image).
Context (Hdata : cfg_data_path cfg = Some data_path).

Lemma config_check_ok env h : _config_check cfg env h = (Ok true, []).
Proof.
  unfold _config_check, _config_check_keys, has_key. simpl.
  rewrite Hname, Himage, Hdata. reflexivity.
Qed.

Lemma stop_eq env h :
  _stop cfg cli containers env h =
  if decide (name ∈ containers) then
    let c := subprocess_run env h ["docker"; "stop"; name] in
    (Ok (returncode c =? 0),
     [ESubprocess ["docker"; "stop"; name] c;
      EPrint (if returncode c =? 0 then "stop " +:+ name
              else "Error stopping " +:+ name)])
  else
    (Ok true,
     if cli_stop cli then [EPrint ("Container " +:+ name +:+ " not found.")] else []).
Proof.
  unfold _stop. rewrite Hname, bind_item.
  destruct (decide (name ∈ containers)); [|by destruct (cli_stop cli)].
  exec (docker_stop_eq name env h). cbv zeta.
  by destruct (returncode _ =? 0).
Qed.

Lemma remove_container_eq env h :
  __remove cfg containers env h =
  if decide (name ∈ containers) then
    let c := subprocess_run env h ["docker"; "rm"; name] in
    (Ok (returncode c =? 0), [ESubprocess ["docker"; "rm"; name] c])
  else (Ok true, []).
Proof.
  unfold __remove. rewrite Hname, bind_item.
  destruct (decide (name ∈ containers)); [apply docker_rm_eq | done].
Qed.

(** Stop, then container removal: the removal is tried only after a stop that
    succeeded. *)
Lemma stop_and_remove_eq env h :
  _stop_and_remove cfg cli containers env h =
  if decide (name ∈ containers) then
    let c1 := subprocess_run env h ["docker"; "stop"; name] in
    let stop := [ESubprocess ["docker"; "stop"; name] c1;
                 EPrint (if returncode c1 =? 0 then "stop " +:+ name
                         else "Error stopping " +:+ name)] in
    if returncode c1 =? 0 then
      let c2 := subprocess_run env (h ++ stop) ["docker"; "rm"; name] in
      (Ok (returncode c2 =? 0), stop ++ [ESubprocess ["docker"; "rm"; name] c2])
    else (Ok false, stop)
  else
    (Ok true,
     if cli_stop cli then [EPrint ("Container " +:+ name +:+ " not found.")] else []).
Proof.
  unfold _stop_and_remove, bind. rewrite stop_eq.
  destruct (decide (name ∈ containers)) as [Hin|Hin]; cbv zeta.
  - destruct (returncode _ =? 0) eqn:Hrc; [|done].
    rewrite remove_container_eq, decide_True by done. done.
  - rewrite remove_container_eq, decide_False by done.
    by rewrite app_nil_r.
Qed.

Lemma pull_eq env h :
  _pull cfg cli env h =
  if cli_b cli then
    match cfg_dockerfile cfg, cfg_docker_path cfg with
    | Some file, Some path => _docker_build image file path env h
    | Some _, None => (Raise (KeyError "docker_path"), [])
    | None, _ => (Raise (KeyError "dockerfile"), [])
    end
  else _docker_pull image env h.
Proof.
  unfold _pull. rewrite Himage. destruct (cli_b cli); rewrite bind_item; [|done].
  destruct (cfg_dockerfile cfg); [rewrite bind_item|done].
  destruct (cfg_docker_path cfg); [by rewrite bind_item|done].
Qed.

Lemma run_eq env h :
  _run cfg cli env h =
  let '(makedir, cmd) := _run_cmd cfg cli name image data_path in
  let ok := os_makedirs env h data_path in
  let mk := if makedir then [EMakedirs data_path ok] else [] in
  if makedir && negb ok then (Raise OSError, mk)
  else
    let c := subprocess_run env (h ++ mk) ("docker" :: "run" :: cmd) in
    (Ok (returncode c =? 0), mk ++ run_events cmd c).
Proof.
  unfold _run. rewrite Hname, Himage, Hdata, !bind_item.
  destruct (_run_cmd cfg cli name image data_path) as [[] cmd]; cbv zeta.
  - unfold bind at 1, makedirs. destruct (os_makedirs env h data_path); [|done].
    simpl negb. cbv iota beta. simpl andb. cbv iota.
    exec (docker_run_eq cmd env (h ++ [EMakedirs data_path true])). cbv zeta.
    rewrite bind_print. reflexivity.
  - rewrite bind_ret. simpl andb. cbv iota.
    exec (docker_run_eq cmd env h). cbv zeta. rewrite app_nil_r.
    rewrite bind_print. reflexivity.
Qed.

(** The deletion itself, once [_rmi] has found the image. *)
Lemma rmi_delete_eq id_ env h :
  (target <- match id_ with
             | Some i => if Py.truthy i then ret i else item "image" (cfg_image cfg)
             | None => item "image" (cfg_image cfg)
             end;;
   ok <- _docker_rmi target;;
   if negb ok then
     target <- match id_ with
               | Some i => if Py.truthy i then ret i else item "image" (cfg_image cfg)
               | None => item "image" (cfg_image cfg)
               end;;
     print ("Error delete " +:+ target +:+ " image. Maybe containers use it?");;
     ret false
   else ret true)%py env h
  = let c := subprocess_run env h ["docker"; "rmi"; rmi_target image id_] in
    (Ok (returncode c =? 0), rmi_events (rmi_target image id_) c).
Proof.
  rewrite Himage.
  assert (Htarget : forall B (f : string -> M B) env h,
    bind match id_ with
         | Some i => if Py.truthy i then ret i else item "image" (Some image)
         | None => item "image" (Some image)
         end f env h = f (rmi_target image id_) env h).
  { intros B f env' h'. unfold rmi_target.
    destruct id_ as [i|]; [destruct (Py.truthy i)|]; apply bind_ret. }
  rewrite Htarget. exec (docker_rmi_eq (rmi_target image id_) env h).
  cbv zeta. unfold rmi_events.
  destruct (returncode _ =? 0); [done|].
  cbn [negb]. rewrite Htarget, bind_print. reflexivity.
Qed.

Lemma tracked_eq env h :
  (image <- item "image" (cfg_image cfg);;
   images <- _docker_images_sha256;;
   ret (bool_decide (is_Some (images !! image))))%py env h
  = (match (_docker_images_sha256 env h).1 with
     | Ok images => Ok (bool_decide (is_Some (images !! image)))
     | Raise e => Raise e
     end, (_docker_images_sha256 env h).2).
Proof.
  rewrite Himage, bind_item. unfold bind, ret.
  destruct (_docker_images_sha256 env h) as [[images|e] l]; simpl; [|done].
  by rewrite app_nil_r.
Qed.

(** Image deletion by reference: tried exactly when the digest listing still
    has the reference. *)
Lemma rmi_by_reference_eq env h :
  _rmi cfg None env h =
  let l := (_docker_images_sha256 env h).2 in
  match (_docker_images_sha256 env h).1 with
  | Ok images =>
      if bool_decide (is_Some (images !! image)) then
        let c := subprocess_run env (h ++ l) ["docker"; "rmi"; image] in
        (Ok (returncode c =? 0), l ++ rmi_events image c)
      else (Ok true, l)
  | Raise e => (Raise e, l)
  end.
Proof.
  unfold _rmi. unfold bind at 1. rewrite tracked_eq.
  destruct (_docker_images_sha256 env h) as [[images|e] l]; simpl; [|done].
  destruct (bool_decide (is_Some (images !! image))).
  - by rewrite (rmi_delete_eq None).
  - unfold ret. by rewrite app_nil_r.
Qed.

(** The shape of every image deletion step: listings, then nothing or one
    deletion with its report. *)
Lemma rmi_shape id_ env h :
  exists ro tail,
    (_rmi cfg id_ env h).2 = ro ++ tail
    /\ Forall (fun ev => read_only ev = true) ro
    /\ ((tail = [] /\ (_rmi cfg id_ env h).1 <> Ok false)
        \/ (exists c, tail = rmi_events (rmi_target image id_) c
                      /\ (_rmi cfg id_ env h).1 = Ok (returncode c =? 0))).
Proof.
  unfold _rmi.
  match goal with
  | |- context [bind ?found _] =>
      assert (Hro : only read_only found) by (open_worker; frame);
      specialize (Hro env h);
      destruct (found env h) as [[[]|e] ro] eqn:Hf
  end.
  - exec Hf. rewrite rmi_delete_eq. cbv zeta.
    eexists ro, _. split_and!; [done|done|]. right. by eexists.
  - exec Hf. exists ro, []. split_and!; [done|done|]. by left.
  - exec Hf. exists ro, []. rewrite app_nil_r. split_and!; [done|done|]. by left.
Qed.

End Steps.

Lemma cli_flags cli :
  (cli_start cli, cli_stop cli, cli_update cli, cli_upgrade cli, cli_remove cli, cli_purge cli)
  = match cli_action cli with
    | Start => (true, false, false, false, false, false)
    | Stop => (false, true, false, false, false, false)
    | Update => (false, false, true, false, false, false)
    | Upgrade => (false, false, false, true, false, false)
    | Remove => (false, false, false, false, true, false)
    | Purge => (false, false, false, false, false, true)
    end.
Proof.
  unfold cli_start, cli_stop, cli_update, cli_upgrade, cli_remove, cli_purge.
  by destruct (cli_action cli).
Qed.

(** Fix the action flags of the command line from the action. *)
Ltac set_action H :=
  let F := fresh "F" in
  match type of H with
  | cli_action ?cli = _ =>
      pose proof (cli_flags cli) as F; rewrite H in F;
      let F1 := fresh in let F2 := fresh in let F3 := fresh in
      let F4 := fresh in let F5 := fresh in let F6 := fresh in
      injection F as F1 F2 F3 F4 F5 F6;
      rewrite ?F1, ?F2, ?F3, ?F4, ?F5, ?F6; clear F1 F2 F3 F4 F5 F6
  end.

(** ** The remove action *)

Section Removal.

Context (cfg : Cfg) (cli : Cli) (containers : list string).
Context (name image data_path : string).
Context (Hname : cfg_name cfg = Some name).
Context (Himage : cfg_image cfg = Some image).
Context (Hdata : cfg_data_path cfg = Some data_path).

(** The events of stop and container removal in an action other than stop. *)
Lemma stop_and_remove_events env h :
  cli_stop cli = false ->
  let c1 := subprocess_run env h ["docker"; "stop"; name] in
  let stop :=
    if decide (name ∈ containers) then
      [ESubprocess ["docker"; "stop"; name] c1;
       EPrint (if returncode c1 =? 0 then "stop " +:+ name else "Error stopping " +:+ name)]
    else [] in
  let c2 := subprocess_run env (h ++ stop) ["docker"; "rm"; name] in
  let rm :=
    if decide (name ∈ containers) then
      if returncode c1 =? 0 then [ESubprocess ["docker"; "rm"; name] c2] else []
    else [] in
  exists ready, _stop_and_remove cfg cli containers env h = (Ok ready, stop ++ rm).
Proof.
  intros Hstop. rewrite (stop_and_remove_eq _ _ _ _ Hname), Hstop.
  destruct (decide (name ∈ containers)); cbv zeta.
  - destruct (returncode _ =? 0); eexists; [done|]. by rewrite app_nil_r.
  - by eexists.
Qed.

Lemma remove_eq env h :
  cli_stop cli = false ->
  let before := (_stop_and_remove cfg cli containers env h).2 in
  _remove cfg cli containers env h
  = ((_rmi cfg None env (h ++ before)).1, before ++ (_rmi cfg None env (h ++ before)).2).
Proof.
  intros Hstop. destruct (stop_and_remove_events env h Hstop) as [ready Hsr].
  unfold _remove. exec Hsr. by rewrite Hsr.
Qed.

End Removal.

(** C7 (amended): the remove action stops the container when the snapshot has
    it, removes the container only after a stop that succeeded, and then, in
    every case, lists the images and deletes the image by its reference when
    the listing still has it.  A failed stop and a failed image deletion are
    reported; a failed stop leaves the container removal out, a failed
    container removal leaves nothing out. *)
Theorem remove_steps cfg cli containers name image data_path env h :
  cfg_name cfg = Some name ->
  cfg_image cfg = Some image ->
  cfg_data_path cfg = Some data_path ->
  cli_action cli = Remove ->
  let c1 := subprocess_run env h ["docker"; "stop"; name] in
  let stop :=
    if decide (name ∈ containers) then
      [ESubprocess ["docker"; "stop"; name] c1;
       EPrint (if returncode c1 =? 0 then "stop " +:+ name else "Error stopping " +:+ name)]
    else [] in
  let c2 := subprocess_run env (h ++ stop) ["docker"; "rm"; name] in
  let rm :=
    if decide (name ∈ containers) then
      if returncode c1 =? 0 then [ESubprocess ["docker"; "rm"; name] c2] else []
    else [] in
  let listing := _docker_images_sha256 env (h ++ stop ++ rm) in
  let c3 := subprocess_run env (h ++ stop ++ rm ++ listing.2) ["docker"; "rmi"; image] in
  let rmi :=
    match listing.1 with
    | Ok images =>
        if bool_decide (is_Some (images !! image)) then rmi_events image c3 else []
    | Raise _ => []
    end in
  run cfg cli containers env h
  = (match listing.1 with Ok _ => Ok (Some 0) | Raise e => Raise e end,
     stop ++ rm ++ listing.2 ++ rmi).
Proof.
  intros Hname Himage Hdata Haction. intros.
  unfold run. exec (config_check_ok cfg name image data_path Hname Himage Hdata env h).
  set_action Haction. cbn [negb]. rewrite app_nil_r, app_nil_l.
  assert (Hstop : cli_stop cli = false) by by set_action Haction.
  destruct (stop_and_remove_events cfg cli containers name Hname env h Hstop)
    as [ready Hsr].
  fold c1 stop c2 rm in Hsr.
  pose proof (remove_eq cfg cli containers name Hname env h Hstop) as Hrem.
  rewrite Hsr in Hrem. cbv zeta in Hrem. simpl in Hrem.
  rewrite (rmi_by_reference_eq cfg image Himage) in Hrem.
  fold listing in Hrem. cbv zeta in Hrem.
  unfold bind. rewrite Hrem.
  subst rmi c3. destruct listing as [[images|e] l]; simpl.
  - destruct (bool_decide _); simpl.
    + by rewrite !app_nil_r, <- !app_assoc.
    + by rewrite !app_nil_r, <- ?app_assoc.
  - by rewrite ?app_nil_r, <- ?app_assoc.
Qed.

(** The explicit trace of a removal in a world where the stop fails: the
    snapshot has the container, the stop fails and is reported, and the image
    is listed and deleted. *)
Lemma remove_steps_witness :
  let cfg := config "cont1" "repo:tag" "/d" in
  let cli := command_line Remove false false false in
  let env := world (docker_failing "stop" 1) token_ok registry_ok in
  cfg_name cfg = Some "cont1" /\ cfg_image cfg = Some "repo:tag"
  /\ cfg_data_path cfg = Some "/d" /\ cli_action cli = Remove
  /\ run cfg cli ["cont1"] env []
     = (Ok (Some 0),
        [ESubprocess ["docker"; "stop"; "cont1"] (completed 1 "");
         EPrint "Error stopping cont1";
         ESubprocess ["docker"; "images"; "--digests"; "--format";
                      "{{.Repository}}:{{.Tag}} {{.Digest}}"]
           (completed 0 (line "repo:tag" "sha256:x"));
         ESubprocess ["docker"; "rmi"; "repo:tag"] (completed 0 "")]).
Proof.
  intros cfg cli env. do 4 (split; [reflexivity|]).
  pose proof (remove_steps cfg cli ["cont1"] "cont1" "repo:tag" "/d" env []
                eq_refl eq_refl eq_refl eq_refl) as H.
  vm_compute in H. vm_compute. exact H.
Defined.

(** C7, as stated, fails: the snapshot has the container and the stop fails;
    the removal of the container is then not attempted at all, only the image
    deletion is. *)
Lemma remove_failed_stop_skips_container :
  let cfg := config "cont1" "repo:tag" "/d" in
  let cli := command_line Remove false false false in
  let env := world (docker_failing "stop" 1) token_ok registry_ok in
  let evs := (run cfg cli ["cont1"] env []).2 in
  "cont1" ∈ ["cont1"]
  /\ existsb (fun ev => is_docker "stop" ev && negb (succeeded ev)) evs = true
  /\ existsb (is_docker "rm") evs = false
  /\ calls evs = [CSubprocess ["docker"; "stop"; "cont1"];
                  CSubprocess ["docker"; "rmi"; "repo:tag"]].
Proof.
  intros cfg cli env evs. split_and!; [by left | by vm_compute ..].
Qed.

(** ** The purge action *)

Lemma only_impl {A} (P Q : Event -> bool) (m : M A) :
  (forall ev, P ev = true -> Q ev = true) -> only P m -> only Q m.
Proof. intros HPQ Hm env h. eapply Forall_impl; [apply Hm | apply HPQ]. Qed.

Lemma read_only_not_docker verb ev :
  verb <> "ps" -> verb <> "images" -> read_only ev = true -> is_docker verb ev = false.
Proof.
  intros Hps Himages. destruct ev as [[|prog [|verb' args]] r| | | | |]; try done.
  simpl. intros [Hev|Hev]%orb_true_iff;
    apply andb_true_iff in Hev as [_ Hev]; apply bool_decide_eq_true in Hev; subst;
    rewrite andb_false_iff; right; by apply bool_decide_eq_false.
Qed.

(** Stop and container removal delete no image. *)
Lemma stop_and_remove_no_rmi cfg cli containers :
  only (fun ev => negb (is_docker "rmi" ev)) (_stop_and_remove cfg cli containers).
Proof.
  open_worker. frame.
Qed.

Lemma no_failed_rmi evs :
  Forall (fun ev => negb (is_docker "rmi" ev) = true) evs ->
  existsb failed_rmi evs = false.
Proof.
  induction 1 as [|ev evs Hev _ IH]; [done|]. simpl. rewrite IH, orb_false_r.
  unfold failed_rmi. by destruct (is_docker "rmi" ev).
Qed.

Lemma reads_no_failed_rmi evs :
  Forall (fun ev => read_only ev = true) evs -> existsb failed_rmi evs = false.
Proof.
  intros Hro. apply no_failed_rmi. eapply Forall_impl; [apply Hro|].
  intros ev Hev. simpl. by rewrite (read_only_not_docker "rmi").
Qed.

Lemma failed_rmi_events target c :
  existsb failed_rmi (rmi_events target c) = negb (returncode c =? 0).
Proof.
  unfold rmi_events. cbn [existsb]. unfold failed_rmi at 1. simpl.
  by destruct (returncode c =? 0).
Qed.

Lemma remove_result cfg cli containers name image env h b :
  cfg_name cfg = Some name ->
  cfg_image cfg = Some image ->
  cli_stop cli = false ->
  (_remove cfg cli containers env h).1 = Ok b ->
  existsb failed_rmi (_remove cfg cli containers env h).2 = negb b.
Proof.
  intros Hname Himage Hstop.
  rewrite (remove_eq cfg cli containers name Hname env h Hstop). cbv zeta.
  pose proof (stop_and_remove_no_rmi cfg cli containers env h) as Hbefore.
  apply no_failed_rmi in Hbefore.
  destruct (_stop_and_remove cfg cli containers env h) as [ready before].
  simpl in *. rewrite existsb_app, Hbefore. simpl.
  destruct (rmi_shape cfg image Himage None env (h ++ before))
    as (ro & tail & -> & Hro & [[-> Hres]|[c [-> ->]]]).
  - intros Hb. rewrite app_nil_r, (reads_no_failed_rmi _ Hro).
    destruct b; [done|]. by destruct Hres.
  - intros [= <-]. by rewrite existsb_app, (reads_no_failed_rmi _ Hro), failed_rmi_events.
Qed.

(** C8 (amended): the purge action runs the remove action and then deletes
    the [data_path] tree exactly when the removal did not raise and no image
    deletion failed in it; a failed stop or a failed container removal does
    not keep the tree.  The deletion ignores errors, so a missing [data_path]
    is no failure, and the worker ends with status 0 whenever the removal did
    not raise. *)
Theorem purge_steps cfg cli containers name image data_path env h :
  cfg_name cfg = Some name ->
  cfg_image cfg = Some image ->
  cfg_data_path cfg = Some data_path ->
  cli_action cli = Purge ->
  let removal := _remove cfg cli containers env h in
  run cfg cli containers env h
  = match removal.1 with
    | Ok _ =>
        (Ok (Some 0),
         removal.2 ++ if existsb failed_rmi removal.2 then [] else [ERmtree data_path])
    | Raise e => (Raise e, removal.2)
    end.
Proof.
  intros Hname Himage Hdata Haction removal.
  assert (Hstop : cli_stop cli = false) by by set_action Haction.
  pose proof (remove_result cfg cli containers name image env h) as Hres.
  fold removal in Hres.
  unfold run. exec (config_check_ok cfg name image data_path Hname Himage Hdata env h).
  set_action Haction. cbn [negb]. rewrite app_nil_r, app_nil_l.
  unfold _purge, bind. fold removal.
  destruct removal as [[b|e] evs]; simpl in *; [|done].
  rewrite (Hres b) by done. rewrite Hdata.
  destruct b; simpl; by rewrite ?app_nil_r.
Qed.

(** A purge in a world where the stop fails: the container is not removed,
    the image is, and so is the data. *)
Lemma purge_steps_witness :
  let cfg := config "cont1" "repo:tag" "/d" in
  let cli := command_line Purge false false false in
  let env := world (docker_failing "stop" 1) token_ok registry_ok in
  cfg_name cfg = Some "cont1" /\ cfg_image cfg = Some "repo:tag"
  /\ cfg_data_path cfg = Some "/d" /\ cli_action cli = Purge
  /\ run cfg cli ["cont1"] env []
     = (Ok (Some 0),
        [ESubprocess ["docker"; "stop"; "cont1"] (completed 1 "");
         EPrint "Error stopping cont1";
         ESubprocess ["docker"; "images"; "--digests"; "--format";
                      "{{.Repository}}:{{.Tag}} {{.Digest}}"]
           (completed 0 (line "repo:tag" "sha256:x"));
         ESubprocess ["docker"; "rmi"; "repo:tag"] (completed 0 "");
         ERmtree "/d"]).
Proof.
  intros cfg cli env. do 4 (split; [reflexivity|]).
  pose proof (purge_steps cfg cli ["cont1"] "cont1" "repo:tag" "/d" env []
                eq_refl eq_refl eq_refl eq_refl) as H.
  vm_compute in H. vm_compute. exact H.
Defined.

(** C8, as stated, fails: when the image deletion of the removal fails, the
    purge leaves the data where it is, and the worker still ends with
    status 0. *)
Lemma purge_keeps_data_after_failed_rmi :
  let cfg := config "cont1" "repo:tag" "/d" in
  let cli := command_line Purge false false false in
  let env := world (docker_failing "rmi" 1) token_ok registry_ok in
  let result := run cfg cli ["cont1"] env [] in
  result.1 = Ok (Some 0)
  /\ existsb failed_rmi result.2 = true
  /\ calls result.2 = [CSubprocess ["docker"; "stop"; "cont1"];
                       CSubprocess ["docker"; "rm"; "cont1"];
                       CSubprocess ["docker"; "rmi"; "repo:tag"]].
Proof. intros cfg cli env result. split_and!; by vm_compute. Qed.

(** ** The source check of the upgrade action *)

Lemma allow_source_change_eq cli old_sha env h :
  _allow_source_change cli old_sha env h =
  if decide (inferred_source old_sha <> requested_source cli /\ cli_f cli = false) then
    (Ok false,
     [EPrint ("Disallow! Use -f for change image source from "
                +:+ source_name (inferred_source old_sha) +:+ " to "
                +:+ source_name (requested_source cli))])
  else (Ok true, []).
Proof.
  unfold _allow_source_change, inferred_source, requested_source.
  destruct (decide (old_sha = "<none>")) as [->|Hne].
  - destruct (cli_b cli), (cli_f cli); simpl; try done.
  - rewrite (bool_decide_eq_false_2 (old_sha = "<none>")) by done.
    destruct (cli_b cli), (cli_f cli); simpl; try done.
Qed.

(** ** The run invocation *)

Lemma fold_left_extend {A} (f : list string -> A -> list string)
    (g : A -> list string) (l : list A) (init : list string) :
  (forall cmd x, f cmd x = cmd ++ g x) ->
  fold_left f l init = init ++ concat (map g l).
Proof.
  intros Hf. revert init. induction l as [|x l IH]; intros init; simpl.
  - by rewrite app_nil_r.
  - by rewrite IH, Hf, <- app_assoc.
Qed.

Lemma fold_left_extend_flag {A} (f : bool * list string -> A -> bool * list string)
    (g : A -> list string) (l : list A) (flag : bool) (init : list string) :
  (forall flag cmd x, f (flag, cmd) x = (true, cmd ++ g x)) ->
  fold_left f l (flag, init)
  = (match l with [] => flag | _ => true end, init ++ concat (map g l)).
Proof.
  intros Hf. revert flag init. induction l as [|x l IH]; intros flag init; simpl.
  - by rewrite app_nil_r.
  - rewrite Hf, IH, <- app_assoc. by destruct l.
Qed.

(** The command that [_run] builds step by step is the concatenation that the
    specification describes; directories are asked for exactly when there
    are volumes. *)
Lemma run_cmd_eq cfg cli name image data_path :
  _run_cmd cfg cli name image data_path
  = (has_volumes cfg, run_arguments cfg cli name image data_path).
Proof.
  unfold _run_cmd, run_arguments, has_volumes.
  rewrite (fold_left_extend _ port_entry) by (by intros cmd [key val]).
  rewrite (fold_left_extend_flag _ (mount_entry data_path))
    by (by intros flag cmd [key val]).
  assert (Hextra : forall cmd (el : string * string * string),
    (let '(el0, el1, el2) := el in
     if decide (el1 = " ") then cmd ++ [el0; el2] else cmd ++ [el0 +:+ el1 +:+ el2])
    = cmd ++ extra_entry el).
  { intros cmd [[el0 el1] el2]. unfold extra_entry. simpl. by destruct (decide _). }
  rewrite (fold_left_extend _ extra_entry) by done.
  destruct (cli_e cli) as [envs|]; simpl default.
  - rewrite (fold_left_extend _ override_entry) by done.
    rewrite (fold_left_extend _ env_entry) by (by intros cmd [key val]).
    by rewrite <- !app_assoc.
  - rewrite (fold_left_extend _ env_entry) by (by intros cmd [key val]).
    by rewrite <- !app_assoc.
Qed.



(** ** Directory creation *)

Lemma append_char_assoc prefix c rest :
  (prefix +:+ String c "") +:+ rest = prefix +:+ String c rest.
Proof.
  induction prefix as [|a prefix IH]; [done|].
  change (String a ((prefix +:+ String c "") +:+ rest) = String a (prefix +:+ String c rest)).
  by f_equal.
Qed.

Lemma append_empty_r s : s +:+ "" = s.
Proof.
  induction s as [|a s IH]; [done|].
  change (String a (s +:+ "") = String a s). by f_equal.
Qed.

(** [os.makedirs] makes sure of the path it is given. *)
Lemma path_dirs_self prefix path : prefix +:+ path ∈ path_dirs prefix path.
Proof.
  revert prefix. induction path as [|c rest IH]; intros prefix; simpl.
  - rewrite append_empty_r. by left.
  - rewrite <- (append_char_assoc prefix c rest).
    destruct (decide (c = "/"%char)); [apply elem_of_app; right|]; apply IH.
Qed.

(** Opening the worker, but for [_run]. *)
Ltac open_actions :=
  unfold run, _purge, _remove, _upgrade, _upgrade_from, _rmi, _stop_and_remove,
    __remove, _allow_source_change, _update, _stop, _start, _pull;
  unfold _docker_remote_sha256, _docker_images_sha256, _docker_images_id,
    _docker_repo_id, _docker_containers, _docker_stop, _docker_start, _docker_rm,
    _docker_rmi, _docker_pull, _docker_build;
  unfold __docker_run_fatal.

Lemma run_makes_data_path_only cfg cli :
  only (makes_data_path_only cfg) (_run cfg cli).
Proof.
  intros env h.
  destruct (cfg_data_path cfg) as [data_path|] eqn:Hdata;
    [|unfold _run; rewrite Hdata; constructor].
  destruct (cfg_name cfg) as [name|] eqn:Hname;
    [|unfold _run; rewrite Hdata, Hname; constructor].
  destruct (cfg_image cfg) as [image|] eqn:Himage;
    [|unfold _run; rewrite Hdata, Hname, Himage; constructor].
  rewrite (run_eq cfg cli name image data_path Hname Himage Hdata), run_cmd_eq.
  cbv zeta. unfold run_events.
  destruct (has_volumes cfg) eqn:Hv, (os_makedirs env h data_path); simpl.
  all: repeat constructor.
  all: simpl; by rewrite Hdata, Hv, bool_decide_eq_true_2.
Qed.

Lemma worker_makes_data_path_only cfg cli containers :
  only (makes_data_path_only cfg) (run cfg cli containers).
Proof.
  open_actions. frame.
  all: apply run_makes_data_path_only.
Qed.

(** C10 (amended): for a configuration with volumes, [_run] first asks
    [os.makedirs] for [data_path] itself, and issues the run call only when
    that succeeded, so [data_path] is there before the container is created;
    the subdirectories of the single volumes are not created by the program.
    Whatever the action, a worker creates no other directory than the
    [data_path] of a configuration with volumes, and the actions other than
    start and upgrade create none. *)
Theorem run_creates_data_path :
  (forall cfg cli name image data_path env h,
     cfg_name cfg = Some name ->
     cfg_image cfg = Some image ->
     cfg_data_path cfg = Some data_path ->
     has_volumes cfg = true ->
     let evs := (_run cfg cli env h).2 in
     (exists ok, head evs = Some (EMakedirs data_path ok))
     /\ (existsb (is_docker "run") evs = true ->
         before_run evs = [EMakedirs data_path true]
         /\ data_path ∈ dirs_made (before_run evs)))
  /\ (forall cfg cli containers env h,
        Forall (fun ev => makes_data_path_only cfg ev = true)
          (run cfg cli containers env h).2)
  /\ (forall cfg cli containers env h,
        cli_action cli <> Start -> cli_action cli <> Upgrade ->
        Forall (fun ev => no_makedirs ev = true) (run cfg cli containers env h).2).
Proof.
  split_and!.
  - intros cfg cli name image data_path env h Hname Himage Hdata Hv evs. subst evs.
    rewrite (run_eq cfg cli name image data_path Hname Himage Hdata), run_cmd_eq, Hv.
    cbv zeta. unfold run_events.
    destruct (os_makedirs env h data_path); simpl.
    + split; [by eexists|]. intros _. split; [done|].
      apply elem_of_union_l, elem_of_list_to_set, (path_dirs_self "" data_path).
    + split; [by eexists|]. done.
  - intros. apply worker_makes_data_path_only.
  - intros cfg cli containers env h Hstart Hupgrade.
    assert (H : only no_makedirs (run cfg cli containers)); [|apply H].
    unfold run.
    destruct (cli_action cli) eqn:Haction; try done; set_action Haction;
      cbv iota; open_actions; frame.
Qed.

(** A container with one volume is started in a world without its image: the
    program makes sure of [/d] before the run call. *)
Lemma run_creates_data_path_witness :
  let cfg := config_with_volume in
  let cli := command_line Start false false false in
  let env := world docker_without_image token_ok registry_ok in
  (cfg_name cfg = Some "c1" /\ cfg_image cfg = Some "repo:tag"
   /\ cfg_data_path cfg = Some "/d" /\ has_volumes cfg = true
   /\ existsb (is_docker "run") (_run cfg cli env []).2 = true)
  /\ "/d" ∈ dirs_made (before_run (_run cfg cli env []).2).
Proof.
  intros cfg cli env. split; [split_and!; reflexivity|].
  destruct run_creates_data_path as (H & _ & _).
  apply (H cfg cli "c1" "repo:tag" "/d" env [] eq_refl eq_refl eq_refl eq_refl).
  reflexivity.
Defined.

(** C10, as stated, fails: the configuration declares the volume [sub], the
    run call is issued with the mount of [/d/sub], and before it only [/d]
    was made sure of, not [/d/sub]. *)
Lemma volume_subdirectory_not_created :
  let cfg := config_with_volume in
  let cli := command_line Start false false false in
  let env := world docker_without_image token_ok registry_ok in
  let evs := (run cfg cli [] env []).2 in
  cfg_v cfg = Some [("sub", "/x")]
  /\ calls evs
     = [CSubprocess ["docker"; "pull"; "repo:tag"];
        CMakedirs "/d";
        CSubprocess ["docker"; "run"; "-d"; "-v"; "/d/sub:/x"; "--restart=always";
                     "--name"; "c1"; "repo:tag"]]
  /\ bool_decide (Py.path_join "/d" "sub" ∈ dirs_made (before_run evs)) = false
  /\ bool_decide ("/d" ∈ dirs_made (before_run evs)) = true.
Proof. intros cfg cli env evs. split_and!; by vm_compute. Qed.

(** ** Failures of the digest lookup *)













(** ** The upgrade action *)

Lemma images_id_eq env h :
  _docker_images_id env h
  = let cmd := ["docker"; "images"; "--format"; "{{.Repository}}:{{.Tag}} {{.ID}}"] in
    let c := subprocess_run env h cmd in
    (if returncode c =? 0 then parse_listing (Py.split NL (Py.strip NL (stdout c))) ∅
     else Raise (RuntimeError ("Error docker " +:+ Py.join " " (tail cmd) +:+ ": " +:+ stderr c)),
     [ESubprocess cmd c]).
Proof.
  unfold _docker_images_id, bind. rewrite docker_list. cbv zeta.
  by destruct (returncode _ =? 0).
Qed.

Lemma read_only_no_rmi evs :
  Forall (fun ev => read_only ev = true) evs -> Forall (fun ev => no_rmi ev = true) evs.
Proof.
  intros Hro. eapply Forall_impl; [apply Hro|]. intros ev Hev. unfold no_rmi.
  by rewrite (read_only_not_docker "rmi").
Qed.

(** A first step that deletes nothing keeps the shape. *)
Lemma deletes_last_bind {A} (m : M A) (f : A -> M (option bool)) env h target seen :
  only no_rmi m ->
  (forall a ev1, m env h = (Ok a, ev1) ->
     deletes_last target seen (f a env (h ++ ev1)).1 (f a env (h ++ ev1)).2) ->
  deletes_last target seen (bind m f env h).1 (bind m f env h).2.
Proof.
  intros Hm Hf. rewrite bind_unfold. specialize (Hm env h).
  destruct (m env h) as [[a|e] ev1]; simpl in *; [|by left].
  destruct (Hf a ev1 eq_refl) as [Hno|(front & ro & c & -> & Hfront & Hseen & Hro & ->)].
  - left. by apply Forall_app.
  - right. exists (ev1 ++ front), ro, c. split_and!; try done.
    + by rewrite app_assoc.
    + by apply Forall_app.
    + rewrite existsb_app. destruct seen; [done|]. simpl in *.
      by rewrite Hseen, orb_true_r.
Qed.

(** The pull or build step: after it succeeded, a pull has been seen. *)
Lemma deletes_last_pull cfg cli (f : bool -> M (option bool)) env h target :
  (forall ev1, deletes_last target true (f true env (h ++ ev1)).1 (f true env (h ++ ev1)).2) ->
  (forall ev1, deletes_last target false (f false env (h ++ ev1)).1 (f false env (h ++ ev1)).2) ->
  deletes_last target false (bind (_pull cfg cli) f env h).1 (bind (_pull cfg cli) f env h).2.
Proof.
  intros Htrue Hfalse. rewrite bind_unfold.
  assert (Hno : only no_rmi (_pull cfg cli)) by (open_worker; frame).
  specialize (Hno env h).
  assert (Hpulled : (_pull cfg cli env h).1 = Ok true ->
                    existsb pulled (_pull cfg cli env h).2 = true).
  { unfold _pull.
    destruct (cfg_image cfg) as [image|]; [|by destruct (cli_b cli)].
    destruct (cli_b cli); rewrite bind_item.
    - destruct (cfg_dockerfile cfg) as [file|]; [rewrite bind_item|done].
      destruct (cfg_docker_path cfg) as [path|]; [rewrite bind_item|done].
      rewrite docker_build_eq. cbv zeta. simpl. intros [= Hrc].
      unfold pulled. simpl. by rewrite Hrc.
    - rewrite docker_pull_eq. cbv zeta. simpl. intros [= Hrc].
      unfold pulled. simpl. by rewrite Hrc. }
  destruct (_pull cfg cli env h) as [[[]|e] ev1]; simpl in *; [| |by left].
  - destruct (Htrue ev1) as [Hrest|(front & ro & c & -> & Hfront & _ & Hro & ->)].
    + left. by apply Forall_app.
    + right. exists (ev1 ++ front), ro, c. split_and!; try done.
      * by rewrite app_assoc.
      * by apply Forall_app.
      * by rewrite existsb_app, Hpulled.
  - destruct (Hfalse ev1) as [Hrest|(front & ro & c & -> & Hfront & Hseen & Hro & ->)].
    + left. by apply Forall_app.
    + right. exists (ev1 ++ front), ro, c. split_and!; try done.
      * by rewrite app_assoc.
      * by apply Forall_app.
      * simpl in *. by rewrite existsb_app, Hseen, orb_true_r.
Qed.

(** The last step of an upgrade: the deletion of the old image. *)
Lemma deletes_last_rmi cfg image old_id_ env h :
  cfg_image cfg = Some image ->
  deletes_last (rmi_target image (Some old_id_)) true
    ((_rmi cfg (Some old_id_);; ret (@None bool)) env h).1
    ((_rmi cfg (Some old_id_);; ret (@None bool)) env h).2.
Proof.
  intros Himage. rewrite bind_unfold.
  destruct (rmi_shape cfg image Himage (Some old_id_) env h)
    as (ro & tail & Hevs & Hro & Htail).
  destruct (_rmi cfg (Some old_id_) env h) as [[b|e] evs]; simpl in *; subst evs.
  - rewrite app_nil_r. destruct Htail as [[-> _]|(c & -> & _)].
    + left. rewrite app_nil_r. by apply read_only_no_rmi.
    + right. exists [], ro, c. by split_and!.
  - destruct Htail as [[-> _]|(c & _ & [=])].
    left. rewrite app_nil_r. by apply read_only_no_rmi.
Qed.

Lemma upgrade_from_shape cfg cli containers image old_sha old_id_ env h :
  cfg_image cfg = Some image ->
  deletes_last (rmi_target image (Some old_id_)) false
    (_upgrade_from cfg cli containers old_sha old_id_ env h).1
    (_upgrade_from cfg cli containers old_sha old_id_ env h).2.
Proof.
  intros Himage. unfold _upgrade_from.
  apply deletes_last_bind; [open_worker; frame|]. intros stale ev1 _.
  destruct (negb (stale || cli_b cli)); [by left|].
  apply deletes_last_pull; intros ev2; simpl; [|left; by repeat constructor].
  apply deletes_last_bind; [open_worker; frame|]. intros ready ev3 _.
  apply deletes_last_bind; [open_worker; frame|]. intros [] ev4 _.
  rewrite Himage, bind_item.
  destruct (Py.rsplit1 ":" image) as [|? [|? []]]; try by left.
  by apply deletes_last_rmi.
Qed.

Lemma upgrade_shape cfg cli containers env h :
  Forall (fun ev => no_rmi ev = true) (_upgrade cfg cli containers env h).2
  \/ exists image old_id_ ids cid front ro c,
       cfg_image cfg = Some image
       /\ (_upgrade cfg cli containers env h).2
          = front ++ ro ++ rmi_events (rmi_target image (Some old_id_)) c
       /\ Forall (fun ev => no_rmi ev = true) front
       /\ existsb pulled front = true
       /\ Forall (fun ev => read_only ev = true) ro
       /\ (_upgrade cfg cli containers env h).1 = Ok None
       /\ (exists before after,
             front = before
                       ++ ESubprocess ["docker"; "images"; "--format";
                                       "{{.Repository}}:{{.Tag}} {{.ID}}"] cid
                       :: after
             /\ Forall (fun ev => read_only ev = true) before)
       /\ parse_listing (Py.split NL (Py.strip NL (stdout cid))) ∅ = Ok ids
       /\ ids !! image = Some old_id_.
Proof.
  unfold _upgrade. rewrite bind_unfold.
  pose proof (images_sha256_reads env h) as Hread1.
  pose proof (read_only_no_rmi _ (images_sha256_reads env h)) as Hev1.
  destruct (_docker_images_sha256 env h) as [[images|e] ev1];
    simpl in Hread1, Hev1 |- *; [|by left].
  destruct (cfg_image cfg) as [image|] eqn:Himage;
    [rewrite bind_item | left; simpl; by rewrite app_nil_r].
  destruct (images !! image) as [old_sha|].
  2: { left. apply Forall_app. split; [done|].
       assert (H : only no_rmi (_start cfg cli containers)) by (open_worker; frame).
       apply H. }
  rewrite bind_unfold, images_id_eq. cbv zeta.
  set (cid := subprocess_run env (h ++ ev1) _).
  set (listing := ESubprocess _ cid).
  destruct (returncode cid =? 0); [|left; apply Forall_app; by repeat constructor].
  destruct (parse_listing _ ∅) as [ids|e] eqn:Hparse;
    [|left; apply Forall_app; by repeat constructor].
  rewrite bind_item.
  destruct (ids !! image) as [old_id_|] eqn:Hid.
  2: { left. apply Forall_app. split; [done|]. constructor; [done|].
       assert (H : only no_rmi
                (name <- item "name" (cfg_name cfg);;
                 print ("Runtime error," +:+ name +:+ " ID not found, exit");;
                 ret (@None bool))) by frame.
       apply H. }
  rewrite bind_unfold, allow_source_change_eq.
  destruct (decide _); simpl.
  { left. apply Forall_app. by repeat constructor. }
  rewrite app_nil_r.
  destruct (upgrade_from_shape cfg cli containers image old_sha old_id_ env
              ((h ++ ev1) ++ [listing]) Himage)
    as [Hno|(front & ro & c & Hevs & Hfront & Hseen & Hro & Hres)].
  - left. apply Forall_app. split; [done|]. by constructor.
  - right. exists image, old_id_, ids, cid, (ev1 ++ listing :: front), ro, c.
    split_and!; try done.
    + rewrite Hevs. by rewrite <- !app_assoc.
    + apply Forall_app. split; [done|]. by constructor.
    + simpl in Hseen. rewrite existsb_app. simpl. by rewrite Hseen, !orb_true_r.
    + by exists ev1, front.
Qed.

(** The place of a deletion in a trace that has one only. *)
Lemma split_at_rmi l1 x l2 pre ev post :
  Forall (fun ev => no_rmi ev = true) l1 ->
  Forall (fun ev => no_rmi ev = true) l2 ->
  l1 ++ x :: l2 = pre ++ ev :: post ->
  is_docker "rmi" ev = true ->
  pre = l1 /\ ev = x /\ post = l2.
Proof.
  intros Hl1 Hl2 Heq Hev. revert pre Heq.
  induction Hl1 as [|a l1 Ha Hl1 IH]; intros [|p pre] Heq; simpl in Heq;
    injection Heq as Hhead Htail.
  - by subst.
  - subst. apply Forall_app in Hl2 as [_ Hl2]. apply Forall_cons in Hl2 as [Hno _].
    unfold no_rmi in Hno. by rewrite Hev in Hno.
  - subst. unfold no_rmi in Ha. by rewrite Hev in Ha.
  - subst. by destruct (IH pre Htail) as (-> & -> & ->).
Qed.

(** ** The configuration check of the coordinator *)

(** What [_check] raises ends the process with exit code 1, and it only
    prints. *)
Lemma check_loop_rejects t cfgs images names env h :
  ((_check_loop t cfgs images names env h).1 = Ok tt
   \/ exists e, (_check_loop t cfgs images names env h).1 = Raise e
                /\ exit_code (Raise e) = Some 1)
  /\ Forall (fun ev => read_only ev = true) (_check_loop t cfgs images names env h).2.
Proof.
  revert images names h. induction cfgs as [|cfg cfgs IH]; intros images names h; simpl.
  { split; [by left | constructor]. }
  destruct (cfg_name cfg) as [name|]; [rewrite bind_item|split; [right; by eexists|done]].
  destruct (decide (name ∈ names)).
  { rewrite bind_print. simpl. split; [right; by eexists | by repeat constructor]. }
  destruct (cfg_image cfg) as [image|]; [rewrite bind_item|split; [right; by eexists|done]].
  destruct (t && bool_decide (image ∈ images)).
  { rewrite bind_print. simpl. split; [right; by eexists | by repeat constructor]. }
  apply IH.
Qed.

Lemma fresh_cons (x : string) (l : list string) (seen : gset string) :
  x ∉ seen ->
  (NoDup l /\ forall y, y ∈ l -> y ∉ {[x]} ∪ seen)
  <-> (NoDup (x :: l) /\ forall y, y ∈ x :: l -> y ∉ seen).
Proof.
  intros Hx. rewrite NoDup_cons. split.
  - intros [Hl Hfresh]. split_and!; [|done|].
    + intros Hin. apply (Hfresh x Hin), elem_of_union_l, elem_of_singleton_2. done.
    + intros y [->|Hy]%elem_of_cons; [done|].
      intros Hseen. by apply (Hfresh y Hy), elem_of_union_r.
  - intros [[Hnew Hl] Hfresh]. split; [done|].
    intros y Hy [->%elem_of_singleton|Hseen]%elem_of_union; [done|].
    apply (Hfresh y); [by right | done].
Qed.

(** [_check] passes exactly when every configuration has a name and an image,
    no name occurs twice and, in concurrent mode, no image does. *)
Lemma check_loop_ok t cfgs images names env h :
  (_check_loop t cfgs images names env h).1 = Ok tt <->
  Forall (fun cfg => is_Some (cfg_name cfg) /\ is_Some (cfg_image cfg)) cfgs
  /\ (NoDup (omap cfg_name cfgs)
      /\ forall name, name ∈ omap cfg_name cfgs -> name ∉ names)
  /\ (t = true ->
      NoDup (omap cfg_image cfgs)
      /\ forall image, image ∈ omap cfg_image cfgs -> image ∉ images).
Proof.
  revert images names h. induction cfgs as [|cfg cfgs IH]; intros images names h; simpl.
  { split; [intros _|done]. split_and!.
    - constructor.
    - constructor.
    - by intros ? ?%elem_of_nil.
    - intros _. split; [constructor | by intros ? ?%elem_of_nil]. }
  destruct (cfg_name cfg) as [name|] eqn:Hname.
  2: { simpl. split; [done|]. intros [Hall _].
       apply Forall_cons in Hall as [[[? Hx] _] _]. congruence. }
  rewrite bind_item. destruct (decide (name ∈ names)) as [Hin|Hin].
  { rewrite bind_print. simpl. split; [done|]. intros (_ & [_ Hfresh] & _).
    destruct (Hfresh name); [by left | done]. }
  destruct (cfg_image cfg) as [image|] eqn:Himage.
  2: { simpl. split; [done|]. intros [Hall _].
       apply Forall_cons in Hall as [[_ [? Hx]] _]. congruence. }
  rewrite bind_item. simpl.
  destruct t; simpl.
  - destruct (bool_decide (image ∈ images)) eqn:Hseen.
    { apply bool_decide_eq_true in Hseen. rewrite bind_print. simpl.
      split; [done|]. intros (_ & _ & Himages).
      destruct (Himages eq_refl) as [_ Hfresh]. destruct (Hfresh image); [by left|done]. }
    apply bool_decide_eq_false in Hseen. rewrite IH.
    rewrite Forall_cons, Hname, Himage.
    rewrite <- (fresh_cons name _ names Hin), <- (fresh_cons image _ images Hseen).
    split.
    + intros (Hall & [Hnames Hfresh] & Himages). split_and!; eauto.
    + intros ([_ Hall] & [Hnames Hfresh] & Himages). split_and!; eauto.
  - rewrite IH. rewrite Forall_cons, Hname, Himage.
    rewrite <- (fresh_cons name _ names Hin).
    split.
    + intros (Hall & [Hnames Hfresh] & _). split_and!; eauto; done.
    + intros ([_ Hall] & [Hnames Hfresh] & _). split_and!; eauto; done.
Qed.

(** ** The coordinator *)

Lemma containers_eq env h :
  _docker_containers env h
  = let cmd := ["docker"; "ps"; "-a"; "--format"; "{{.Names}}"] in
    let c := subprocess_run env h cmd in
    (if returncode c =? 0
     then Ok (filter (fun line => 2 < Py.len line) (Py.split NL (stdout c)))
     else Raise (RuntimeError ("Error docker " +:+ Py.join " " (tail cmd) +:+ ": " +:+ stderr c)),
     [ESubprocess cmd c]).
Proof.
  unfold _docker_containers, bind. rewrite docker_list. cbv zeta.
  by destruct (returncode _ =? 0).
Qed.

(** A worker thread never takes the coordinator down: it ends with a status
    or without one. *)
Lemma worker_returns cfg cli containers env h :
  exists status, (_StarterWorker cfg cli containers env h).1 = Ok status.
Proof.
  unfold _StarterWorker. destruct (run cfg cli containers env h) as [[status|e] ev];
    by eexists.
Qed.

Lemma worker_done cfg cli containers env h :
  (run cfg cli containers env h).1 = Ok (Some 0) ->
  (_StarterWorker cfg cli containers env h).1 = Ok (Some 0).
Proof.
  unfold _StarterWorker. destruct (run cfg cli containers env h) as [[status|e] ev];
    simpl; congruence.
Qed.

Lemma one_by_one_returns fuel cli containers cfgs env h :
  exists b, (_one_by_one fuel cli containers cfgs env h).1 = Ok b.
Proof.
  revert h. induction cfgs as [|cfg cfgs IH]; intros h; simpl; [by eexists|].
  rewrite bind_unfold.
  destruct (worker_returns cfg cli containers env h) as [status Hw].
  destruct (_StarterWorker cfg cli containers env h) as [r ev]. simpl in Hw. subst r.
  simpl. destruct (wait fuel status); [apply IH | by eexists].
Qed.

Lemma start_all_returns cli containers cfgs env h :
  exists runs, (start_all cli containers cfgs env h).1 = Ok runs.
Proof.
  revert h. induction cfgs as [|cfg cfgs IH]; intros h; simpl; [by eexists|].
  rewrite bind_unfold.
  destruct (worker_returns cfg cli containers env h) as [status Hw].
  destruct (_StarterWorker cfg cli containers env h) as [r ev]. simpl in Hw. subst r.
  simpl. rewrite bind_unfold. destruct (IH (h ++ ev)) as [runs Hruns].
  destruct (start_all cli containers cfgs env (h ++ ev)) as [r ev']. simpl in Hruns.
  subst r. by eexists.
Qed.

Lemma one_by_one_done fuel cli containers cfgs env h :
  fuel <> O ->
  (forall cfg h', cfg ∈ cfgs -> (run cfg cli containers env h').1 = Ok (Some 0)) ->
  (_one_by_one fuel cli containers cfgs env h).1 = Ok true.
Proof.
  intros Hfuel. revert h. induction cfgs as [|cfg cfgs IH]; intros h Hrun; [done|].
  simpl. rewrite bind_unfold.
  pose proof (worker_done cfg cli containers env h (Hrun cfg h ltac:(by left))) as Hw.
  destruct (_StarterWorker cfg cli containers env h) as [r ev]. simpl in Hw. subst r.
  simpl. destruct fuel as [|fuel]; [done|]. simpl.
  apply IH. intros cfg' h' Hin. apply Hrun. by right.
Qed.

Lemma start_all_done cli containers cfgs env h :
  (forall cfg h', cfg ∈ cfgs -> (run cfg cli containers env h').1 = Ok (Some 0)) ->
  exists runs, (start_all cli containers cfgs env h).1 = Ok runs
               /\ Forall (fun status => status = Some 0) runs.
Proof.
  revert h. induction cfgs as [|cfg cfgs IH]; intros h Hrun; [by eexists|].
  simpl. rewrite bind_unfold.
  pose proof (worker_done cfg cli containers env h (Hrun cfg h ltac:(by left))) as Hw.
  destruct (_StarterWorker cfg cli containers env h) as [r ev]. simpl in Hw. subst r.
  simpl. rewrite bind_unfold.
  destruct (IH (h ++ ev)) as (runs & Hruns & Hall).
  { intros cfg' h' Hin. apply Hrun. by right. }
  destruct (start_all cli containers cfgs env (h ++ ev)) as [r ev']. simpl in Hruns.
  subst r. simpl. eexists. split; [done|]. by constructor.
Qed.

Lemma wait_all_done fuel runs :
  fuel <> O -> Forall (fun status => status = Some 0) runs -> wait_all fuel runs = true.
Proof.
  intros Hfuel Hall. destruct fuel as [|fuel]; [done|]. simpl.
  replace (existsb _ runs) with false; [done|].
  induction Hall as [|status runs -> _ IH]; [done|]. by simpl.
Qed.

(** Once the check has passed, the coordinator returns or is still polling;
    it returns when no worker thread died. *)
Lemma workers_keep_exit_code fuel cli containers cfgs env h :
  let r := ((if cli_t cli then _all_once fuel cli containers cfgs
             else _one_by_one fuel cli containers cfgs) env h).1 in
  (exit_code r = Some 0 \/ exit_code r = None)
  /\ (fuel <> O ->
      (forall cfg h', cfg ∈ cfgs -> (run cfg cli containers env h').1 = Ok (Some 0)) ->
      exit_code r = Some 0).
Proof.
  destruct (cli_t cli); cbv zeta.
  - unfold _all_once. rewrite bind_unfold. split.
    + destruct (start_all_returns cli containers cfgs env h) as [runs Hruns].
      destruct (start_all cli containers cfgs env h) as [r ev]. simpl in Hruns.
      subst r. simpl. destruct (wait_all fuel runs); [by left | by right].
    + intros Hfuel Hrun.
      destruct (start_all_done cli containers cfgs env h Hrun) as (runs & Hruns & Hall).
      destruct (start_all cli containers cfgs env h) as [r ev]. simpl in Hruns.
      subst r. simpl. by rewrite wait_all_done.
  - split.
    + destruct (one_by_one_returns fuel cli containers cfgs env h) as [[] ->];
        [by left | by right].
    + intros Hfuel Hrun. by rewrite one_by_one_done.
Qed.

Lemma rejected_by_check fuel cfgs cli env h :
  (forall h', (_check cfgs cli env h').1 <> Ok tt) ->
  exit_code (DockerStarter fuel cfgs cli env h).1 = Some 1
  /\ calls (DockerStarter fuel cfgs cli env h).2 = [].
Proof.
  intros Hcheck. unfold DockerStarter. rewrite bind_unfold, containers_eq. cbv zeta.
  destruct (returncode _ =? 0); [|done].
  rewrite bind_unfold.
  match goal with |- context [_check cfgs cli env ?h'] =>
    specialize (Hcheck h');
    destruct (check_loop_rejects (cli_t cli) cfgs ∅ ∅ env h')
      as [[Hok|(e & He & Hcode)] Hro]; [done|];
    fold (_check cfgs cli) in He, Hro;
    destruct (_check cfgs cli env h') as [r ev]
  end.
  simpl in *. subst r. simpl. split; [done|].
  by apply calls_reads.
Qed.

(** C3: when two configurations share a name the process ends with exit code
    1, in either mode; when two share an image it does so in concurrent mode
    ([-t]); in both cases nothing but the container listing and the report
    has happened.  When the listing succeeded, every configuration has its
    name and image, the names differ and either the mode is sequential or the
    images differ, the process does not end with exit code 1 whatever the
    workers do: it ends with 0 or keeps polling, and it ends with 0 as soon as
    no worker thread died. *)
Theorem duplicates_rejected fuel cfgs cli env h :
  let result := DockerStarter fuel cfgs cli env h in
  (~ NoDup (omap cfg_name cfgs) ->
   exit_code result.1 = Some 1 /\ calls result.2 = [])
  /\ (cli_t cli = true -> ~ NoDup (omap cfg_image cfgs) ->
      exit_code result.1 = Some 1 /\ calls result.2 = [])
  /\ (returncode (subprocess_run env h ["docker"; "ps"; "-a"; "--format"; "{{.Names}}"]) = 0 ->
      Forall (fun cfg => is_Some (cfg_name cfg) /\ is_Some (cfg_image cfg)) cfgs ->
      NoDup (omap cfg_name cfgs) ->
      cli_t cli = false \/ NoDup (omap cfg_image cfgs) ->
      (exit_code result.1 = Some 0 \/ exit_code result.1 = None)
      /\ (fuel <> O ->
          (forall cfg containers h', cfg ∈ cfgs ->
             (run cfg cli containers env h').1 = Ok (Some 0)) ->
          exit_code result.1 = Some 0)).
Proof.
  intros result. subst result. split_and!.
  - intros Hdup. apply rejected_by_check. intros h' Hok.
    apply check_loop_ok in Hok as (_ & [Hnames _] & _). done.
  - intros Ht Hdup. apply rejected_by_check. intros h' Hok.
    apply check_loop_ok in Hok as (_ & _ & Himages).
    rewrite Ht in Himages. by destruct (Himages eq_refl).
  - intros Hps Hkeys Hnames Himages.
    unfold DockerStarter. rewrite bind_unfold, containers_eq. cbv zeta.
    rewrite Hps. simpl. rewrite bind_unfold.
    match goal with |- context [_check cfgs cli env ?h'] =>
      assert (Hok : (_check cfgs cli env h').1 = Ok tt);
      [|destruct (_check cfgs cli env h') as [r ev1]]
    end.
    { apply check_loop_ok. split_and!; try done.
      intros Ht. destruct Himages as [Hseq|Himages]; [congruence|].
      split; [done|]. intros image _. apply not_elem_of_empty. }
    simpl in Hok. subst r. simpl.
    match goal with |- context [filter ?P ?l] => generalize (filter P l) end.
    intros containers.
    match goal with |- context [(?m env ?h').1] =>
      destruct (workers_keep_exit_code fuel cli containers cfgs env h') as [H1 H2]
    end.
    split; [done|]. intros Hfuel Hrun. apply H2; [done|].
    intros cfg h' Hin. by apply Hrun.
Qed.

(** Two configurations with one name are rejected; one configuration whose
    container cannot be stopped leaves the exit code at 0. *)
Lemma duplicates_rejected_witness :
  let cfg := config "cont1" "repo:tag" "/d" in
  let cli := command_line Stop false false false in
  let env := world (docker_failing "stop" 1) token_ok registry_ok in
  exit_code (DockerStarter 1 [cfg; cfg] cli env []).1 = Some 1
  /\ exit_code (DockerStarter 1 [cfg] cli env []).1 = Some 0
  /\ existsb (fun ev => is_docker "stop" ev && negb (succeeded ev))
       (DockerStarter 1 [cfg] cli env []).2 = true.
Proof.
  intros cfg cli env. split_and!.
  - destruct (duplicates_rejected 1 [cfg; cfg] cli env []) as ([H _] & _ & _); [|done].
    intros [Hnew _]%NoDup_cons. apply Hnew. by left.
  - assert (Hkeys : Forall (fun cfg => is_Some (cfg_name cfg) /\ is_Some (cfg_image cfg))
                       [cfg]) by (repeat constructor; by eexists).
    assert (Hnames : NoDup (omap cfg_name [cfg]))
      by (repeat constructor; by intros ?%elem_of_nil).
    destruct (duplicates_rejected 1 [cfg] cli env []) as (_ & _ & H).
    destruct (H eq_refl Hkeys Hnames (or_introl eq_refl)) as [_ Hdone].
    apply Hdone; [done|]. intros cfg' containers h' ->%list_elem_of_singleton.
    unfold run.
    exec (config_check_ok cfg "cont1" "repo:tag" "/d" eq_refl eq_refl eq_refl env h').
    change (cli_start cli) with false. change (cli_stop cli) with true.
    cbn [negb]. rewrite !bind_unfold, (stop_eq cfg cli containers "cont1" eq_refl).
    by destruct (decide _).
  - by vm_compute.
Defined.

(** ** Exceptions that leave the worker *)

Lemma wait_none fuel : wait fuel None = false.
Proof. induction fuel as [|fuel IH]; [done | exact IH]. Qed.

(** C2, on the code: a registry answer with status 200 and neither digest
    header makes [_docker_remote_sha256] print its report and then call
    [strip] on [None]; the exception leaves [run], the worker never gets a
    status and the coordinator polls for ever.  An empty image listing does
    the same through the unpacking in [_docker_images_sha256]. *)
Theorem worker_exception_escapes :
  let cfg := config "cont1" "repo:tag" "/d" in
  let update := command_line Update false false false in
  let start := command_line Start false false false in
  let env := world (docker_with_image 0) token_ok registry_without_digest in
  let silent := world docker_silent token_ok registry_ok in
  (run cfg update ["cont1"] env []).1 = Raise AttributeError
  /\ last (run cfg update ["cont1"] env []).2
     = Some (EPrint "Registry error headers parsing - sha256 not found")
  /\ (_StarterWorker cfg update ["cont1"] env []).1 = Ok None
  /\ (forall fuel, exit_code (DockerStarter fuel [cfg] update env []).1 = None)
  /\ (run cfg start [] silent []).1 = Raise ValueError
  /\ (_StarterWorker cfg start [] silent []).1 = Ok None.
Proof.
  intros cfg update start env silent. split_and!; try by vm_compute.
  intros fuel. unfold DockerStarter. rewrite bind_unfold.
  set (r := _docker_containers env []). vm_compute in r. subst r. cbv iota beta.
  rewrite bind_unfold.
  match goal with |- context [_check ?c ?l env ?h'] =>
    set (r := _check c l env h'); vm_compute in r; subst r end.
  cbv iota beta. change (cli_t update) with false. cbv iota.
  unfold _one_by_one. rewrite bind_unfold.
  match goal with |- context [_StarterWorker ?c ?l ?cs env ?h'] =>
    set (r := _StarterWorker c l cs env h'); vm_compute in r; subst r end.
  cbv iota beta. by rewrite wait_none.
Qed.
(** * Further properties of the code *)

(** ** Cutting strings *)

Lemma append_String a s t : String a s +:+ t = String a (s +:+ t).
Proof. reflexivity. Qed.

Lemma rsplit1_shape sep s :
  Py.rsplit1 sep s = [s] \/ exists a b, Py.rsplit1 sep s = [a; b].
Proof.
  induction s as [|c s IH]; [by left|]. simpl.
  destruct IH as [->|(a & b & ->)].
  - destruct (decide (c = sep)); [right; by eexists _, _ | by left].
  - right. by eexists _, _.
Qed.

(** Without the separator there is nothing to cut. *)
Lemma rsplit1_whole sep s : has_char sep s = false -> Py.rsplit1 sep s = [s].
Proof.
  induction s as [|c s IH]; [done|]. simpl.
  intros [Hc Hs]%orb_false_elim. apply bool_decide_eq_false in Hc.
  rewrite (IH Hs). by rewrite decide_False.
Qed.

(** The cut is at the last separator. *)
Lemma rsplit1_cut sep a b :
  has_char sep b = false -> Py.rsplit1 sep (a +:+ String sep b) = [a; b].
Proof.
  intros Hb. induction a as [|c a IH].
  - change ("" +:+ String sep b) with (String sep b). simpl.
    rewrite (rsplit1_whole _ _ Hb). by rewrite decide_True.
  - rewrite append_String. simpl. by rewrite IH.
Qed.

Lemma rsplit1_inv sep s a b :
  Py.rsplit1 sep s = [a; b] -> s = a +:+ String sep b /\ has_char sep b = false.
Proof.
  revert a. induction s as [|c s IH]; intros a; [done|]. simpl.
  destruct (rsplit1_shape sep s) as [Hs|(a' & b' & Hs)]; rewrite Hs.
  - destruct (decide (c = sep)) as [->|]; [|done].
    intros [= <- <-]. split; [done|].
    destruct (has_char sep s) eqn:Hc; [|done].
    exfalso. clear IH. revert Hs. induction s as [|c s IH]; [done|]. simpl in *.
    destruct (rsplit1_shape sep s) as [Hs|(a' & b' & Hs)]; rewrite Hs; [|done].
    destruct (decide (c = sep)); [done|]. intros _.
    rewrite bool_decide_eq_false_2 in Hc by done. by apply IH.
  - intros [= <- <-]. destruct (IH _ Hs) as [-> Hb]. by rewrite append_String.
Qed.

Lemma rsplit1_cuts sep s :
  has_char sep s = true -> exists a b, Py.rsplit1 sep s = [a; b].
Proof.
  intros Hc. destruct (rsplit1_shape sep s) as [Hs|]; [|done].
  exfalso. revert Hc Hs. induction s as [|c s IH]; [done|]. simpl.
  destruct (rsplit1_shape sep s) as [Hs|(a' & b' & Hs)]; rewrite Hs; [|done].
  destruct (decide (c = sep)); [done|].
  rewrite bool_decide_eq_false_2 by done. intros Hc _. by apply IH.
Qed.

(** No piece of a split has the separator. *)
Lemma split_pieces sep s :
  Forall (fun piece => has_char sep piece = false) (Py.split sep s).
Proof.
  induction s as [|c s IH]; simpl; [by repeat constructor|].
  destruct (decide (c = sep)); [by constructor|].
  destruct (Py.split sep s) as [|w ws]; [by repeat constructor; simpl; rewrite bool_decide_eq_false_2|].
  apply Forall_cons in IH as [Hw Hws]. constructor; [|done].
  simpl. by rewrite bool_decide_eq_false_2.
Qed.

(** ** The image listings *)

(** A listing is read exactly when each of its lines has a space. *)
Lemma parse_listing_ok lines data :
  (exists m, parse_listing lines data = Ok m)
  <-> Forall (fun l => has_char " " l = true) lines.
Proof.
  revert data. induction lines as [|l lines IH]; intros data; simpl.
  { split; [constructor | by eexists]. }
  rewrite Forall_cons. destruct (has_char " " l) eqn:Hl.
  - destruct (rsplit1_cuts _ _ Hl) as (a & b & ->). rewrite IH. tauto.
  - rewrite (rsplit1_whole _ _ Hl). split; [by intros [m ?] | by intros [? _]].
Qed.

Lemma parse_listing_raises lines data :
  Exists (fun l => has_char " " l = false) lines ->
  parse_listing lines data = Raise ValueError.
Proof.
  intros Hex. revert data. induction Hex as [l lines Hl|l lines _ IH]; intros data; simpl.
  - by rewrite (rsplit1_whole _ _ Hl).
  - destruct (rsplit1_shape " " l) as [->|(a & b & ->)]; [done | apply IH].
Qed.

Lemma parse_listing_keeps lines data m ref :
  Forall (fun l => forall v, l <> ref +:+ " " +:+ v) lines ->
  parse_listing lines data = Ok m -> m !! ref = data !! ref.
Proof.
  intros Hall. revert data. induction Hall as [|l lines Hl _ IH]; intros data; simpl.
  { by intros [= ->]. }
  destruct (rsplit1_shape " " l) as [Hs|(a & b & Hs)]; rewrite Hs; [done|].
  intros Hm. rewrite (IH _ Hm). apply lookup_insert_ne.
  intros ->. apply rsplit1_inv in Hs as [-> _]. by apply (Hl b).
Qed.

(** X1: the image listings are read into a dictionary line by line, so that
    the last line of a reference decides its entry: when a line [ref value]
    (the value without a space) is followed by no other line of [ref], the
    dictionary has [value] under [ref], whatever came before. *)
Theorem listing_last_entry_wins before after ref value data m :
  has_char " " value = false ->
  Forall (fun l => forall v, l <> ref +:+ " " +:+ v) after ->
  parse_listing (before ++ (ref +:+ " " +:+ value) :: after) data = Ok m ->
  m !! ref = Some value.
Proof.
  intros Hvalue Hafter. revert data.
  induction before as [|l before IH]; intros data; simpl.
  - change (ref +:+ " " +:+ value) with (ref +:+ String " " value).
    rewrite (rsplit1_cut _ _ _ Hvalue). intros Hm.
    rewrite (parse_listing_keeps _ _ _ _ Hafter Hm). apply lookup_insert_eq.
  - destruct (Py.rsplit1 " " l) as [|a [|b [|]]]; try done. apply IH.
Qed.

Lemma listing_last_entry_wins_witness :
  has_char " " "sha256:new" = false
  /\ Forall (fun l => forall v, l <> "repo:tag" +:+ " " +:+ v) ["other:1 sha256:z"]
  /\ parse_listing (["repo:tag sha256:old"] ++ ("repo:tag" +:+ " " +:+ "sha256:new")
                      :: ["other:1 sha256:z"]) ∅
     = Ok (<["other:1" := "sha256:z"]> (<["repo:tag" := "sha256:new"]>
             (<["repo:tag" := "sha256:old"]> ∅)))
  /\ (<["other:1" := "sha256:z"]> (<["repo:tag" := "sha256:new"]>
        (<["repo:tag" := "sha256:old"]> (∅ : gmap string string)))) !! "repo:tag"
     = Some "sha256:new".
Proof.
  assert (H1 : has_char " " "sha256:new" = false) by reflexivity.
  assert (H2 : Forall (fun l => forall v, l <> "repo:tag" +:+ " " +:+ v) ["other:1 sha256:z"]).
  { repeat constructor. intros v. discriminate. }
  assert (H3 : parse_listing (["repo:tag sha256:old"] ++ ("repo:tag" +:+ " " +:+ "sha256:new")
                      :: ["other:1 sha256:z"]) ∅
     = Ok (<["other:1" := "sha256:z"]> (<["repo:tag" := "sha256:new"]>
             (<["repo:tag" := "sha256:old"]> ∅)))) by reflexivity.
  split_and!; [exact H1 | exact H2 | exact H3 |].
  exact (listing_last_entry_wins _ _ _ _ _ _ H1 H2 H3).
Defined.

(** ** The worker, action by action *)

Lemma bind_assoc {A B C} (m : M A) (f : A -> M B) (g : B -> M C) env h :
  bind (bind m f) g env h = bind m (fun a => bind (f a) g) env h.
Proof.
  unfold bind. destruct (m env h) as [[a|e] ev1]; [|done].
  destruct (f a env (h ++ ev1)) as [[b|e] ev2]; [|done].
  rewrite <- app_assoc. destruct (g b env (h ++ ev1 ++ ev2)) as [r ev3].
  by rewrite app_assoc.
Qed.

Lemma bind_finish {A} (m : M A) env h :
  ((m;; ret tt);; ret (Some 0)) env h = finish (m env h).
Proof.
  unfold finish. rewrite !bind_unfold.
  destruct (m env h) as [[a|e] ev]; simpl; [by rewrite !app_nil_r | done].
Qed.

Lemma run_action cfg cli containers name image data_path env h :
  cfg_name cfg = Some name ->
  cfg_image cfg = Some image ->
  cfg_data_path cfg = Some data_path ->
  run cfg cli containers env h
  = match cli_action cli with
    | Start => finish (_start cfg cli containers env h)
    | Stop => finish (_stop cfg cli containers env h)
    | Update => finish (_update cfg cli None env h)
    | Upgrade => finish (_upgrade cfg cli containers env h)
    | Remove => finish (_remove cfg cli containers env h)
    | Purge => finish (_purge cfg cli containers env h)
    end.
Proof.
  intros Hname Himage Hdata. unfold run.
  rewrite bind_unfold, (config_check_ok cfg name image data_path Hname Himage Hdata).
  cbn [negb fst snd]. rewrite app_nil_r, app_nil_l.
  destruct (cli_action cli) eqn:Haction; set_action Haction.
  1-5: rewrite <- bind_finish; symmetry; apply surjective_pairing.
  unfold finish. rewrite bind_unfold.
  destruct (_purge cfg cli containers env h) as [[[]|e] ev]; simpl; [by rewrite app_nil_r|done].
Qed.

(** X2: a digest listing with a line that has no space cannot be read, and
    [docker images] that prints nothing gives such a line, the empty one.
    The update action, the upgrade action, and the start action for a
    container that the snapshot lacks then end in a [ValueError] right after
    the listing: nothing is pulled or started and the worker thread dies
    without a status. *)
Theorem unreadable_listing_kills_worker cfg cli containers name image data_path env h :
  cfg_name cfg = Some name ->
  cfg_image cfg = Some image ->
  cfg_data_path cfg = Some data_path ->
  cli_action cli = Update \/ cli_action cli = Upgrade
  \/ (cli_action cli = Start /\ name ∉ containers) ->
  let cmd := ["docker"; "images"; "--digests"; "--format";
              "{{.Repository}}:{{.Tag}} {{.Digest}}"] in
  let c := subprocess_run env h cmd in
  returncode c = 0 ->
  Exists (fun l => has_char " " l = false) (Py.split NL (Py.strip NL (stdout c))) ->
  run cfg cli containers env h = (Raise ValueError, [ESubprocess cmd c])
  /\ (_StarterWorker cfg cli containers env h).1 = Ok None.
Proof.
  intros Hname Himage Hdata Haction cmd c Hrc Hlines.
  assert (Hlist : _docker_images_sha256 env h = (Raise ValueError, [ESubprocess cmd c])).
  { rewrite images_sha256_eq. cbv zeta. fold cmd c. rewrite Hrc. simpl.
    by rewrite parse_listing_raises. }
  assert (Hrun : run cfg cli containers env h = (Raise ValueError, [ESubprocess cmd c])).
  { rewrite (run_action cfg cli containers name image data_path) by done.
    destruct Haction as [Haction|[Haction|[Haction Hout]]]; rewrite Haction.
    - unfold _update. rewrite !bind_unfold, Hlist. reflexivity.
    - unfold _upgrade. rewrite !bind_unfold, Hlist. reflexivity.
    - unfold _start. rewrite Hname, Himage, bind_item.
      rewrite decide_False by done. rewrite bind_item, !bind_unfold, Hlist. reflexivity. }
  split; [done|]. unfold _StarterWorker. by rewrite Hrun.
Qed.

Lemma unreadable_listing_kills_worker_witness :
  let cfg := config "cont1" "repo:tag" "/d" in
  let cli := command_line Start false false false in
  let env := world docker_silent token_ok registry_ok in
  run cfg cli [] env []
  = (Raise ValueError,
     [ESubprocess ["docker"; "images"; "--digests"; "--format";
                   "{{.Repository}}:{{.Tag}} {{.Digest}}"] (completed 0 "")])
  /\ (_StarterWorker cfg cli [] env []).1 = Ok None.
Proof.
  intros cfg cli env.
  apply (unreadable_listing_kills_worker cfg cli [] "cont1" "repo:tag" "/d" env []);
    [reflexivity | reflexivity | reflexivity | | reflexivity |].
  - right. right. split; [reflexivity | by intros ?%elem_of_nil].
  - vm_compute. by left.
Defined.

(** ** The snapshot of the containers *)

Lemma len_String a s : Py.len (String a s) = 1 + Py.len s.
Proof. unfold Py.len. simpl String.length. lia. Qed.

(** The coordinator keeps the names of more than two characters only. *)
Lemma snapshot_names env h names :
  (_docker_containers env h).1 = Ok names ->
  Forall (fun name => 2 < Py.len name /\ has_char NL name = false) names.
Proof.
  rewrite containers_eq. cbv zeta. destruct (returncode _ =? 0); [|done].
  intros [= <-]. apply Forall_forall. intros name [Hlen Hin]%list_elem_of_filter.
  split; [done|]. eapply Forall_forall in Hin; [exact Hin | apply split_pieces].
Qed.

(** One configuration with a name and an image passes the check. *)
Lemma check_single cfg cli name image env h :
  cfg_name cfg = Some name ->
  cfg_image cfg = Some image ->
  _check [cfg] cli env h = (Ok tt, []).
Proof.
  intros Hname Himage. unfold _check. simpl. rewrite Hname, bind_item.
  rewrite decide_False by apply not_elem_of_empty. rewrite Himage, bind_item.
  rewrite bool_decide_eq_false_2 by apply not_elem_of_empty.
  by rewrite andb_false_r.
Qed.

(** X3: a container whose name has one or two characters is never in the
    snapshot, whatever [docker ps] lists: the stop action of the coordinator
    for such a configuration reports the container as not found and sends no
    [docker stop]. *)
Theorem short_name_never_found fuel cfg cli name image data_path env h :
  cfg_name cfg = Some name ->
  cfg_image cfg = Some image ->
  cfg_data_path cfg = Some data_path ->
  cli_action cli = Stop ->
  cli_t cli = false ->
  fuel <> O ->
  Py.len name <= 2 ->
  let cmd := ["docker"; "ps"; "-a"; "--format"; "{{.Names}}"] in
  let c := subprocess_run env h cmd in
  returncode c = 0 ->
  DockerStarter fuel [cfg] cli env h
  = (Ok true, [ESubprocess cmd c; EPrint ("Container " +:+ name +:+ " not found.")]).
Proof.
  intros Hname Himage Hdata Haction Ht Hfuel Hlen cmd c Hrc.
  unfold DockerStarter. rewrite bind_unfold.
  pose proof (snapshot_names env h) as Hnames. revert Hnames.
  rewrite containers_eq. cbv zeta. fold cmd c. rewrite Hrc. simpl.
  generalize (filter (fun line => 2 < Py.len line) (Py.split NL (stdout c))).
  intros containers Hnames. specialize (Hnames containers eq_refl).
  assert (Hout : name ∉ containers).
  { intros Hin. eapply Forall_forall in Hnames as [Hlong _]; [|exact Hin]. lia. }
  rewrite bind_unfold, (check_single cfg cli name image) by done.
  rewrite Ht. simpl. rewrite bind_unfold. unfold _StarterWorker.
  rewrite (run_action cfg cli containers name image data_path) by done.
  rewrite Haction, (stop_eq cfg cli containers name Hname), decide_False by done.
  assert (Hstop : cli_stop cli = true) by by set_action Haction.
  rewrite Hstop. simpl. destruct fuel; [done|]. reflexivity.
Qed.

Lemma short_name_never_found_witness :
  let cfg := config "c1" "repo:tag" "/d" in
  let cli := command_line Stop false false false in
  let env := world (docker_with_image 0) token_ok registry_ok in
  DockerStarter 1 [cfg] cli env []
  = (Ok true,
     [ESubprocess ["docker"; "ps"; "-a"; "--format"; "{{.Names}}"]
        (completed 0 ("cont1" +:+ String NL "c1" +:+ String NL ""));
      EPrint "Container c1 not found."]).
Proof.
  intros cfg cli env.
  apply (short_name_never_found 1 cfg cli "c1" "repo:tag" "/d" env []);
    [reflexivity | reflexivity | reflexivity | reflexivity | reflexivity
    | lia | vm_compute; discriminate | reflexivity].
Defined.

(** X4: when [docker ps] fails, the coordinator ends at once with a
    [RuntimeError] that carries the command and what [docker] wrote to its
    error stream: no configuration is checked and no worker is created; the
    process ends with exit code 1. *)
Theorem snapshot_failure_is_fatal fuel cfgs cli env h :
  let cmd := ["docker"; "ps"; "-a"; "--format"; "{{.Names}}"] in
  let c := subprocess_run env h cmd in
  returncode c <> 0 ->
  DockerStarter fuel cfgs cli env h
  = (Raise (RuntimeError ("Error docker ps -a --format {{.Names}}: " +:+ stderr c)),
     [ESubprocess cmd c])
  /\ exit_code (DockerStarter fuel cfgs cli env h).1 = Some 1.
Proof.
  intros cmd c Hrc. apply Z.eqb_neq in Hrc.
  assert (H : DockerStarter fuel cfgs cli env h
    = (Raise (RuntimeError ("Error docker ps -a --format {{.Names}}: " +:+ stderr c)),
       [ESubprocess cmd c])).
  { unfold DockerStarter. rewrite bind_unfold, containers_eq. cbv zeta. fold cmd c.
    by rewrite Hrc. }
  by rewrite H.
Qed.

Lemma snapshot_failure_is_fatal_witness :
  let env := world (docker_failing "ps" 1) token_ok registry_ok in
  exit_code (DockerStarter 1 [config "cont1" "repo:tag" "/d"]
               (command_line Start false false false) env []).1 = Some 1.
Proof.
  intros env.
  apply (snapshot_failure_is_fatal 1 [config "cont1" "repo:tag" "/d"]
           (command_line Start false false false) env []).
  vm_compute. discriminate.
Defined.

(** ** The start action *)

(** X5: the start action for a container that the snapshot has sends one
    [docker start] for it and nothing else: no listing, no pull, no run.  The
    outcome of the call is not looked at: nothing is printed and the worker
    ends with status 0 also when [docker start] failed. *)
Theorem start_existing_container cfg cli containers name image data_path env h :
  cfg_name cfg = Some name ->
  cfg_image cfg = Some image ->
  cfg_data_path cfg = Some data_path ->
  cli_action cli = Start ->
  name ∈ containers ->
  run cfg cli containers env h
  = (Ok (Some 0),
     [ESubprocess ["docker"; "start"; name]
        (subprocess_run env h ["docker"; "start"; name])]).
Proof.
  intros Hname Himage Hdata Haction Hin.
  rewrite (run_action cfg cli containers name image data_path) by done.
  rewrite Haction. unfold _start. rewrite Hname, bind_item, decide_True by done.
  by rewrite bind_unfold, docker_start_eq.
Qed.

Lemma start_existing_container_witness :
  let cfg := config "cont1" "repo:tag" "/d" in
  let cli := command_line Start false false false in
  let env := world (docker_failing "start" 1) token_ok registry_ok in
  run cfg cli ["cont1"] env []
  = (Ok (Some 0), [ESubprocess ["docker"; "start"; "cont1"] (completed 1 "")]).
Proof.
  intros cfg cli env.
  apply (start_existing_container cfg cli ["cont1"] "cont1" "repo:tag" "/d" env []);
    [reflexivity | reflexivity | reflexivity | reflexivity | by left].
Defined.



(** ** The stop action *)

(** X7: the stop action sends at most one call: [docker stop] for a container
    that the snapshot has, with a report of its outcome, and none for a
    container that the snapshot lacks, which is reported as not found.  The
    worker ends with status 0 in every case, also when the stop failed. *)
Theorem stop_steps cfg cli containers name image data_path env h :
  cfg_name cfg = Some name ->
  cfg_image cfg = Some image ->
  cfg_data_path cfg = Some data_path ->
  cli_action cli = Stop ->
  let c := subprocess_run env h ["docker"; "stop"; name] in
  run cfg cli containers env h
  = (Ok (Some 0),
     if decide (name ∈ containers) then
       [ESubprocess ["docker"; "stop"; name] c;
        EPrint (if returncode c =? 0 then "stop " +:+ name else "Error stopping " +:+ name)]
     else [EPrint ("Container " +:+ name +:+ " not found.")]).
Proof.
  intros Hname Himage Hdata Haction c.
  rewrite (run_action cfg cli containers name image data_path) by done.
  rewrite Haction, (stop_eq cfg cli containers name Hname).
  assert (Hstop : cli_stop cli = true) by by set_action Haction.
  rewrite Hstop. by destruct (decide (name ∈ containers)).
Qed.

Lemma stop_steps_witness :
  let cfg := config "cont1" "repo:tag" "/d" in
  let cli := command_line Stop false false false in
  let env := world (docker_failing "stop" 1) token_ok registry_ok in
  run cfg cli ["cont1"] env []
  = (Ok (Some 0),
     [ESubprocess ["docker"; "stop"; "cont1"] (completed 1 "");
      EPrint "Error stopping cont1"]).
Proof.
  intros cfg cli env.
  pose proof (stop_steps cfg cli ["cont1"] "cont1" "repo:tag" "/d" env []
                eq_refl eq_refl eq_refl eq_refl) as H.
  vm_compute in H. vm_compute. exact H.
Defined.

(** ** The update action, step by step *)

(** X8: the update action lists the local digests.  An image that the listing
    lacks is reported as not found, and no request goes to the registry.
    Otherwise the digest of the registry is looked up: when the lookup gives
    none, nothing more is said; when it gives the local digest, the image is
    reported as up to date; when it gives another one, an update is reported,
    with the hint at [-b] and [-f] exactly when the local digest is
    [<none>], that of a local build.  The worker ends with status 0 unless
    the listing or the lookup raised. *)
Theorem update_steps cfg cli containers name image data_path env h :
  cfg_name cfg = Some name ->
  cfg_image cfg = Some image ->
  cfg_data_path cfg = Some data_path ->
  cli_action cli = Update ->
  let listing := _docker_images_sha256 env h in
  let remote := _docker_remote_sha256 image env (h ++ listing.2) in
  run cfg cli containers env h
  = match listing.1 with
    | Raise e => (Raise e, listing.2)
    | Ok images =>
        match images !! image with
        | None =>
            (Ok (Some 0),
             listing.2 ++ [EPrint ("Local " +:+ image +:+ " not found. Use --start")])
        | Some old_sha =>
            match remote.1 with
            | Raise e => (Raise e, listing.2 ++ remote.2)
            | Ok None => (Ok (Some 0), listing.2 ++ remote.2)
            | Ok (Some new_sha) =>
                (Ok (Some 0),
                 listing.2 ++ remote.2
                 ++ [EPrint
                       (if decide (old_sha = new_sha) then image +:+ " up to date"
                        else image +:+ " update found. Use --upgrade"
                             +:+ (if decide (old_sha = "<none>")
                                  then ". You build image? Use -b, -f for force pull"
                                  else ""))])
            end
        end
    end.
Proof.
  intros Hname Himage Hdata Haction listing remote.
  rewrite (run_action cfg cli containers name image data_path) by done.
  rewrite Haction. unfold _update, finish.
  assert (Hupdate : cli_update cli = true) by by set_action Haction.
  rewrite Hupdate, Himage. rewrite (bind_unfold (bind _docker_images_sha256 _)).
  rewrite (bind_unfold _docker_images_sha256). subst remote. fold listing.
  destruct listing as [[images|e] l]; [|done]. cbn [fst snd].
  rewrite bind_item. cbn [ret fst snd]. rewrite !app_nil_r.
  destruct (images !! image) as [old_sha|]; cbn [fst snd].
  - rewrite bind_item, bind_unfold.
    destruct (_docker_remote_sha256 image env (h ++ l)) as [[[new_sha|]|e] ev];
      cbn [fst snd]; [| by rewrite app_nil_r | done].
    destruct (decide (old_sha = new_sha)).
    + by rewrite bind_print.
    + rewrite bind_unfold. by destruct (decide (old_sha = "<none>")).
  - rewrite bind_unfold, bind_item. reflexivity.
Qed.

Lemma update_steps_witness :
  let cfg := config "cont1" "repo:tag" "/d" in
  let cli := command_line Update false false false in
  let env := world docker_local_build token_ok registry_ok in
  run cfg cli ["cont1"] env []
  = (Ok (Some 0),
     [ESubprocess ["docker"; "images"; "--digests"; "--format";
                   "{{.Repository}}:{{.Tag}} {{.Digest}}"]
        (completed 0 (line "repo:tag" "<none>"));
      EAuthGet "repository:repo:pull" token_ok;
      ERegistryHead "https://registry-1.docker.io/v2/repo/manifests/tag" "Bearer tok"
        registry_ok;
      EPrint "repo:tag update found. Use --upgrade. You build image? Use -b, -f for force pull"]).
Proof.
  intros cfg cli env.
  pose proof (update_steps cfg cli ["cont1"] "cont1" "repo:tag" "/d" env []
                eq_refl eq_refl eq_refl eq_refl) as H.
  vm_compute in H. vm_compute. exact H.
Defined.

(** X9: with [-b], the image is built from the [dockerfile] and the
    [docker_path] of the configuration, two keys that [_config_check] does
    not ask for.  When one of them is missing, the configuration still passes
    the check, and the start action for a container and an image that are
    not there yet ends in a [KeyError] after the listing: nothing is built,
    and the worker thread dies without a status. *)
Theorem build_needs_dockerfile cfg cli containers name image data_path env h :
  cfg_name cfg = Some name ->
  cfg_image cfg = Some image ->
  cfg_data_path cfg = Some data_path ->
  cli_action cli = Start ->
  cli_b cli = true ->
  cfg_dockerfile cfg = None \/ cfg_docker_path cfg = None ->
  name ∉ containers ->
  let listing := _docker_images_sha256 env h in
  forall images, listing.1 = Ok images -> images !! image = None ->
  let key := match cfg_dockerfile cfg with Some _ => "docker_path" | None => "dockerfile" end in
  _config_check cfg env h = (Ok true, [])
  /\ _pull cfg cli env (h ++ listing.2) = (Raise (KeyError key), [])
  /\ run cfg cli containers env h = (Raise (KeyError key), listing.2)
  /\ (_StarterWorker cfg cli containers env h).1 = Ok None.
Proof.
  intros Hname Himage Hdata Haction Hb Hkeys Hout listing images Hlist Hnone key.
  assert (Hpull : forall h', _pull cfg cli env h' = (Raise (KeyError key), [])).
  { intros h'. rewrite (pull_eq cfg cli image Himage), Hb. subst key.
    destruct Hkeys as [->| ->]; [done | by destruct (cfg_dockerfile cfg)]. }
  assert (Hrun : run cfg cli containers env h = (Raise (KeyError key), listing.2)).
  { rewrite (run_action cfg cli containers name image data_path) by done.
    rewrite Haction. unfold _start. rewrite Hname, bind_item, decide_False by done.
    rewrite Himage, bind_item, bind_unfold. fold listing.
    destruct listing as [r l]. simpl in Hlist. subst r. cbn [fst snd].
    rewrite Hnone, !bind_assoc, bind_unfold, Hpull. unfold finish. simpl.
    by rewrite app_nil_r. }
  split_and!; [by apply (config_check_ok cfg name image data_path) | apply Hpull | done |].
  unfold _StarterWorker. by rewrite Hrun.
Qed.

Lemma build_needs_dockerfile_witness :
  let cfg := config "cont2" "repo:tag" "/d" in
  let cli := command_line Start true false false in
  let env := world docker_without_image token_ok registry_ok in
  run cfg cli [] env []
  = (Raise (KeyError "dockerfile"),
     [ESubprocess ["docker"; "images"; "--digests"; "--format";
                   "{{.Repository}}:{{.Tag}} {{.Digest}}"]
        (completed 0 (line "other:1" "sha256:z"))])
  /\ (_StarterWorker cfg cli [] env []).1 = Ok None.
Proof.
  intros cfg cli env.
  assert (Hout : "cont2" ∉ ([] : list string)) by (by intros ?%elem_of_nil).
  destruct (build_needs_dockerfile cfg cli [] "cont2" "repo:tag" "/d" env []
              eq_refl eq_refl eq_refl eq_refl eq_refl (or_introl eq_refl) Hout
              (<["other:1" := "sha256:z"]> ∅) eq_refl eq_refl) as (_ & _ & Hrun & Hw).
  split; [exact Hrun | exact Hw].
Defined.

(** ** Configurations that lack a key *)

(** X10: a worker whose configuration lacks [name], [image] or [data_path]
    names the first of them that is missing, in this order, and does nothing
    else, whatever the action: no call is made, and the worker ends with
    status 0 like one that did its work. *)
Theorem missing_key_skips_container cfg cli containers env h :
  cfg_name cfg = None \/ cfg_image cfg = None \/ cfg_data_path cfg = None ->
  let key := match cfg_name cfg, cfg_image cfg with
             | None, _ => "name"
             | Some _, None => "image"
             | Some _, Some _ => "data_path"
             end in
  run cfg cli containers env h
  = (Ok (Some 0), [EPrint ("'" +:+ key +:+ "' must be present")]).
Proof.
  intros Hkeys key. subst key. unfold run, _config_check, _config_check_keys, has_key.
  simpl decide. cbv iota.
  destruct (cfg_name cfg) as [name|]; [|reflexivity].
  destruct (cfg_image cfg) as [image|]; [|reflexivity].
  destruct (cfg_data_path cfg) as [data_path|]; [|reflexivity].
  by destruct Hkeys as [?|[?|?]].
Qed.

Lemma missing_key_skips_container_witness :
  let cfg := {| cfg_name := Some "cont1"; cfg_image := None; cfg_data_path := None;
                cfg_dockerfile := None; cfg_docker_path := None;
                cfg_p := None; cfg_v := None; cfg_e := None; cfg_any := None;
                cfg_restart := None |} in
  run cfg (command_line Purge false false false) ["cont1"]
    (world (docker_with_image 0) token_ok registry_ok) []
  = (Ok (Some 0), [EPrint "'image' must be present"]).
Proof.
  intros cfg.
  apply (missing_key_skips_container cfg (command_line Purge false false false)
           ["cont1"] (world (docker_with_image 0) token_ok registry_ok) []).
  right. left. reflexivity.
Defined.

(** X11: the coordinator reads the name and the image of every configuration
    in [_check], before any worker exists.  One configuration without a name
    or without an image, anywhere in the list, therefore ends the whole
    process with exit code 1 before anything is done to any container: the
    report of the worker for these two keys is never reached. *)
Theorem missing_name_is_fatal fuel cfgs cli env h :
  Exists (fun cfg => cfg_name cfg = None \/ cfg_image cfg = None) cfgs ->
  exit_code (DockerStarter fuel cfgs cli env h).1 = Some 1
  /\ calls (DockerStarter fuel cfgs cli env h).2 = [].
Proof.
  intros Hex. apply rejected_by_check. intros h' Hok.
  apply check_loop_ok in Hok as [Hall _].
  apply Exists_exists in Hex as (cfg & Hin & Hcfg).
  eapply Forall_forall in Hall as [[name Hname] [image Himage]]; [|exact Hin].
  destruct Hcfg; congruence.
Qed.

Lemma missing_name_is_fatal_witness :
  let nameless := {| cfg_name := None; cfg_image := Some "repo:tag";
                     cfg_data_path := Some "/d";
                     cfg_dockerfile := None; cfg_docker_path := None;
                     cfg_p := None; cfg_v := None; cfg_e := None; cfg_any := None;
                     cfg_restart := None |} in
  let result := DockerStarter 1 [config "cont1" "repo:tag" "/d"; nameless]
                  (command_line Start false false false)
                  (world (docker_with_image 0) token_ok registry_ok) [] in
  exit_code result.1 = Some 1 /\ calls result.2 = [].
Proof.
  intros nameless result.
  apply (missing_name_is_fatal 1 [config "cont1" "repo:tag" "/d"; nameless]).
  right. left. left. reflexivity.
Defined.

(** ** The upgrade action before the pull *)

(** X12: the upgrade action for an image that the digest listing lacks is the
    start action: after the listing the worker does what the start action
    does, which lists the images once more. *)
Theorem upgrade_of_absent_image_starts cfg cli containers name image data_path env h :
  cfg_name cfg = Some name ->
  cfg_image cfg = Some image ->
  cfg_data_path cfg = Some data_path ->
  cli_action cli = Upgrade ->
  let listing := _docker_images_sha256 env h in
  forall images, listing.1 = Ok images -> images !! image = None ->
  run cfg cli containers env h
  = after listing.2 (finish (_start cfg cli containers env (h ++ listing.2))).
Proof.
  intros Hname Himage Hdata Haction listing images Hlist Hnone.
  rewrite (run_action cfg cli containers name image data_path) by done.
  rewrite Haction. unfold _upgrade. rewrite bind_unfold. fold listing.
  destruct listing as [r l]. simpl in Hlist. subst r. cbn [fst snd].
  rewrite Himage, bind_item, Hnone. reflexivity.
Qed.

Lemma upgrade_of_absent_image_starts_witness :
  let cfg := config "cont1" "repo:tag" "/d" in
  let cli := command_line Upgrade false false false in
  let env := world docker_without_image token_ok registry_ok in
  let listing := ESubprocess ["docker"; "images"; "--digests"; "--format";
                              "{{.Repository}}:{{.Tag}} {{.Digest}}"]
                   (completed 0 (line "other:1" "sha256:z")) in
  run cfg cli ["cont1"] env []
  = (Ok (Some 0), [listing; ESubprocess ["docker"; "start"; "cont1"] (completed 0 "")]).
Proof.
  intros cfg cli env listing.
  pose proof (upgrade_of_absent_image_starts cfg cli ["cont1"] "cont1" "repo:tag" "/d" env []
                eq_refl eq_refl eq_refl eq_refl
                (<["other:1" := "sha256:z"]> ∅) eq_refl eq_refl) as H.
  vm_compute in H. vm_compute. exact H.
Defined.

(** X13: the upgrade action for an image that has a digest but no entry in the
    ID listing reports [Runtime error,<name> ID not found, exit] and stops:
    after the two listings no call is made. *)
Theorem upgrade_without_id cfg cli containers name image data_path env h :
  cfg_name cfg = Some name ->
  cfg_image cfg = Some image ->
  cfg_data_path cfg = Some data_path ->
  cli_action cli = Upgrade ->
  let listing := _docker_images_sha256 env h in
  let ids := _docker_images_id env (h ++ listing.2) in
  forall images old_sha known,
    listing.1 = Ok images -> images !! image = Some old_sha ->
    ids.1 = Ok known -> known !! image = None ->
    run cfg cli containers env h
    = (Ok (Some 0),
       listing.2 ++ ids.2
       ++ [EPrint ("Runtime error," +:+ name +:+ " ID not found, exit")]).
Proof.
  intros Hname Himage Hdata Haction listing ids images old_sha known Hlist Hsha Hids Hnone.
  rewrite (run_action cfg cli containers name image data_path) by done.
  rewrite Haction. unfold _upgrade. rewrite bind_unfold. subst ids. fold listing.
  destruct listing as [r l]. simpl in Hlist. subst r. cbn [fst snd] in *.
  rewrite Himage, bind_item, Hsha, bind_unfold.
  destruct (_docker_images_id env (h ++ l)) as [r l']. simpl in Hids. subst r.
  cbn [fst snd]. rewrite bind_item, Hnone, Hname, bind_item, bind_print.
  reflexivity.
Qed.

Lemma upgrade_without_id_witness :
  let cfg := config "cont1" "repo:tag" "/d" in
  let cli := command_line Upgrade false false false in
  let env := world (fun args => match args with
                                | "images" :: "--digests" :: _ =>
                                    completed 0 (line "repo:tag" "sha256:x")
                                | _ => docker_without_image args
                                end) token_ok registry_ok in
  run cfg cli ["cont1"] env []
  = (Ok (Some 0),
     [ESubprocess ["docker"; "images"; "--digests"; "--format";
                   "{{.Repository}}:{{.Tag}} {{.Digest}}"]
        (completed 0 (line "repo:tag" "sha256:x"));
      ESubprocess ["docker"; "images"; "--format"; "{{.Repository}}:{{.Tag}} {{.ID}}"]
        (completed 0 (line "other:1" "sha256:z"));
      EPrint "Runtime error,cont1 ID not found, exit"]).
Proof.
  intros cfg cli env.
  pose proof (upgrade_without_id cfg cli ["cont1"] "cont1" "repo:tag" "/d" env []
                eq_refl eq_refl eq_refl eq_refl
                (<["repo:tag" := "sha256:x"]> ∅) "sha256:x"
                (<["other:1" := "sha256:z"]> ∅) eq_refl eq_refl eq_refl eq_refl) as H.
  vm_compute in H. vm_compute. exact H.
Defined.

(** X14: an upgrade without [-b] of an image whose registry digest is the
    local one changes nothing: after the two listings and the lookup the
    image is reported as up to date, and nothing is pulled, stopped, removed
    or created. *)
Theorem upgrade_up_to_date cfg cli containers name image data_path env h :
  cfg_name cfg = Some name ->
  cfg_image cfg = Some image ->
  cfg_data_path cfg = Some data_path ->
  cli_action cli = Upgrade ->
  cli_b cli = false ->
  let listing := _docker_images_sha256 env h in
  let ids := _docker_images_id env (h ++ listing.2) in
  let remote := _docker_remote_sha256 image env (h ++ listing.2 ++ ids.2) in
  forall images old_sha known old_id_,
    listing.1 = Ok images -> images !! image = Some old_sha ->
    ids.1 = Ok known -> known !! image = Some old_id_ ->
    Py.truthy old_sha = true ->
    old_sha <> "<none>" \/ cli_f cli = true ->
    remote.1 = Ok (Some old_sha) ->
    run cfg cli containers env h
    = (Ok (Some 0),
       listing.2 ++ ids.2 ++ remote.2 ++ [EPrint (image +:+ " up to date")])
    /\ calls (run cfg cli containers env h).2 = [].
Proof.
  intros Hname Himage Hdata Haction Hb listing ids remote images old_sha known old_id_.
  intros Hlist Hsha Hids Hid Htruthy Hsource Hremote.
  assert (Hrun : run cfg cli containers env h
    = (Ok (Some 0),
       listing.2 ++ ids.2 ++ remote.2 ++ [EPrint (image +:+ " up to date")])).
  { rewrite (run_action cfg cli containers name image data_path) by done.
    rewrite Haction. unfold _upgrade. rewrite bind_unfold. subst remote ids. fold listing.
    destruct listing as [r l]. simpl in Hlist. subst r. cbn [fst snd] in *.
    rewrite Himage, bind_item, Hsha, bind_unfold.
    destruct (_docker_images_id env (h ++ l)) as [r l']. simpl in Hids. subst r.
    cbn [fst snd] in *. rewrite bind_item, Hid, bind_unfold, allow_source_change_eq.
    rewrite decide_False.
    2: { unfold inferred_source, requested_source. rewrite Hb.
         intros [Hne Hf]. destruct Hsource as [Hsha'|Hf']; [|congruence].
         by rewrite decide_False in Hne. }
    cbn [fst snd negb]. rewrite app_nil_r.
    unfold _upgrade_from, _update. rewrite Htruthy, !bind_assoc, bind_ret.
    rewrite Himage, ?bind_assoc, bind_item, ?bind_assoc, bind_unfold. rewrite <- app_assoc.
    destruct (_docker_remote_sha256 image env (h ++ l ++ l')) as [r l''].
    simpl in Hremote. subst r. cbn [fst snd]. rewrite decide_True by done.
    rewrite bind_assoc, bind_print, bind_ret, Hb. reflexivity. }
  split; [done|]. rewrite Hrun. cbn [snd]. rewrite !calls_app.
  rewrite (calls_reads listing.2) by apply images_sha256_reads.
  rewrite (calls_reads ids.2) by apply images_id_reads.
  rewrite (calls_reads remote.2) by apply remote_sha256_reads.
  reflexivity.
Qed.

Lemma upgrade_up_to_date_witness :
  let cfg := config "cont1" "repo:tag" "/d" in
  let cli := command_line Upgrade false false false in
  let same := answer 200 None
                (Some {| Docker_Content_Digest := Some "sha256:x"; Etag := None |}) in
  let env := world (docker_with_image 0) token_ok same in
  run cfg cli ["cont1"] env []
  = (Ok (Some 0),
     [ESubprocess ["docker"; "images"; "--digests"; "--format";
                   "{{.Repository}}:{{.Tag}} {{.Digest}}"]
        (completed 0 (line "repo:tag" "sha256:x"));
      ESubprocess ["docker"; "images"; "--format"; "{{.Repository}}:{{.Tag}} {{.ID}}"]
        (completed 0 (line "repo:tag" "abc"));
      EAuthGet "repository:repo:pull" token_ok;
      ERegistryHead "https://registry-1.docker.io/v2/repo/manifests/tag" "Bearer tok" same;
      EPrint "repo:tag up to date"]).
Proof.
  intros cfg cli same env.
  assert (Hsource : "sha256:x" <> "<none>" \/ cli_f cli = true) by (left; discriminate).
  destruct (upgrade_up_to_date cfg cli ["cont1"] "cont1" "repo:tag" "/d" env []
              eq_refl eq_refl eq_refl eq_refl eq_refl
              (<["repo:tag" := "sha256:x"]> ∅) "sha256:x"
              (<["repo:tag" := "abc"]> ∅) "abc"
              eq_refl eq_refl eq_refl eq_refl eq_refl Hsource eq_refl) as [H _].
  vm_compute in H. vm_compute. exact H.
Defined.

(** ** The image deletion of the upgrade *)

(** X15: the image deletion that ends an upgrade is given the ID of the old
    image.  It lists the image IDs; when the ID is among them, that image is
    deleted by its ID and the digests are not listed.  Otherwise the digests
    are listed, and when they still have the reference of the configuration,
    [docker rmi] is sent all the same with the ID, not the reference; when
    they lack it, nothing is deleted and the step counts as done.  A failed
    deletion is reported and makes the step fail. *)
Theorem rmi_by_id cfg image i env h :
  cfg_image cfg = Some image ->
  Py.truthy i = true ->
  let ids := _docker_repo_id env h in
  let listing := _docker_images_sha256 env (h ++ ids.2) in
  _rmi cfg (Some i) env h
  = match ids.1 with
    | Raise e => (Raise e, ids.2)
    | Ok known =>
        if decide (i ∈ known) then
          let c := subprocess_run env (h ++ ids.2) ["docker"; "rmi"; i] in
          (Ok (returncode c =? 0), ids.2 ++ rmi_events i c)
        else
          match listing.1 with
          | Raise e => (Raise e, ids.2 ++ listing.2)
          | Ok images =>
              if bool_decide (is_Some (images !! image)) then
                let c := subprocess_run env (h ++ ids.2 ++ listing.2) ["docker"; "rmi"; i] in
                (Ok (returncode c =? 0), ids.2 ++ listing.2 ++ rmi_events i c)
              else (Ok true, ids.2 ++ listing.2)
          end
    end.
Proof.
  intros Himage Htruthy ids listing.
  assert (Htarget : rmi_target image (Some i) = i) by (unfold rmi_target; by rewrite Htruthy).
  unfold _rmi. rewrite bind_assoc, bind_unfold. subst listing. fold ids.
  destruct ids as [[known|e] l]; [|done]. cbn [fst snd].
  destruct (decide (i ∈ known)).
  - rewrite bind_ret, (rmi_delete_eq cfg image Himage (Some i)), Htarget. reflexivity.
  - rewrite bind_unfold, (tracked_eq cfg image Himage).
    destruct (_docker_images_sha256 env (h ++ l)) as [[images|e] l']; [|done].
    cbn [fst snd]. destruct (bool_decide (is_Some (images !! image))).
    + rewrite (rmi_delete_eq cfg image Himage (Some i)), Htarget. cbv zeta. cbn [fst snd].
      by rewrite <- !app_assoc.
    + cbn [ret fst snd]. by rewrite app_nil_r.
Qed.

Lemma rmi_by_id_witness :
  let cfg := config "cont1" "repo:tag" "/d" in
  let env := world (docker_with_image 0) token_ok registry_ok in
  _rmi cfg (Some "old") env []
  = (Ok true,
     [ESubprocess ["docker"; "images"; "--format"; "{{.ID}}"]
        (completed 0 ("abc" +:+ String NL ""));
      ESubprocess ["docker"; "images"; "--digests"; "--format";
                   "{{.Repository}}:{{.Tag}} {{.Digest}}"]
        (completed 0 (line "repo:tag" "sha256:x"));
      ESubprocess ["docker"; "rmi"; "old"] (completed 0 "")]).
Proof.
  intros cfg env.
  pose proof (rmi_by_id cfg "repo:tag" "old" env [] eq_refl eq_refl) as H.
  vm_compute in H. vm_compute. exact H.
Defined.

(** ** What an action can do *)

Lemma run_footprint cfg cli action :
  action = Start \/ action = Upgrade -> only (footprint cfg action) (_run cfg cli).
Proof.
  intros Haction env h.
  destruct (cfg_data_path cfg) as [data_path|] eqn:Hdata;
    [|unfold _run; rewrite Hdata; constructor].
  destruct (cfg_name cfg) as [name|] eqn:Hname;
    [|unfold _run; rewrite Hdata, Hname; constructor].
  destruct (cfg_image cfg) as [image|] eqn:Himage;
    [|unfold _run; rewrite Hdata, Hname, Himage; constructor].
  rewrite (run_eq cfg cli name image data_path Hname Himage Hdata), run_cmd_eq.
  cbv zeta. unfold run_events.
  destruct (has_volumes cfg), (os_makedirs env h data_path); simpl.
  all: repeat constructor.
  all: destruct Haction as [-> | ->]; simpl; try done.
  all: by rewrite Hdata, bool_decide_eq_true_2.
Qed.

Lemma remove_footprint cfg cli containers action :
  action = Remove \/ action = Purge ->
  only (footprint cfg action) (_remove cfg cli containers).
Proof. intros [-> | ->]; open_actions; frame. Qed.

(** X16: what the worker of each action can do at all, for every
    configuration and every world.  Start: [docker start], the image
    listing, pull or build, and run.  Stop: [docker stop] only.  Update: the
    image listing and the registry requests.  Upgrade: all [docker] calls of
    the other actions and the registry requests.  Remove and purge: [docker
    stop], [rm], the image listings and [rmi].  The registry is asked by
    update and upgrade only; a directory is created by start and upgrade
    only, and it is [data_path]; a directory is deleted by purge only, and
    it is [data_path]. *)
Theorem action_footprint cfg cli containers env h :
  Forall (fun ev => footprint cfg (cli_action cli) ev = true)
    (run cfg cli containers env h).2.
Proof.
  revert env h. change (only (footprint cfg (cli_action cli)) (run cfg cli containers)).
  unfold run. apply only_bind; [by apply only_config_check|]. intros ok.
  apply only_bind; [|intros _; apply only_ret].
  destruct ok; cbn [negb]; [|apply only_ret].
  destruct (cli_action cli) eqn:Haction; set_action Haction.
  - open_actions. frame. all: apply run_footprint; by left.
  - open_actions. frame.
  - open_actions. frame.
  - open_actions. frame. all: apply run_footprint; by right.
  - apply only_bind; [apply remove_footprint; by left | intros _; apply only_ret].
  - unfold _purge. apply only_bind; [apply remove_footprint; by right|].
    intros []; [|apply only_ret].
    destruct (cfg_data_path cfg) as [data_path|] eqn:Hdata; [|intros env h; constructor].
    intros env h. rewrite bind_item. repeat constructor. simpl.
    by rewrite Hdata, bool_decide_eq_true_2.
Qed.

(** ** The snapshot is taken once *)

Lemma worker_no_ps cfg cli containers : only no_ps (_StarterWorker cfg cli containers).
Proof.
  assert (Hrun : only no_ps (run cfg cli containers)) by (open_worker; frame).
  intros env h. specialize (Hrun env h). unfold _StarterWorker.
  by destruct (run cfg cli containers env h) as [[status|e] ev].
Qed.

Lemma check_loop_prints P t cfgs images names :
  (forall msg, P (EPrint msg) = true) -> only P (_check_loop t cfgs images names).
Proof.
  intros HP. revert images names.
  induction cfgs as [|cfg cfgs IH]; intros images names; simpl; [apply only_ret|].
  apply only_bind; [apply only_item|]. intros name.
  destruct (decide (name ∈ names)); [frame_with ltac:(apply HP)|].
  apply only_bind; [apply only_item|]. intros image.
  destruct (t && bool_decide (image ∈ images)); [frame_with ltac:(apply HP) | apply IH].
Qed.

Lemma one_by_one_no_ps fuel cli containers cfgs :
  only no_ps (_one_by_one fuel cli containers cfgs).
Proof.
  induction cfgs as [|cfg cfgs IH]; simpl; [apply only_ret|].
  apply only_bind; [apply worker_no_ps|]. intros status.
  destruct (wait fuel status); [apply IH | apply only_ret].
Qed.

Lemma start_all_no_ps cli containers cfgs : only no_ps (start_all cli containers cfgs).
Proof.
  induction cfgs as [|cfg cfgs IH]; simpl; [apply only_ret|].
  apply only_bind; [apply worker_no_ps|]. intros status.
  apply only_bind; [apply IH | intros runs; apply only_ret].
Qed.

(** X17: the containers are listed once, by the coordinator and before
    anything else: the first call of every execution is [docker ps], and no
    later call of the coordinator or of a worker lists the containers again,
    so every worker decides on the names that were there at the beginning. *)
Theorem snapshot_taken_once fuel cfgs cli env h :
  let cmd := ["docker"; "ps"; "-a"; "--format"; "{{.Names}}"] in
  exists rest,
    (DockerStarter fuel cfgs cli env h).2 = ESubprocess cmd (subprocess_run env h cmd) :: rest
    /\ Forall (fun ev => no_ps ev = true) rest.
Proof.
  intros cmd. unfold DockerStarter. rewrite bind_unfold, containers_eq. cbv zeta.
  destruct (returncode _ =? 0); [|by exists []].
  cbn [fst snd app]. eexists. split; [reflexivity|].
  match goal with |- Forall _ (?m env ?h').2 =>
    assert (Hm : only no_ps m); [|apply Hm] end.
  apply only_bind; [by apply check_loop_prints|]. intros _.
  destruct (cli_t cli); [|apply one_by_one_no_ps].
  apply only_bind; [apply start_all_no_ps | intros runs; apply only_ret].
Qed.

(** ** Workers that die *)

Lemma wait_all_none fuel runs : wait_all fuel (None :: runs) = false.
Proof. induction fuel as [|fuel IH]; [done | exact IH]. Qed.

(** X18: in sequential mode a worker whose action raised stops the whole
    sequence: the coordinator waits for its status for ever, whatever the
    bound on the rounds, and the configurations after it are never worked
    on.  In concurrent mode the workers of the other configurations are
    started all the same, but the coordinator waits for ever as well. *)
Theorem dead_worker_blocks_sequence fuel cli containers cfg rest env h e :
  (run cfg cli containers env h).1 = Raise e ->
  let evs := (run cfg cli containers env h).2 in
  _one_by_one fuel cli containers (cfg :: rest) env h = (Ok false, evs)
  /\ (start_all cli containers (cfg :: rest) env h).2
     = evs ++ (start_all cli containers rest env (h ++ evs)).2
  /\ (_all_once fuel cli containers (cfg :: rest) env h).1 = Ok false.
Proof.
  intros Hrun evs. subst evs.
  assert (Hw : _StarterWorker cfg cli containers env h
               = (Ok None, (run cfg cli containers env h).2)).
  { unfold _StarterWorker. destruct (run cfg cli containers env h) as [[status|e'] ev];
      [done | reflexivity]. }
  split_and!.
  - simpl. rewrite bind_unfold, Hw. cbn [fst snd]. rewrite wait_none. simpl.
    by rewrite app_nil_r.
  - simpl. rewrite bind_unfold, Hw. cbn [fst snd]. rewrite bind_unfold.
    destruct (start_all cli containers rest env _) as [[runs|e'] ev]; simpl; [|done].
    by rewrite app_nil_r.
  - unfold _all_once. simpl. rewrite bind_assoc, bind_unfold, Hw. cbn [fst snd].
    rewrite bind_assoc, bind_unfold.
    destruct (start_all_returns cli containers rest env
                (h ++ (run cfg cli containers env h).2)) as [runs Hruns].
    destruct (start_all cli containers rest env _) as [r ev]. simpl in Hruns. subst r.
    cbn [fst snd]. rewrite bind_ret. cbn [ret fst]. by rewrite wait_all_none.
Qed.

Lemma dead_worker_blocks_sequence_witness :
  let cfg := config "cont1" "repo:tag" "/d" in
  let cli := command_line Start false false false in
  let env := world docker_silent token_ok registry_ok in
  let listing := ESubprocess ["docker"; "images"; "--digests"; "--format";
                              "{{.Repository}}:{{.Tag}} {{.Digest}}"] (completed 0 "") in
  _one_by_one 5 cli [] [cfg; config "cont2" "repo:tag" "/d"] env []
  = (Ok false, [listing]).
Proof.
  intros cfg cli env listing.
  destruct (dead_worker_blocks_sequence 5 cli [] cfg [config "cont2" "repo:tag" "/d"] env []
              ValueError eq_refl) as [H _].
  exact H.
Defined.

(** ** The digest of the registry *)

Lemma lstrip_clean c s : Py.startswith c (Py.lstrip c s) = false.
Proof.
  induction s as [|a s IH]; [done|]. simpl.
  destruct (decide (a = c)); [done|]. simpl. by rewrite bool_decide_eq_false_2.
Qed.

Lemma rstrip_start c s : Py.startswith c s = false -> Py.startswith c (Py.rstrip c s) = false.
Proof.
  destruct s as [|a s]; [done|]. simpl. intros Ha%bool_decide_eq_false.
  destruct (Py.rstrip c s); [|by simpl; rewrite bool_decide_eq_false_2].
  rewrite decide_False by done. simpl. by rewrite bool_decide_eq_false_2.
Qed.

Lemma rstrip_clean c s : Py.endswith c (Py.rstrip c s) = false.
Proof.
  induction s as [|a s IH]; [done|]. simpl.
  destruct (Py.rstrip c s) as [|b r] eqn:Hr.
  - destruct (decide (a = c)); [done|]. simpl. by rewrite bool_decide_eq_false_2.
  - exact IH.
Qed.

(** What [strip] leaves neither begins nor ends with the character. *)
Lemma strip_clean c s :
  Py.startswith c (Py.strip c s) = false /\ Py.endswith c (Py.strip c s) = false.
Proof.
  unfold Py.strip. split; [apply rstrip_start, lstrip_clean | apply rstrip_clean].
Qed.

(** X19: a lookup that goes well.  The reference is cut at its last colon
    into repository and tag; the token is asked for the pull scope of the
    repository and sent as bearer token with the request for the manifest of
    the tag.  When both answer with status 200, the digest is the
    content-digest header when there is one that is not empty, and the
    entity tag otherwise, without the double quotes around it.  Two requests
    are made and nothing is printed. *)
Theorem remote_sha256_digest registry tag env h rq1 token rq2 data s :
  has_char ":" tag = false ->
  let scope := "repository:" +:+ registry +:+ ":pull" in
  let url := "https://registry-1.docker.io/v2/" +:+ registry +:+ "/manifests/" +:+ tag in
  let bearer := "Bearer " +:+ token in
  requests_get_token env h scope = Answer rq1 ->
  status_code rq1 = 200 ->
  json rq1 = JsonDict (Some token) ->
  Py.truthy token = true ->
  requests_head env (h ++ [EAuthGet scope (Answer rq1)]) url bearer = Answer rq2 ->
  status_code rq2 = 200 ->
  headers rq2 = Some data ->
  (Docker_Content_Digest data = Some s /\ Py.truthy s = true)
  \/ ((Docker_Content_Digest data = None \/ Docker_Content_Digest data = Some "")
      /\ Etag data = Some s) ->
  _docker_remote_sha256 (registry +:+ ":" +:+ tag) env h
  = (Ok (Some (Py.strip DQUOTE s)),
     [EAuthGet scope (Answer rq1); ERegistryHead url bearer (Answer rq2)])
  /\ Py.startswith DQUOTE (Py.strip DQUOTE s) = false
  /\ Py.endswith DQUOTE (Py.strip DQUOTE s) = false.
Proof.
  intros Htag scope url bearer Hauth Hcode1 Hjson Htoken Hhead Hcode2 Hheaders Hdigest.
  split; [|apply strip_clean].
  unfold _docker_remote_sha256.
  change (registry +:+ ":" +:+ tag) with (registry +:+ String ":" tag).
  rewrite (rsplit1_cut _ _ _ Htag). fold scope url.
  assert (Ha : auth_get scope env h = (Ok (Answer rq1), [EAuthGet scope (Answer rq1)]))
    by (unfold auth_get; by rewrite Hauth).
  exec Ha. cbv beta iota. rewrite Hcode1, Hjson, Htoken. cbn [Z.eqb Pos.eqb negb].
  fold bearer.
  assert (Hh : registry_head url bearer env (h ++ [EAuthGet scope (Answer rq1)])
               = (Ok (Answer rq2), [ERegistryHead url bearer (Answer rq2)]))
    by (unfold registry_head; by rewrite Hhead).
  exec Hh. cbv beta iota. rewrite Hcode2, Hheaders. cbn [Z.eqb Pos.eqb negb].
  destruct Hdigest as [[-> ->]|[[-> | ->] ->]]; reflexivity.
Qed.

Lemma remote_sha256_digest_witness :
  let env := world (docker_with_image 0) token_ok registry_ok in
  _docker_remote_sha256 ("library/nginx" +:+ ":" +:+ "1.25") env []
  = (Ok (Some "sha256:y"),
     [EAuthGet "repository:library/nginx:pull" token_ok;
      ERegistryHead "https://registry-1.docker.io/v2/library/nginx/manifests/1.25"
        "Bearer tok" registry_ok]).
Proof.
  intros env.
  destruct (remote_sha256_digest "library/nginx" "1.25" env []
              {| status_code := 200; json := JsonDict (Some "tok"); headers := None |} "tok"
              {| status_code := 200; json := JsonDict None;
                 headers := Some {| Docker_Content_Digest := None;
                                    Etag := Some (String DQUOTE "sha256:y" +:+ String DQUOTE "") |} |}
              {| Docker_Content_Digest := None;
                 Etag := Some (String DQUOTE "sha256:y" +:+ String DQUOTE "") |}
              (String DQUOTE "sha256:y" +:+ String DQUOTE "")
              eq_refl eq_refl eq_refl eq_refl eq_refl eq_refl eq_refl eq_refl
              (or_intror (conj (or_introl eq_refl) eq_refl))) as [H _].
  exact H.
Defined.

(** X20: an image reference without a colon cannot be looked up: the lookup
    raises a [ValueError] before any request.  A reference with a colon is
    cut at the last one, and the first thing the lookup does is to ask for a
    token for the part before it. *)
Theorem remote_sha256_reference rep_tag env h :
  (has_char ":" rep_tag = false ->
   _docker_remote_sha256 rep_tag env h = (Raise ValueError, []))
  /\ (forall registry tag,
        rep_tag = registry +:+ ":" +:+ tag -> has_char ":" tag = false ->
        let scope := "repository:" +:+ registry +:+ ":pull" in
        exists rest,
          (_docker_remote_sha256 rep_tag env h).2
          = EAuthGet scope (requests_get_token env h scope) :: rest).
Proof.
  split.
  - intros Hnone. unfold _docker_remote_sha256. by rewrite (rsplit1_whole _ _ Hnone).
  - intros registry tag -> Htag scope. unfold _docker_remote_sha256.
    change (registry +:+ ":" +:+ tag) with (registry +:+ String ":" tag).
    rewrite (rsplit1_cut _ _ _ Htag). fold scope. rewrite bind_unfold.
    unfold auth_get at 1. cbv zeta. cbn [fst snd app]. by eexists.
Qed.

Lemma remote_sha256_reference_witness :
  let env := world (docker_with_image 0) token_ok registry_ok in
  _docker_remote_sha256 "nginx" env [] = (Raise ValueError, [])
  /\ exists rest,
       (_docker_remote_sha256 "host:5000/nginx" env []).2
       = EAuthGet "repository:host:pull" token_ok :: rest.
Proof.
  intros env. split.
  - apply (remote_sha256_reference "nginx" env []). reflexivity.
  - destruct (remote_sha256_reference "host:5000/nginx" env []) as [_ H].
    exact (H "host" "5000/nginx" eq_refl eq_refl).
Defined.

(** X21: the registry is never asked without a token: a manifest request in
    the trace of a lookup follows a token request that was answered with
    status 200 and a token that is not empty, and it carries this token as
    bearer token. *)
Theorem registry_needs_token rep_tag env h url authorization r :
  ERegistryHead url authorization r ∈ (_docker_remote_sha256 rep_tag env h).2 ->
  exists scope rq token,
    (_docker_remote_sha256 rep_tag env h).2 !! 0%nat = Some (EAuthGet scope (Answer rq))
    /\ status_code rq = 200
    /\ json rq = JsonDict (Some token)
    /\ Py.truthy token = true
    /\ authorization = "Bearer " +:+ token.
Proof.
  unfold _docker_remote_sha256, bind, auth_get, registry_head, print, ret, raise.
  cbv zeta.
  repeat case_match; simplify_eq/=.
  all: rewrite ?elem_of_cons, ?elem_of_nil.
  all: intros Hin; repeat (destruct Hin as [Hin|Hin]); try done; simplify_eq.
  all: eexists _, _, _; split_and!; try done.
  all: try by apply Z.eqb_eq, negb_false_iff.
  all: by apply negb_false_iff.
Qed.

Lemma registry_needs_token_witness :
  let env := world (docker_with_image 0) token_ok registry_ok in
  exists scope rq token,
    (_docker_remote_sha256 "repo:tag" env []).2 !! 0%nat = Some (EAuthGet scope (Answer rq))
    /\ status_code rq = 200
    /\ json rq = JsonDict (Some token)
    /\ Py.truthy token = true
    /\ "Bearer tok" = "Bearer " +:+ token.
Proof.
  intros env.
  apply (registry_needs_token "repo:tag" env []
           "https://registry-1.docker.io/v2/repo/manifests/tag" "Bearer tok" registry_ok).
  vm_compute. right. left.
Defined.

(** ** Volumes and the data directory *)

(** X22: every volume of the configuration is in the run invocation as a
    [-v] pair.  Its host side is the subpath itself when the subpath begins
    with a slash, so that such a volume lies outside [data_path].  Otherwise
    it is [data_path] and the subpath with one slash put between them,
    except that nothing is put between them when [data_path] is empty or
    ends with a slash already. *)
Theorem volume_host_path cfg cli name image data_path key val :
  (key, val) ∈ default [] (cfg_v cfg) ->
  exists before after host,
    (_run_cmd cfg cli name image data_path).2
    = before ++ ["-v"; host +:+ ":" +:+ val] ++ after
    /\ (Py.startswith "/" key = true -> host = key)
    /\ (Py.startswith "/" key = false ->
        (data_path = "" -> host = key)
        /\ (Py.endswith "/" data_path = true -> host = data_path +:+ key)
        /\ (data_path <> "" -> Py.endswith "/" data_path = false ->
            host = data_path +:+ "/" +:+ key)).
Proof.
  intros (l1 & l2 & Hv)%list_elem_of_split.
  rewrite run_cmd_eq. cbn [snd]. unfold run_arguments. rewrite Hv.
  rewrite map_app, concat_app. cbn [map concat]. unfold mount_entry at 2. cbn [fst snd].
  eexists (["-d"] ++ concat (map port_entry (default [] (cfg_p cfg)))
             ++ concat (map (mount_entry data_path) l1)), _, (Py.path_join data_path key).
  split_and!.
  - rewrite <- !app_assoc. reflexivity.
  - unfold Py.path_join. by intros ->.
  - unfold Py.path_join. intros ->. split_and!.
    + by intros ->.
    + intros ->. by rewrite orb_true_r.
    + intros Hne ->. by destruct data_path.
Qed.

Lemma volume_host_path_witness :
  let cfg := {| cfg_name := Some "c1"; cfg_image := Some "repo:tag";
                cfg_data_path := Some "/d";
                cfg_dockerfile := None; cfg_docker_path := None;
                cfg_p := None; cfg_v := Some [("sub", "/x"); ("/etc/app", "/conf")];
                cfg_e := None; cfg_any := None; cfg_restart := None |} in
  let cmd := (_run_cmd cfg (command_line Start false false false) "c1" "repo:tag" "/d").2 in
  (exists before after, cmd = before ++ ["-v"; "/d/sub:/x"] ++ after)
  /\ (exists before after, cmd = before ++ ["-v"; "/etc/app:/conf"] ++ after).
Proof.
  intros cfg cmd. split.
  - destruct (volume_host_path cfg (command_line Start false false false) "c1" "repo:tag"
                "/d" "sub" "/x") as (before & after & host & Hcmd & _ & Hrel).
    { simpl. by left. }
    destruct (Hrel eq_refl) as (_ & _ & Hhost).
    rewrite (Hhost ltac:(discriminate) eq_refl) in Hcmd. by exists before, after.
  - destruct (volume_host_path cfg (command_line Start false false false) "c1" "repo:tag"
                "/d" "/etc/app" "/conf") as (before & after & host & Hcmd & Habs & _).
    { simpl. right. by left. }
    rewrite (Habs eq_refl) in Hcmd. by exists before, after.
Defined.

(** X23: when the configuration has volumes and [data_path] cannot be
    created, [_run] ends in the [OSError] of [os.makedirs]: no container is
    created and nothing is reported. *)
Theorem makedirs_failure_prevents_run cfg cli name image data_path env h :
  cfg_name cfg = Some name ->
  cfg_image cfg = Some image ->
  cfg_data_path cfg = Some data_path ->
  has_volumes cfg = true ->
  os_makedirs env h data_path = false ->
  _run cfg cli env h = (Raise OSError, [EMakedirs data_path false]).
Proof.
  intros Hname Himage Hdata Hv Hmk.
  rewrite (run_eq cfg cli name image data_path Hname Himage Hdata), run_cmd_eq.
  cbv zeta. by rewrite Hv, Hmk.
Qed.

Lemma makedirs_failure_prevents_run_witness :
  let env := {| subprocess_run := fun _ _ => completed 0 "";
                requests_get_token := fun _ _ => token_ok;
                requests_head := fun _ _ _ => registry_ok;
                os_makedirs := fun _ _ => false |} in
  _run config_with_volume (command_line Start false false false) env []
  = (Raise OSError, [EMakedirs "/d" false]).
Proof.
  intros env.
  apply (makedirs_failure_prevents_run config_with_volume
           (command_line Start false false false) "c1" "repo:tag" "/d" env []);
    reflexivity.
Defined.

(** ** The architecture name *)

(** X24: [get_arch] knows three machine names and gives each its own
    architecture name; every other machine name gives [unknown], without an
    error. *)
Theorem get_arch_known machine :
  (get_arch machine = "unknown" <-> machine ∉ ["x86_64"; "aarch64"; "armv7l"])
  /\ (forall other,
        get_arch machine = get_arch other -> get_arch machine <> "unknown" ->
        machine = other).
Proof.
  assert (Hcases : forall m,
    (m = "armv7l" /\ get_arch m = "arm32v7")
    \/ (m = "aarch64" /\ get_arch m = "arm64v8")
    \/ (m = "x86_64" /\ get_arch m = "amd64")
    \/ ((m ∉ ["x86_64"; "aarch64"; "armv7l"]) /\ get_arch m = "unknown")).
  { intros m. unfold get_arch. cbv zeta.
    destruct (decide (m = "armv7l")) as [->|H1]; [by left|].
    rewrite lookup_insert_ne by done.
    destruct (decide (m = "aarch64")) as [->|H2]; [right; by left|].
    rewrite lookup_insert_ne by done.
    destruct (decide (m = "x86_64")) as [->|H3]; [right; right; by left|].
    rewrite lookup_insert_ne by done. right. right. right. split; [|done].
    rewrite !elem_of_cons, elem_of_nil. tauto. }
  split.
  - destruct (Hcases machine) as [[-> ->]|[[-> ->]|[[-> ->]|[Hout ->]]]]; split; try done.
    all: intros Hout; exfalso; apply Hout; rewrite !elem_of_cons; tauto.
  - intros other.
    destruct (Hcases machine) as [[-> ->]|[[-> ->]|[[-> ->]|[Hout ->]]]]; [| | |done].
    all: destruct (Hcases other) as [[-> ->]|[[-> ->]|[[-> ->]|[Hout ->]]]]; done.
Qed.

Lemma get_arch_known_witness :
  get_arch "riscv64" = "unknown" /\ get_arch "aarch64" = "arm64v8".
Proof.
  destruct (get_arch_known "riscv64") as [[_ Hunknown] _].
  split; [|reflexivity]. apply Hunknown.
  rewrite !elem_of_cons, elem_of_nil. by intros [|[|[|]]].
Defined.

(** ** The configuration check on values of any type *)

Lemma required_pass cfg keys rest env h :
  forallb (fun key => bool_decide (is_Some (cfg !! key))) keys = true ->
  _config_check_required cfg keys rest env h = rest env h.
Proof.
  induction keys as [|key keys IH]; [done|]. simpl.
  intros [-> Hkeys]%andb_true_iff. by apply IH.
Qed.

Lemma required_fail cfg keys rest env h :
  forallb (fun key => bool_decide (is_Some (cfg !! key))) keys = false ->
  exists msg, _config_check_required cfg keys rest env h = (Ok false, [EPrint msg]).
Proof.
  induction keys as [|key keys IH]; [done|]. simpl.
  destruct (bool_decide (is_Some (cfg !! key))); simpl; [exact IH|].
  intros _. by eexists.
Qed.

Lemma options_pass cfg key opts rest env h :
  forallb (well_typed cfg key) opts = true ->
  _config_check_options cfg key opts rest env h = rest env h.
Proof.
  induction opts as [|opt opts IH]; [done|]. simpl. unfold well_typed at 1.
  intros [Hopt Hopts]%andb_true_iff.
  destruct (cfg !! opt) as [value|]; [rewrite Hopt|]; by apply IH.
Qed.

Lemma options_fail cfg key opts rest env h :
  forallb (well_typed cfg key) opts = false ->
  exists msg, _config_check_options cfg key opts rest env h = (Ok false, [EPrint msg]).
Proof.
  induction opts as [|opt opts IH]; [done|]. simpl. unfold well_typed at 1.
  destruct (cfg !! opt) as [value|]; [|exact IH].
  destruct (bool_decide (instance_of value = key)); simpl; [exact IH|].
  intros _. by eexists.
Qed.

(** X25: what [_config_check] accepts, for values of any type.  A
    configuration passes, without a word, exactly when it has [name],
    [image] and [data_path], every one of [name], [image], [data_path],
    [dockerfile] and [restart] that it has is a string, every one of [p], [v]
    and [e] a dictionary, and [any] a list.  Every other configuration is
    rejected with one report. *)
Theorem config_check_accepts cfg env h :
  let accepted :=
    forallb (fun key => bool_decide (is_Some (cfg !! key))) ["name"; "image"; "data_path"]
    && forallb (well_typed cfg PyStr) ["name"; "image"; "data_path"; "dockerfile"; "restart"]
    && forallb (well_typed cfg PyDict) ["p"; "v"; "e"]
    && well_typed cfg PyList "any" in
  if accepted then _config_check_untyped cfg env h = (Ok true, [])
  else exists msg, _config_check_untyped cfg env h = (Ok false, [EPrint msg]).
Proof.
  intros accepted. subst accepted. unfold _config_check_untyped.
  destruct (forallb _ ["name"; "image"; "data_path"]) eqn:Hkeys;
    [|by apply required_fail].
  rewrite required_pass by done. unfold type_check, _config_check_classes.
  assert (Hstr : forallb (well_typed cfg PyStr)
                   ["name"; "image"; "data_path"; "dockerfile"; "data_path"; "restart"]
                 = forallb (well_typed cfg PyStr)
                     ["name"; "image"; "data_path"; "dockerfile"; "restart"]).
  { simpl. by destruct (well_typed cfg PyStr "name"), (well_typed cfg PyStr "image"),
      (well_typed cfg PyStr "data_path"), (well_typed cfg PyStr "dockerfile"),
      (well_typed cfg PyStr "restart"). }
  destruct (forallb (well_typed cfg PyStr) ["name"; "image"; "data_path"; "dockerfile"; "restart"])
    eqn:Hs; [|by apply options_fail].
  rewrite options_pass by done.
  destruct (forallb (well_typed cfg PyDict) ["p"; "v"; "e"]) eqn:Hd;
    [|by apply options_fail].
  rewrite options_pass by done.
  destruct (well_typed cfg PyList "any") eqn:Hl.
  - cbn [andb]. by rewrite options_pass by (by simpl; rewrite Hl).
  - cbn [andb]. apply options_fail. simpl. by rewrite Hl.
Qed.

(** X26: [docker_path], which a build passes to [docker], is not among the
    options whose type is checked ([data_path] is there twice): whatever the
    value of [docker_path] is, and whether it is there or not, the
    configuration is accepted or rejected alike, with the same report. *)
Theorem docker_path_is_not_checked cfg value env h :
  _config_check_untyped (<["docker_path" := value]> cfg) env h
  = _config_check_untyped cfg env h.
Proof.
  assert (Hother : forall key, key <> "docker_path" ->
            <["docker_path" := value]> cfg !! key = cfg !! key)
    by (intros key Hkey; by apply lookup_insert_ne).
  unfold _config_check_untyped, type_check. simpl.
  by rewrite !Hother by done.
Qed.

(** X27: a configuration whose values have the types that the fields of
    [Cfg] stand for passes the check of the types, so that for it the whole
    check is the check of the three keys. *)
Theorem typed_configuration_check cfg env h :
  _config_check_untyped (types_of cfg) env h = _config_check cfg env h.
Proof.
  destruct cfg as [[?|] [?|] [?|] [?|] [?|] [?|] [?|] [?|] [?|] [?|]];
    vm_compute; reflexivity.
Qed.

(** ** An upgrade whose pull fails *)

(** X28: when the upgrade goes on to fetch the new image and the pull (the
    build with [-b]) fails, the failure is reported by [Runtime error, exit]
    and the upgrade ends there: the one [docker pull] or [docker build] is
    its only mutating call, so the container is neither stopped nor removed
    and the old image stays. *)
Theorem failed_pull_keeps_container cfg cli containers image old_sha old_id_ env h :
  cfg_image cfg = Some image ->
  let check := _update cfg cli (Some old_sha) env h in
  let pull := _pull cfg cli env (h ++ check.2) in
  forall stale,
    check.1 = Ok stale ->
    stale || cli_b cli = true ->
    pull.1 = Ok false ->
    _upgrade_from cfg cli containers old_sha old_id_ env h
    = (Ok None, check.2 ++ pull.2 ++ [EPrint "Runtime error, exit"])
    /\ exists args c,
         pull.2 = [ESubprocess ("docker" :: args) c]
         /\ returncode c <> 0
         /\ calls (_upgrade_from cfg cli containers old_sha old_id_ env h).2
            = [CSubprocess ("docker" :: args)]
         /\ (cli_b cli = false -> args = ["pull"; image])
         /\ (cli_b cli = true ->
             exists file path,
               cfg_dockerfile cfg = Some file /\ cfg_docker_path cfg = Some path
               /\ args = ["build"; "--rm"; "--no-cache"; "-t"; image; "-f"; file; path]).
Proof.
  intros Himage check pull stale Hcheck Hstale Hpull.
  assert (Hro : Forall (fun ev => read_only ev = true) check.2) by apply update_reads.
  assert (Heq : _upgrade_from cfg cli containers old_sha old_id_ env h
                = (Ok None, check.2 ++ pull.2 ++ [EPrint "Runtime error, exit"])).
  { unfold _upgrade_from. rewrite bind_unfold. subst pull. fold check.
    destruct check as [r ev]. simpl in Hcheck. subst r. cbn [fst snd] in *.
    rewrite Hstale. cbn [negb]. rewrite bind_unfold.
    destruct (_pull cfg cli env (h ++ ev)) as [r ev']. simpl in Hpull. subst r.
    cbn [fst snd negb]. by rewrite bind_print. }
  split; [exact Heq|]. rewrite Heq. cbn [snd].
  rewrite !calls_app, (calls_reads _ Hro). cbn [app].
  subst pull. revert Hpull. rewrite (pull_eq cfg cli image Himage).
  destruct (cli_b cli).
  - destruct (cfg_dockerfile cfg) as [file|]; [|done].
    destruct (cfg_docker_path cfg) as [path|]; [|done].
    rewrite docker_build_eq. cbv zeta. cbn [fst snd]. intros [= Hrc].
    eexists _, _. split_and!; [reflexivity | by apply Z.eqb_neq | reflexivity | done |].
    intros _. by eexists _, _.
  - rewrite docker_pull_eq. cbv zeta. cbn [fst snd]. intros [= Hrc].
    eexists _, _. split_and!; [reflexivity | by apply Z.eqb_neq | reflexivity | done | done].
Qed.

Lemma failed_pull_keeps_container_witness :
  let cfg := config "cont1" "repo:tag" "/d" in
  let cli := command_line Upgrade false false false in
  let env := world (docker_failing "pull" 1) token_ok registry_ok in
  _upgrade_from cfg cli ["cont1"] "sha256:x" "abc" env []
  = (Ok None,
     [EAuthGet "repository:repo:pull" token_ok;
      ERegistryHead "https://registry-1.docker.io/v2/repo/manifests/tag" "Bearer tok"
        registry_ok;
      ESubprocess ["docker"; "pull"; "repo:tag"] (completed 1 "");
      EPrint "Runtime error, exit"]).
Proof.
  intros cfg cli env.
  destruct (failed_pull_keeps_container cfg cli ["cont1"] "repo:tag" "sha256:x" "abc" env []
              eq_refl true eq_refl eq_refl eq_refl) as [H _].
  vm_compute in H. vm_compute. exact H.
Defined.

(** ** Removing what is not there *)

(** X29: when the snapshot lacks the container and the digest listing lacks
    the image, the remove action lists the images and makes no mutating
    call.  The purge action does the same and then still deletes
    [data_path]: the data goes even though there was neither a container nor
    an image to remove. *)
Theorem removal_of_absent_target cfg cli containers name image data_path env h :
  cfg_name cfg = Some name ->
  cfg_image cfg = Some image ->
  cfg_data_path cfg = Some data_path ->
  cli_action cli = Remove \/ cli_action cli = Purge ->
  name ∉ containers ->
  let listing := _docker_images_sha256 env h in
  forall images, listing.1 = Ok images -> images !! image = None ->
  run cfg cli containers env h
  = (Ok (Some 0),
     listing.2 ++ if decide (cli_action cli = Purge) then [ERmtree data_path] else [])
  /\ calls (run cfg cli containers env h).2
     = if decide (cli_action cli = Purge) then [CRmtree data_path] else [].
Proof.
  intros Hname Himage Hdata Haction Hout listing images Hlist Hnone.
  assert (Hstop : cli_stop cli = false) by (destruct Haction as [H|H]; by set_action H).
  assert (Hremove : _remove cfg cli containers env h = (Ok true, listing.2)).
  { rewrite (remove_eq cfg cli containers name Hname) by done.
    rewrite (stop_and_remove_eq cfg cli containers name Hname), decide_False, Hstop by done.
    cbn [fst snd]. rewrite app_nil_r, app_nil_l.
    rewrite (rmi_by_reference_eq cfg image Himage). fold listing.
    destruct listing as [r l]. simpl in Hlist. subst r. cbn [fst snd].
    rewrite Hnone. reflexivity. }
  assert (Hro : Forall (fun ev => read_only ev = true) listing.2)
    by apply images_sha256_reads.
  rewrite (run_action cfg cli containers name image data_path) by done.
  destruct Haction as [Haction|Haction]; rewrite Haction.
  - rewrite Hremove. unfold finish. cbn [fst snd]. rewrite decide_False by done.
    rewrite app_nil_r. split; [done|]. by apply calls_reads.
  - unfold _purge. rewrite bind_unfold, Hremove. cbn [fst snd].
    rewrite Hdata, bind_item. unfold finish. cbn [rmtree fst snd].
    rewrite decide_True by done. split; [done|].
    by rewrite calls_app, (calls_reads _ Hro).
Qed.

Lemma removal_of_absent_target_witness :
  let cfg := config "cont2" "repo:tag" "/d" in
  let cli := command_line Purge false false false in
  let env := world docker_without_image token_ok registry_ok in
  run cfg cli ["cont1"] env []
  = (Ok (Some 0),
     [ESubprocess ["docker"; "images"; "--digests"; "--format";
                   "{{.Repository}}:{{.Tag}} {{.Digest}}"]
        (completed 0 (line "other:1" "sha256:z"));
      ERmtree "/d"]).
Proof.
  intros cfg cli env.
  assert (Hout : "cont2" ∉ ["cont1"]) by (by intros [=]%list_elem_of_singleton).
  destruct (removal_of_absent_target cfg cli ["cont1"] "cont2" "repo:tag" "/d" env []
              eq_refl eq_refl eq_refl (or_intror eq_refl) Hout
              (<["other:1" := "sha256:z"]> ∅) eq_refl eq_refl) as [H _].
  vm_compute in H. vm_compute. exact H.
Defined.

(** ** The source check within the upgrade *)

(** A lookup for a reference with a tag starts with the token request. *)
Lemma remote_sha256_asks registry tag env h :
  has_char ":" tag = false ->
  let scope := "repository:" +:+ registry +:+ ":pull" in
  exists more,
    (_docker_remote_sha256 (registry +:+ ":" +:+ tag) env h).2
    = EAuthGet scope (requests_get_token env h scope) :: more.
Proof.
  intros Htag scope. unfold _docker_remote_sha256.
  change (registry +:+ ":" +:+ tag) with (registry +:+ String ":" tag).
  rewrite (rsplit1_cut _ _ _ Htag). fold scope. rewrite bind_unfold.
  unfold auth_get at 1. cbv zeta. cbn [fst snd app]. by eexists.
Qed.

(** The staleness check of an upgrade starts with the token request. *)
Lemma update_asks_registry cfg cli image registry tag old_sha env h :
  cfg_image cfg = Some image ->
  Py.truthy old_sha = true ->
  image = registry +:+ ":" +:+ tag ->
  has_char ":" tag = false ->
  let scope := "repository:" +:+ registry +:+ ":pull" in
  exists more,
    (_update cfg cli (Some old_sha) env h).2
    = EAuthGet scope (requests_get_token env h scope) :: more.
Proof.
  intros Himage Htruthy -> Htag scope.
  destruct (remote_sha256_asks registry tag env h Htag) as [more Hmore].
  unfold _update. rewrite Htruthy, bind_ret, Himage, bind_item, bind_unfold.
  destruct (_docker_remote_sha256 (registry +:+ ":" +:+ tag) env h) as [[r|e] evs];
    simpl in Hmore; subst evs; cbn [fst snd app]; by eexists.
Qed.

(** How an upgrade goes on once the source check has let it pass: the
    staleness check, and then the pull when the image is stale or is to be
    built. *)
Lemma upgrade_from_goes_on cfg cli containers old_sha old_id_ env h :
  let check := _update cfg cli (Some old_sha) env h in
  let pull := _pull cfg cli env (h ++ check.2) in
  let rest := _upgrade_from cfg cli containers old_sha old_id_ env h in
  exists tail,
    rest.2 = check.2 ++ tail
    /\ (forall stale, check.1 = Ok stale -> stale || cli_b cli = true ->
        exists more, tail = pull.2 ++ more)
    /\ (forall stale, check.1 = Ok stale -> stale || cli_b cli = false ->
        tail = [] /\ rest.1 = Ok None).
Proof.
  intros check pull rest. subst rest pull. unfold _upgrade_from. rewrite bind_unfold.
  fold check. destruct check as [[stale|e] evc]; cbn [fst snd].
  - destruct (stale || cli_b cli) eqn:Hgo; cbn [negb].
    + rewrite bind_unfold.
      destruct (_pull cfg cli env (h ++ evc)) as [[pulled|e] evp]; cbn [fst snd].
      * eexists. split; [reflexivity|]. split; [|by intros ? [= <-]; rewrite Hgo].
        intros _ _ _. by eexists.
      * exists evp. split; [done|]. split; [|by intros ? [= <-]; rewrite Hgo].
        intros _ _ _. exists []. by rewrite app_nil_r.
    + exists []. split; [done|]. split; [by intros ? [= <-]; rewrite Hgo|].
      by intros _ _ _.
  - exists []. rewrite app_nil_r. by split_and!.
Qed.

(** C5 (amended): in an upgrade of an image that has a local digest and a
    local ID, the provenance is inferred from the digest: the sentinel
    [<none>] means a local build, any other value the registry.  When it
    differs from the provenance that [-b] asks for and [-f] is not set, the
    upgrade is refused: the worker reports the blocked direction, makes no
    mutating call and ends.  In every other case, so always with [-f], the
    upgrade goes on: nothing is reported about the source, the staleness
    check is made next (for a digest that is not empty it begins with the
    token request for the repository), and when the check finds the image
    stale, or with [-b], the image is pulled by [docker pull] or built by
    [docker build]. *)
Theorem source_guard cfg cli containers name image data_path
    old_sha old_id_ images ids ev1 ev2 env h :
  cfg_name cfg = Some name ->
  cfg_image cfg = Some image ->
  cfg_data_path cfg = Some data_path ->
  cli_action cli = Upgrade ->
  _docker_images_sha256 env h = (Ok images, ev1) ->
  images !! image = Some old_sha ->
  _docker_images_id env (h ++ ev1) = (Ok ids, ev2) ->
  ids !! image = Some old_id_ ->
  let old := inferred_source old_sha in
  let new := requested_source cli in
  let h2 := h ++ ev1 ++ ev2 in
  let rest := _upgrade_from cfg cli containers old_sha old_id_ env h2 in
  let check := _update cfg cli (Some old_sha) env h2 in
  let h3 := h2 ++ check.2 in
  let pull := _pull cfg cli env h3 in
  inferred_source "<none>" = LocalBuild
  /\ (old_sha <> "<none>" -> old = Hub)
  /\ run cfg cli containers env h
     = (if decide (old <> new /\ cli_f cli = false) then
          (Ok (Some 0),
           ev1 ++ ev2
             ++ [EPrint ("Disallow! Use -f for change image source from "
                           +:+ source_name old +:+ " to " +:+ source_name new)])
        else
          (match rest.1 with Ok _ => Ok (Some 0) | Raise e => Raise e end,
           ev1 ++ ev2 ++ rest.2))
  /\ (old <> new -> cli_f cli = false -> calls (run cfg cli containers env h).2 = [])
  /\ (old = new \/ cli_f cli = true ->
      exists tail,
        (run cfg cli containers env h).2 = ev1 ++ ev2 ++ check.2 ++ tail
        /\ (forall stale, check.1 = Ok stale -> stale || cli_b cli = true ->
            exists more, tail = pull.2 ++ more)
        /\ (forall stale, check.1 = Ok stale -> stale || cli_b cli = false ->
            tail = [] /\ (run cfg cli containers env h).1 = Ok (Some 0))
        /\ (forall registry tag,
              Py.truthy old_sha = true ->
              image = registry +:+ ":" +:+ tag -> has_char ":" tag = false ->
              let scope := "repository:" +:+ registry +:+ ":pull" in
              exists more, check.2 = EAuthGet scope (requests_get_token env h2 scope) :: more)
        /\ (cli_b cli = false ->
            pull.2 = [ESubprocess ["docker"; "pull"; image]
                        (subprocess_run env h3 ["docker"; "pull"; image])])
        /\ (forall file path,
              cli_b cli = true ->
              cfg_dockerfile cfg = Some file -> cfg_docker_path cfg = Some path ->
              let cmd := ["docker"; "build"; "--rm"; "--no-cache"; "-t"; image;
                          "-f"; file; path] in
              pull.2 = [ESubprocess cmd (subprocess_run env h3 cmd)])).
Proof.
  intros Hname Himage Hdata Haction H1 Hsha H2 Hid old new h2 rest check h3 pull.
  assert (Hrun : run cfg cli containers env h
     = (if decide (old <> new /\ cli_f cli = false) then
          (Ok (Some 0),
           ev1 ++ ev2
             ++ [EPrint ("Disallow! Use -f for change image source from "
                           +:+ source_name old +:+ " to " +:+ source_name new)])
        else
          (match rest.1 with Ok _ => Ok (Some 0) | Raise e => Raise e end,
           ev1 ++ ev2 ++ rest.2))).
  { rewrite (run_action cfg cli containers name image data_path) by done.
    rewrite Haction. unfold _upgrade. exec H1. rewrite Himage, bind_item, Hsha.
    exec H2. rewrite bind_item, Hid.
    rewrite (bind_unfold (_allow_source_change cli old_sha)).
    rewrite allow_source_change_eq. fold old new.
    destruct (decide (old <> new /\ cli_f cli = false)); unfold finish; cbn [fst snd negb].
    - done.
    - rewrite app_nil_r, <- app_assoc. fold h2 rest. done. }
  split_and!; [done| |done| |].
  - intros Hne. subst old. unfold inferred_source. by rewrite decide_False.
  - intros Hne Hf. rewrite Hrun, decide_True by done. simpl.
    rewrite !calls_app.
    pose proof (images_sha256_reads env h) as Hr1. rewrite H1 in Hr1.
    pose proof (images_id_reads env (h ++ ev1)) as Hr2. rewrite H2 in Hr2.
    simpl in Hr1, Hr2. by rewrite (calls_reads _ Hr1), (calls_reads _ Hr2).
  - intros Hpass. rewrite Hrun, decide_False.
    2: { intros [Hne Hf]. destruct Hpass; [done | congruence]. }
    cbn [fst snd].
    destruct (upgrade_from_goes_on cfg cli containers old_sha old_id_ env h2)
      as (tail & Hrest & Hstale & Hfresh).
    fold rest check h3 pull in Hrest, Hstale, Hfresh.
    exists tail. split_and!.
    + by rewrite Hrest.
    + exact Hstale.
    + intros stale Hcheck Hgo. destruct (Hfresh stale Hcheck Hgo) as [-> ->]. done.
    + intros registry tag Htruthy Hcut Htag.
      by apply (update_asks_registry cfg cli image registry tag).
    + intros Hb. subst pull. rewrite (pull_eq cfg cli image Himage), Hb.
      by rewrite docker_pull_eq.
    + intros file path Hb Hfile Hpath. subst pull.
      rewrite (pull_eq cfg cli image Himage), Hb, Hfile, Hpath.
      by rewrite docker_build_eq.
Qed.

(** An upgrade by pull of an image that was built locally.  Without [-f] it
    is refused with the direction, after the two listings.  With [-f] it
    goes on: the registry is asked and the image is pulled. *)
Lemma source_guard_witness :
  let cfg := config "cont1" "repo:tag" "/d" in
  let blocked := command_line Upgrade false false false in
  let forced := command_line Upgrade false false true in
  let env := world docker_local_build token_ok registry_ok in
  let l1 := ESubprocess ["docker"; "images"; "--digests"; "--format";
                         "{{.Repository}}:{{.Tag}} {{.Digest}}"]
              (completed 0 (line "repo:tag" "<none>")) in
  let l2 := ESubprocess ["docker"; "images"; "--format";
                         "{{.Repository}}:{{.Tag}} {{.ID}}"]
              (completed 0 (line "repo:tag" "abc")) in
  (cfg_name cfg = Some "cont1" /\ cfg_image cfg = Some "repo:tag"
   /\ cfg_data_path cfg = Some "/d" /\ cli_action blocked = Upgrade
   /\ cli_action forced = Upgrade
   /\ _docker_images_sha256 env [] = (Ok {[ "repo:tag" := "<none>" ]}, [l1])
   /\ ({[ "repo:tag" := "<none>" ]} : gmap string string) !! "repo:tag" = Some "<none>"
   /\ _docker_images_id env [l1] = (Ok {[ "repo:tag" := "abc" ]}, [l2])
   /\ ({[ "repo:tag" := "abc" ]} : gmap string string) !! "repo:tag" = Some "abc")
  /\ run cfg blocked ["cont1"] env []
     = (Ok (Some 0),
        [l1; l2;
         EPrint "Disallow! Use -f for change image source from local build to hub"])
  /\ exists more,
       (run cfg forced ["cont1"] env []).2
       = [l1; l2;
          EAuthGet "repository:repo:pull" token_ok;
          ERegistryHead "https://registry-1.docker.io/v2/repo/manifests/tag" "Bearer tok"
            registry_ok;
          ESubprocess ["docker"; "pull"; "repo:tag"] (completed 0 "")] ++ more.
Proof.
  intros cfg blocked forced env l1 l2.
  assert (H1 : _docker_images_sha256 env [] = (Ok {[ "repo:tag" := "<none>" ]}, [l1]))
    by (vm_compute; reflexivity).
  assert (H2 : _docker_images_id env ([] ++ [l1]) = (Ok {[ "repo:tag" := "abc" ]}, [l2]))
    by (vm_compute; reflexivity).
  split; [split_and!; first [reflexivity | exact H1 | exact H2]|].
  split.
  - pose proof (source_guard cfg blocked ["cont1"] "cont1" "repo:tag" "/d" "<none>" "abc"
                  _ _ _ _ env [] eq_refl eq_refl eq_refl eq_refl H1 eq_refl H2 eq_refl)
      as (_ & _ & H & _).
    vm_compute in H. vm_compute. exact H.
  - pose proof (source_guard cfg forced ["cont1"] "cont1" "repo:tag" "/d" "<none>" "abc"
                  _ _ _ _ env [] eq_refl eq_refl eq_refl eq_refl H1 eq_refl H2 eq_refl)
      as (_ & _ & _ & _ & H).
    destruct (H (or_intror eq_refl)) as (tail & Hevs & Hstale & _ & _ & Hpull & _).
    destruct (Hstale true eq_refl eq_refl) as [more Htail].
    exists more. rewrite Hevs, Htail, (Hpull eq_refl). reflexivity.
Defined.

(** C5, as stated, fails for an image that has a digest but no entry in the
    ID listing: the upgrade stops at the missing ID before the source is
    looked at, so that without [-f] no direction is reported, and with [-f]
    the upgrade does not go on either. *)
Lemma source_guard_needs_image_id :
  let cfg := config "cont1" "repo:tag" "/d" in
  let blocked := command_line Upgrade false false false in
  let forced := command_line Upgrade false false true in
  let docker args := match args with
                     | "images" :: "--digests" :: _ => completed 0 (line "repo:tag" "<none>")
                     | _ => docker_without_image args
                     end in
  let env := world docker token_ok registry_ok in
  let l1 := ESubprocess ["docker"; "images"; "--digests"; "--format";
                         "{{.Repository}}:{{.Tag}} {{.Digest}}"]
              (completed 0 (line "repo:tag" "<none>")) in
  let l2 := ESubprocess ["docker"; "images"; "--format";
                         "{{.Repository}}:{{.Tag}} {{.ID}}"]
              (completed 0 (line "other:1" "sha256:z")) in
  _docker_images_sha256 env [] = (Ok {[ "repo:tag" := "<none>" ]}, [l1])
  /\ inferred_source "<none>" <> requested_source blocked
  /\ run cfg blocked ["cont1"] env []
     = (Ok (Some 0), [l1; l2; EPrint "Runtime error,cont1 ID not found, exit"])
  /\ run cfg forced ["cont1"] env []
     = (Ok (Some 0), [l1; l2; EPrint "Runtime error,cont1 ID not found, exit"]).
Proof. intros. split_and!; by vm_compute. Qed.

(** ** The upgrade after the pull *)

Lemma stop_and_remove_returns cfg cli containers name env h :
  cfg_name cfg = Some name ->
  exists ready, (_stop_and_remove cfg cli containers env h).1 = Ok ready.
Proof.
  intros Hname. rewrite (stop_and_remove_eq cfg cli containers name Hname).
  destruct (decide (name ∈ containers)); cbv zeta; [|by eexists].
  destruct (returncode _ =? 0); by eexists.
Qed.

(** The part of an upgrade that follows a pull that succeeded: the old
    container is stopped and removed, the new one is created when both went
    well, and then, whatever came of these three, the old image is deleted.
    Only an exception of the run stops the upgrade before the deletion. *)
Lemma upgrade_from_after_pull cfg cli containers name image old_sha old_id_ stale env h :
  cfg_name cfg = Some name ->
  cfg_image cfg = Some image ->
  has_char ":" image = true ->
  let check := _update cfg cli (Some old_sha) env h in
  let h3 := h ++ check.2 in
  let pull := _pull cfg cli env h3 in
  let h4 := h3 ++ pull.2 in
  let swap := _stop_and_remove cfg cli containers env h4 in
  let h5 := h4 ++ swap.2 in
  let start := match swap.1 with
               | Ok true => _run cfg cli env h5
               | _ => (Ok false, [])
               end in
  let h6 := h5 ++ start.2 in
  let delete := _rmi cfg (Some old_id_) env h6 in
  check.1 = Ok stale ->
  stale || cli_b cli = true ->
  pull.1 = Ok true ->
  _upgrade_from cfg cli containers old_sha old_id_ env h
  = match start.1 with
    | Raise e => (Raise e, check.2 ++ pull.2 ++ swap.2 ++ start.2)
    | Ok _ =>
        (match delete.1 with Ok _ => Ok None | Raise e => Raise e end,
         check.2 ++ pull.2 ++ swap.2 ++ start.2 ++ delete.2)
    end.
Proof.
  intros Hname Himage Hcolon check h3 pull h4 swap h5 start h6 delete Hcheck Hgo Hpull.
  subst delete h6 start h5 swap h4 pull h3.
  unfold _upgrade_from. rewrite bind_unfold. fold check.
  destruct check as [r evc]. simpl in Hcheck. subst r. cbn [fst snd] in *.
  rewrite Hgo. cbn [negb]. rewrite bind_unfold.
  destruct (_pull cfg cli env (h ++ evc)) as [r evp]. simpl in Hpull. subst r.
  cbn [fst snd negb]. rewrite bind_unfold.
  destruct (stop_and_remove_returns cfg cli containers name env ((h ++ evc) ++ evp) Hname)
    as [ready Hready].
  destruct (_stop_and_remove cfg cli containers env ((h ++ evc) ++ evp)) as [r evs].
  simpl in Hready. subst r. cbn [fst snd].
  destruct (rsplit1_cuts _ _ Hcolon) as (registry & tag & Hcut).
  rewrite bind_unfold. destruct ready.
  - rewrite bind_unfold.
    destruct (_run cfg cli env (((h ++ evc) ++ evp) ++ evs)) as [[started|e] evr];
      cbn [fst snd]; [|done].
    rewrite app_nil_r, Himage, bind_item, Hcut, bind_unfold.
    destruct (_rmi cfg (Some old_id_) env _) as [[deleted|e] evd]; cbn [fst snd].
    + by rewrite app_nil_r.
    + done.
  - cbn [ret fst snd]. rewrite !app_nil_r, Himage, bind_item, Hcut, bind_unfold.
    destruct (_rmi cfg (Some old_id_) env _) as [[deleted|e] evd]; cbn [fst snd app].
    + by rewrite app_nil_r.
    + done.
Qed.

(** The deletion by an ID that is still listed. *)
Lemma rmi_listed_id cfg image i known evl env h :
  cfg_image cfg = Some image ->
  i <> "" ->
  _docker_repo_id env h = (Ok known, evl) ->
  i ∈ known ->
  let c := subprocess_run env (h ++ evl) ["docker"; "rmi"; i] in
  _rmi cfg (Some i) env h = (Ok (returncode c =? 0), evl ++ rmi_events i c).
Proof.
  intros Himage Hne Hids Hin c.
  assert (Htarget : rmi_target image (Some i) = i) by (unfold rmi_target; by destruct i).
  unfold _rmi. rewrite bind_assoc, bind_unfold, Hids. cbn [fst snd].
  rewrite decide_True by done.
  rewrite bind_ret, (rmi_delete_eq cfg image Himage (Some i)), Htarget. reflexivity.
Qed.

(** C1 (amended): in every upgrade, an image deletion is the deletion of the
    old image by the ID that the ID listing gave for the reference (by the
    reference itself when that ID is the empty string); it comes only after a
    pull or build that succeeded, and it is the last call of the upgrade, so
    every stop, container removal and run of the replacement comes before it.
    A failed deletion is reported and the worker still ends with status 0.
    The deletion does not wait for the replacement to run: once the pull or
    build has succeeded, the old container is stopped and removed, the new
    one is created when both went well, and then the deletion step is made
    whatever came of the stop, the container removal and the run, unless the
    run raised; the step sends [docker rmi] with the old ID whenever the ID
    is still listed. *)
Theorem upgrade_deletes_old_image_last cfg cli containers env h :
  cli_action cli = Upgrade ->
  (forall pre ev post,
     (run cfg cli containers env h).2 = pre ++ ev :: post ->
     is_docker "rmi" ev = true ->
     existsb pulled pre = true
     /\ Forall (fun e => read_only e = true) post
     /\ existsb (is_docker "run") post = false
     /\ (succeeded ev = false -> exists msg, post = [EPrint msg])
     /\ (run cfg cli containers env h).1 = Ok (Some 0)
     /\ exists image old_id_ ids cid c before after,
          cfg_image cfg = Some image
          /\ pre = before
                     ++ ESubprocess ["docker"; "images"; "--format";
                                     "{{.Repository}}:{{.Tag}} {{.ID}}"] cid
                     :: after
          /\ calls before = []
          /\ parse_listing (Py.split NL (Py.strip NL (stdout cid))) ∅ = Ok ids
          /\ ids !! image = Some old_id_
          /\ ev = ESubprocess ["docker"; "rmi"; rmi_target image (Some old_id_)] c
          /\ (old_id_ <> "" -> ev = ESubprocess ["docker"; "rmi"; old_id_] c))
  /\ (forall name image data_path old_sha old_id_ images ids ev1 ev2 stale,
        cfg_name cfg = Some name ->
        cfg_image cfg = Some image ->
        cfg_data_path cfg = Some data_path ->
        _docker_images_sha256 env h = (Ok images, ev1) ->
        images !! image = Some old_sha ->
        _docker_images_id env (h ++ ev1) = (Ok ids, ev2) ->
        ids !! image = Some old_id_ ->
        inferred_source old_sha = requested_source cli \/ cli_f cli = true ->
        has_char ":" image = true ->
        let h2 := h ++ ev1 ++ ev2 in
        let check := _update cfg cli (Some old_sha) env h2 in
        let h3 := h2 ++ check.2 in
        let pull := _pull cfg cli env h3 in
        let h4 := h3 ++ pull.2 in
        let swap := _stop_and_remove cfg cli containers env h4 in
        let h5 := h4 ++ swap.2 in
        let start := match swap.1 with
                     | Ok true => _run cfg cli env h5
                     | _ => (Ok false, [])
                     end in
        let h6 := h5 ++ start.2 in
        let delete := _rmi cfg (Some old_id_) env h6 in
        check.1 = Ok stale ->
        stale || cli_b cli = true ->
        pull.1 = Ok true ->
        run cfg cli containers env h
        = match start.1 with
          | Raise e => (Raise e, ev1 ++ ev2 ++ check.2 ++ pull.2 ++ swap.2 ++ start.2)
          | Ok _ =>
              ((finish delete).1,
               ev1 ++ ev2 ++ check.2 ++ pull.2 ++ swap.2 ++ start.2 ++ delete.2)
          end
        /\ (forall known evl,
              old_id_ <> "" ->
              _docker_repo_id env h6 = (Ok known, evl) ->
              old_id_ ∈ known ->
              let c := subprocess_run env (h6 ++ evl) ["docker"; "rmi"; old_id_] in
              delete = (Ok (returncode c =? 0), evl ++ rmi_events old_id_ c))).
Proof.
  intros Haction. split.
  { intros pre ev post. unfold run. rewrite bind_unfold.
    pose proof (only_config_check read_only cfg (fun _ => eq_refl) env h) as Hread0.
    pose proof (only_config_check no_rmi cfg (fun _ => eq_refl) env h) as Hev0.
    destruct (_config_check cfg env h) as [[ok|e] ev0]; simpl in Hread0, Hev0 |- *.
    2: { intros -> Hev. apply Forall_app in Hev0 as [_ Hev0].
         apply Forall_cons in Hev0 as [Hno _]. unfold no_rmi in Hno.
         by rewrite Hev in Hno. }
    set_action Haction. destruct ok; simpl.
    2: { rewrite app_nil_r. intros -> Hev. apply Forall_app in Hev0 as [_ Hev0].
         apply Forall_cons in Hev0 as [Hno _]. unfold no_rmi in Hno.
         by rewrite Hev in Hno. }
    rewrite !bind_unfold.
    destruct (upgrade_shape cfg cli containers env (h ++ ev0))
      as [Hno|(image & old_id_ & ids & cid & front & ro & c
               & Himage & Hevs & Hfront & Hpulled & Hro & Hres
               & (before & after & Hcid & Hbefore) & Hparse & Hid)].
    - destruct (_upgrade cfg cli containers env (h ++ ev0)) as [[r|e] evs];
        simpl in *; rewrite ?app_nil_r; intros Heq Hev.
      all: assert (Hall : Forall (fun ev => no_rmi ev = true) (pre ++ ev :: post))
             by (rewrite <- Heq; by apply Forall_app).
      all: apply Forall_app in Hall as [_ Hall];
        apply Forall_cons in Hall as [Hnoev _]; unfold no_rmi in Hnoev;
        by rewrite Hev in Hnoev.
    - destruct (_upgrade cfg cli containers env (h ++ ev0)) as [r evs];
        simpl in *. subst r evs. simpl. rewrite !app_nil_r.
      unfold rmi_events. rewrite !app_assoc. intros Heq Hev.
      apply split_at_rmi in Heq as (-> & -> & ->); try done.
      + split_and!.
        * rewrite !existsb_app, Hpulled. by rewrite orb_true_r.
        * destruct (returncode c =? 0); by repeat constructor.
        * by destruct (returncode c =? 0).
        * simpl. intros ->. by eexists.
        * done.
        * exists image, old_id_, ids, cid, c, (ev0 ++ before), (after ++ ro).
          split_and!; try done.
          -- rewrite Hcid. by rewrite <- !app_assoc.
          -- apply calls_reads. by apply Forall_app.
          -- intros Hne. unfold rmi_target. by destruct old_id_.
      + rewrite <- app_assoc. apply Forall_app. split; [done|].
        apply Forall_app. split; [done|]. by apply read_only_no_rmi.
      + destruct (returncode c =? 0); by repeat constructor. }
  intros name image data_path old_sha old_id_ images ids ev1 ev2 stale.
  intros Hname Himage Hdata H1 Hsha H2 Hid Hpass Hcolon.
  intros h2 check h3 pull h4 swap h5 start h6 delete Hcheck Hgo Hpull.
  split; [|intros known evl Hne Hids Hin;
           exact (rmi_listed_id cfg image old_id_ known evl env h6 Himage Hne Hids Hin)].
  rewrite (run_action cfg cli containers name image data_path) by done.
  rewrite Haction. unfold _upgrade. exec H1. rewrite Himage, bind_item, Hsha.
  exec H2. rewrite bind_item, Hid.
  rewrite (bind_unfold (_allow_source_change cli old_sha)), allow_source_change_eq.
  rewrite decide_False.
  2: { intros [Hne Hf]. destruct Hpass; [done | congruence]. }
  cbn [fst snd negb]. rewrite app_nil_r, <- app_assoc. fold h2.
  rewrite (upgrade_from_after_pull cfg cli containers name image old_sha old_id_ stale
             env h2 Hname Himage Hcolon Hcheck Hgo Hpull).
  fold check h3 pull h4 swap h5 start h6 delete. unfold finish.
  destruct start.1 as [started|e]; cbn [fst snd]; [|done].
  by destruct delete.1.
Qed.

(** An upgrade in a world where the removal of the old container fails: the
    replacement is not created, and the old image [abc] is deleted all the
    same, last and after the pull. *)
Lemma upgrade_deletes_old_image_last_witness :
  let cfg := config "cont1" "repo:tag" "/d" in
  let cli := command_line Upgrade false false false in
  let env := world (docker_failing "rm" 1) token_ok registry_ok in
  let evs := (run cfg cli ["cont1"] env []).2 in
  let pre := take 9 evs in
  let ev := ESubprocess ["docker"; "rmi"; "abc"] (completed 0 "") in
  (cli_action cli = Upgrade /\ evs = pre ++ ev :: [] /\ is_docker "rmi" ev = true)
  /\ existsb pulled pre = true
  /\ (run cfg cli ["cont1"] env []).1 = Ok (Some 0)
  /\ calls evs
     = [CSubprocess ["docker"; "pull"; "repo:tag"];
        CSubprocess ["docker"; "stop"; "cont1"];
        CSubprocess ["docker"; "rm"; "cont1"];
        CSubprocess ["docker"; "rmi"; "abc"]].
Proof.
  intros cfg cli env evs pre ev.
  assert (Hevs : evs = pre ++ ev :: []) by by vm_compute.
  split; [by split_and!|].
  destruct (upgrade_deletes_old_image_last cfg cli ["cont1"] env [] eq_refl)
    as [Hplace Hattempt].
  destruct (Hplace pre ev [] Hevs eq_refl) as (H1 & _ & _ & _ & H2 & _).
  split_and!; [exact H1 | exact H2 |].
  destruct (Hattempt "cont1" "repo:tag" "/d" "sha256:x" "abc"
              (<["repo:tag" := "sha256:x"]> ∅) (<["repo:tag" := "abc"]> ∅) _ _ true
              eq_refl eq_refl eq_refl eq_refl eq_refl eq_refl eq_refl
              (or_introl eq_refl) eq_refl eq_refl eq_refl eq_refl) as [Hrun _].
  subst evs. rewrite Hrun. vm_compute. reflexivity.
Defined.

(** C1, as stated, fails: when the stop or the removal of the old container
    fails, no replacement is started, and when the run of the replacement
    fails, none is running; the old image is deleted all the same. *)
Lemma upgrade_deletes_without_replacement :
  let cfg := config "cont1" "repo:tag" "/d" in
  let cli := command_line Upgrade false false false in
  let stop_fails := world (docker_failing "stop" 1) token_ok registry_ok in
  let rm_fails := world (docker_failing "rm" 1) token_ok registry_ok in
  let run_fails := world (docker_failing "run" 1) token_ok registry_ok in
  let deleted ev := is_docker "rmi" ev && succeeded ev in
  let started ev := is_docker "run" ev && succeeded ev in
  (calls (run cfg cli ["cont1"] stop_fails []).2
   = [CSubprocess ["docker"; "pull"; "repo:tag"];
      CSubprocess ["docker"; "stop"; "cont1"];
      CSubprocess ["docker"; "rmi"; "abc"]]
   /\ existsb deleted (run cfg cli ["cont1"] stop_fails []).2 = true
   /\ existsb (is_docker "run") (run cfg cli ["cont1"] stop_fails []).2 = false)
  /\ (calls (run cfg cli ["cont1"] rm_fails []).2
      = [CSubprocess ["docker"; "pull"; "repo:tag"];
         CSubprocess ["docker"; "stop"; "cont1"];
         CSubprocess ["docker"; "rm"; "cont1"];
         CSubprocess ["docker"; "rmi"; "abc"]]
      /\ existsb deleted (run cfg cli ["cont1"] rm_fails []).2 = true
      /\ existsb (is_docker "run") (run cfg cli ["cont1"] rm_fails []).2 = false)
  /\ (calls (run cfg cli ["cont1"] run_fails []).2
      = [CSubprocess ["docker"; "pull"; "repo:tag"];
         CSubprocess ["docker"; "stop"; "cont1"];
         CSubprocess ["docker"; "rm"; "cont1"];
         CSubprocess ["docker"; "run"; "-d"; "--restart=always"; "--name"; "cont1";
                      "repo:tag"];
         CSubprocess ["docker"; "rmi"; "abc"]]
      /\ existsb deleted (run cfg cli ["cont1"] run_fails []).2 = true
      /\ existsb started (run cfg cli ["cont1"] run_fails []).2 = false).
Proof. intros. split_and!; by vm_compute. Qed.
